(** * career-curve: the job-posting ingestion pipeline

    A shallow embedding of the two server-side TypeScript modules that make
    up the ingestion pipeline:

    - the analyze-job edge function (src/supabase/functions/parse-resume/index.ts,
      lines 167-771): [ALLOWED_DOMAINS], [validateUrl] and the request
      handler passed to [serve];
    - its import [../_shared/gemini.ts] (src/unnamed/part_004, lines 1-220):
      [buildGeminiRequest] and [normalizeGeminiToLovable] with their helpers.

    JavaScript strings are sequences of UTF-16 code units, JSON data is an
    inductive type, the handler is a tree of awaited calls whose answers come
    from the outside world, and the subscription table is a finite map.
    What the JavaScript platform provides ([new URL], [JSON.parse],
    [JSON.stringify], the regular-expression scans of a fetched page, the
    process environment, the database client) is an interface, [Platform],
    of which the file gives one small executable instance.  Calls to
    [console.log] and [console.error] are left out. *)

From Stdlib Require Import ZArith NArith String Ascii List Bool Lia DecimalString.
From stdpp Require Import base option list gmap.
Import ListNotations.

Set Warnings "-register-all".

(* ===================================================================== *)
(** * JavaScript strings *)
(* ===================================================================== *)

(** A string is its sequence of UTF-16 code units; [length] is the
    JavaScript [.length]. *)
Abbreviation jsstring := (list N) (only parsing).

(** Source literals are written in UTF-8; [js] decodes one into code units
    (a code point above the basic plane becomes a surrogate pair). *)
Fixpoint utf16_of_utf8 (bs : list N) : jsstring :=
  match bs with
  | [] => []
  | b0 :: r0 =>
      if (b0 <? 128)%N then b0 :: utf16_of_utf8 r0
      else if (b0 <? 224)%N then
        match r0 with
        | b1 :: r1 => ((b0 mod 32) * 64 + b1 mod 64)%N :: utf16_of_utf8 r1
        | [] => []
        end
      else if (b0 <? 240)%N then
        match r0 with
        | b1 :: b2 :: r2 =>
            ((b0 mod 16) * 4096 + (b1 mod 64) * 64 + b2 mod 64)%N
              :: utf16_of_utf8 r2
        | _ => []
        end
      else
        match r0 with
        | b1 :: b2 :: b3 :: r3 =>
            let cp := ((b0 mod 8) * 262144 + (b1 mod 64) * 4096
                       + (b2 mod 64) * 64 + b3 mod 64)%N in
            let v := (cp - 65536)%N in
            (55296 + v / 1024)%N :: (56320 + v mod 1024)%N :: utf16_of_utf8 r3
        | _ => []
        end
  end.

Definition js (s : string) : jsstring :=
  utf16_of_utf8 (List.map N_of_ascii (list_ascii_of_string s)).

(** [a === b] on strings. *)
Definition streq (a b : jsstring) : bool := bool_decide (a = b).

(** [s.startsWith(p)] *)
Fixpoint startsWith (s p : jsstring) {struct p} : bool :=
  match p, s with
  | [], _ => true
  | c :: p', d :: s' => (c =? d)%N && startsWith s' p'
  | _ :: _, [] => false
  end.

(** [s.endsWith(p)] *)
Definition endsWith (s p : jsstring) : bool := startsWith (rev s) (rev p).

(** [s.includes(p)] *)
Fixpoint includes (s p : jsstring) : bool :=
  startsWith s p || match s with [] => false | _ :: s' => includes s' p end.

(** White space and line terminators, the code units [trim] removes. *)
Definition isWhiteSpace (c : N) : bool :=
  existsb (N.eqb c)
    [9; 10; 11; 12; 13; 32; 160; 5760; 8232; 8233; 8239; 8287; 12288; 65279]%N
  || ((8192 <=? c)%N && (c <=? 8202)%N).

Fixpoint trimStart (s : jsstring) : jsstring :=
  match s with
  | c :: s' => if isWhiteSpace c then trimStart s' else s
  | [] => []
  end.

(** [s.trim()] *)
Definition trim (s : jsstring) : jsstring := rev (trimStart (rev (trimStart s))).

(** [s.toLowerCase()], on the ASCII letters.  The handler applies it to the
    host name of an http(s) URL only, which the URL parser has already
    brought to lower-case ASCII. *)
Definition lowerUnit (c : N) : N :=
  if (65 <=? c)%N && (c <=? 90)%N then (c + 32)%N else c.
Definition toLowerCase (s : jsstring) : jsstring := List.map lowerUnit s.

(** [s.length] *)
Definition len (s : jsstring) : Z := Z.of_nat (length s).

(** [s.substring(0, n)] *)
Definition substring0 (n : Z) (s : jsstring) : jsstring := firstn (Z.to_nat n) s.

(** [parts.join(sep)] *)
Fixpoint join (sep : jsstring) (parts : list jsstring) : jsstring :=
  match parts with
  | [] => []
  | [p] => p
  | p :: rest => p ++ sep ++ join sep rest
  end.

(** The text after the last occurrence of [sep]: [s.split(sep).pop()] for a
    one-unit separator. *)
Fixpoint afterLast (sep : N) (s : jsstring) : jsstring :=
  match s with
  | [] => []
  | c :: s' =>
      if existsb (N.eqb sep) s' then afterLast sep s'
      else if (c =? sep)%N then s' else s
  end.

(** Decimal digits of a natural number, as [String(n)] prints them. *)
Definition decimal (n : N) : jsstring :=
  js (NilEmpty.string_of_uint (N.to_uint n)).

(** [/[가-힣]/.test(s)]: some code unit is a precomposed Hangul syllable. *)
Definition hasHangul (s : jsstring) : bool :=
  existsb (fun c => (44032 <=? c)%N && (c <=? 55203)%N) s.

(* ===================================================================== *)
(** * JSON data *)
(* ===================================================================== *)

(** What [JSON.parse] and [response.json()] produce.  An object keeps its
    properties in order.  Numbers are the integral ones; no definition
    below looks at a number beyond asking whether it is zero. *)
Inductive JValue : Type :=
| JNull
| JBool (b : bool)
| JNum (n : Z)
| JStr (s : jsstring)
| JArr (items : list JValue)
| JObj (fields : list (jsstring * JValue)).

(** [!!v] *)
Definition truthy (v : JValue) : bool :=
  match v with
  | JNull => false
  | JBool b => b
  | JNum n => negb (n =? 0)%Z
  | JStr s => match s with [] => false | _ => true end
  | JArr _ | JObj _ => true
  end.

(** A value that may be [undefined] is an [option JValue]. *)
Definition truthy_opt (v : option JValue) : bool :=
  match v with Some x => truthy x | None => false end.

Fixpoint assoc (key : jsstring) (fields : list (jsstring * JValue)) : option JValue :=
  match fields with
  | [] => None
  | (k, v) :: rest => if streq k key then Some v else assoc key rest
  end.

(** [v?.key] for one of the property names the program reads ([candidates],
    [content], [parts], [text], [functionCall], [args], [arguments], [url],
    [isJobPosting]): only an object can have it. *)
Definition prop (key : jsstring) (v : option JValue) : option JValue :=
  match v with
  | Some (JObj fields) => assoc key fields
  | _ => None
  end.

(** [v?.[0]]: the first element of an array, the first code unit of a
    string, the property ["0"] of an object. *)
Definition index0 (v : option JValue) : option JValue :=
  match v with
  | Some (JArr (x :: _)) => Some x
  | Some (JStr (c :: _)) => Some (JStr [c])
  | Some (JObj fields) => assoc (js "0") fields
  | _ => None
  end.

(** [a ?? b] *)
Definition nullish_or (a b : option JValue) : option JValue :=
  match a with
  | None | Some JNull => b
  | Some _ => a
  end.

(** [obj[key] = v] on an ordered property list. *)
Fixpoint set_field (key : jsstring) (v : JValue) (fields : list (jsstring * JValue))
  : list (jsstring * JValue) :=
  match fields with
  | [] => [(key, v)]
  | (k, x) :: rest =>
      if streq k key then (k, v) :: rest else (k, x) :: set_field key v rest
  end.

(** The own enumerable properties an object spread [{...v}] copies. *)
Definition spread (v : JValue) : list (jsstring * JValue) :=
  match v with
  | JObj fields => fields
  | JArr items => imap (fun i x => (decimal (N.of_nat i), x)) items
  | JStr s => imap (fun i c => (decimal (N.of_nat i), JStr [c])) s
  | _ => []
  end.

(* ===================================================================== *)
(** * What the platform provides *)
(* ===================================================================== *)

(** A value thrown and caught: [error instanceof Error] with its
    [message], or anything else. *)
Inductive Thrown : Type :=
| ErrorObject (message : jsstring)
| OtherValue (v : JValue).

(** The two fields of a parsed [URL] the validator reads. *)
Record URL := { protocol : jsstring; hostname : jsstring }.

Class Platform := {
  (** [new URL(s)]; [None] when the constructor throws. *)
  URL_parse : jsstring -> option URL;
  (** [JSON.parse(s)]; [None] when it throws. *)
  JSON_parse : jsstring -> option JValue;
  (** [JSON.stringify(v)] on JSON data. *)
  JSON_stringify : JValue -> jsstring;
  (** [Deno.env.get(name)] *)
  Deno_env_get : jsstring -> option jsstring;
  (** The [count] the database client reports for an update that changed
      [n] rows.  The handler's update asks for no count (lines 340-348). *)
  report_count : nat -> option Z;
  (** The regular-expression scans of a fetched page (index.ts, the
      direct-fetch branch): the trimmed [<title>] text, the trimmed
      description [<meta>], the re-serialized JSON-LD blocks and the
      flattened text of the main content area, each empty when its
      pattern finds nothing. *)
  scan_title : jsstring -> jsstring;
  scan_description : jsstring -> jsstring;
  scan_jsonLd : jsstring -> jsstring;
  scan_body : jsstring -> jsstring;
  (** The fixed instruction text sent to the model. *)
  systemPrompt : jsstring
}.

(* ===================================================================== *)
(** * The URL validator (index.ts, lines 183-283) *)
(* ===================================================================== *)

(** Allowlisted job board domains for URL validation. *)
Definition ALLOWED_DOMAINS : list jsstring :=
  List.map js
    [ "linkedin.com"; "indeed.com"; "glassdoor.com"; "jobkorea.co.kr";
      "saramin.co.kr"; "wanted.co.kr"; "rocketpunch.com"; "jumpit.co.kr";
      "programmers.co.kr"; "catch.co.kr"; "incruit.com"; "worknet.go.kr";
      "albamon.com"; "alba.co.kr"; "job.go.kr"; "career.co.kr";
      "jobs.lever.co"; "boards.greenhouse.io"; "job-boards.greenhouse.io";
      "jobs.ashbyhq.com"; "apply.workable.com"; "jobs.smartrecruiters.com";
      "recruiting.paylocity.com"; "monster.com"; "ziprecruiter.com";
      "careerbuilder.com"; "dice.com"; "simplyhired.com"; "flexjobs.com";
      "angel.co"; "wellfound.com"; "remoteok.com"; "weworkremotely.com";
      "stackoverflow.jobs"; "hired.com"; "triplebyte.com" ]%string.

(** The result object [{ valid, error?, url? }]. *)
Record UrlValidation := {
  valid : bool;
  uv_error : option jsstring;
  uv_url : option jsstring
}.

Definition rejected (reason : jsstring) : UrlValidation :=
  {| valid := false; uv_error := Some reason; uv_url := None |}.

Definition ERR_PROTOCOL : jsstring :=
  js "지원되지 않는 URL 형식입니다. http 또는 https URL을 입력해주세요.".
Definition ERR_INVALID_URL : jsstring :=
  js "유효하지 않은 URL입니다. 올바른 채용 공고 URL을 입력해주세요.".
Definition ERR_UNSUPPORTED_SITE : jsstring :=
  js "지원되지 않는 사이트입니다. LinkedIn, 잡코리아, 사람인, 원티드 등 주요 채용 사이트의 URL을 입력해주세요.".
Definition ERR_URL_TOO_LONG : jsstring :=
  js "URL이 너무 깁니다. URL을 줄여 다시 시도해주세요.".
Definition ERR_URL_FORMAT : jsstring :=
  js "올바른 URL 형식이 아닙니다. 전체 URL을 확인해주세요.".

(** [const formattedUrl = ...] (lines 231-233): add protocol if missing. *)
Definition formatUrl (urlString : jsstring) : jsstring :=
  if startsWith (trim urlString) (js "http")
  then trim urlString
  else js "https://" ++ trim urlString.

Definition isDigit (c : N) : bool := (48 <=? c)%N && (c <=? 57)%N.
Definition isHexDigit (c : N) : bool :=
  isDigit c || ((97 <=? lowerUnit c)%N && (lowerUnit c <=? 102)%N).

(** [/^172\.(1[6-9]|2[0-9]|3[0-1])\./i] *)
Definition match_172 (h : jsstring) : bool :=
  startsWith h (js "172.") &&
  match skipn 4 h with
  | a :: b :: dot :: _ =>
      (((a =? 49)%N && (54 <=? b)%N && (b <=? 57)%N)
       || ((a =? 50)%N && isDigit b)
       || ((a =? 51)%N && (48 <=? b)%N && (b <=? 49)%N))
      && (dot =? 46)%N
  | _ => false
  end.

(** [/^fd[0-9a-f]{2}:/i] *)
Definition match_fd (h : jsstring) : bool :=
  match h with
  | f :: d :: x :: y :: colon :: _ =>
      (lowerUnit f =? 102)%N && (lowerUnit d =? 100)%N
      && isHexDigit x && isHexDigit y && (colon =? 58)%N
  | _ => false
  end.

(** The private-range test of lines 250-258; the patterns carry the [i]
    flag, so the literal prefixes are compared on lower-cased text. *)
Definition isPrivateHost (h : jsstring) : bool :=
  startsWith h (js "10.")
  || match_172 h
  || startsWith h (js "192.168.")
  || startsWith h (js "169.254.")
  || startsWith (toLowerCase h) (js "fe80:")
  || startsWith (toLowerCase h) (js "fc00:")
  || match_fd h.

(** [ALLOWED_DOMAINS.some(allowed => hostname === allowed ||
    hostname.endsWith('.' + allowed))] *)
Definition isAllowed (hostname : jsstring) : bool :=
  existsb (fun allowed => streq hostname allowed
                          || endsWith hostname (js "." ++ allowed))
          ALLOWED_DOMAINS.

Definition validateUrl `{Platform} (urlString : jsstring) : UrlValidation :=
  let formattedUrl := formatUrl urlString in
  match URL_parse formattedUrl with
  | None => rejected ERR_URL_FORMAT
  | Some parsed =>
      if negb (existsb (streq (protocol parsed)) [js "https:"; js "http:"])
      then rejected ERR_PROTOCOL
      else
        let hostname := toLowerCase (hostname parsed) in
        if existsb (streq hostname)
             [js "localhost"; js "127.0.0.1"; js "0.0.0.0"; js "::1"]
        then rejected ERR_INVALID_URL
        else if isPrivateHost hostname then rejected ERR_INVALID_URL
        else if negb (isAllowed hostname) then rejected ERR_UNSUPPORTED_SITE
        else if (2000 <? len formattedUrl)%Z then rejected ERR_URL_TOO_LONG
        else {| valid := true; uv_error := None; uv_url := Some formattedUrl |}
  end.

(* ===================================================================== *)
(** * The model adapter (gemini.ts) *)
(* ===================================================================== *)

(** ** The chat-style request *)

Inductive OpenAIContentPart : Type :=
| TextPart (text : jsstring)
| ImageUrlPart (url : jsstring).

Inductive OpenAIRole : Type := system | user | assistant.

(** [content: string | OpenAIContentPart[]] *)
Inductive OpenAIContent : Type :=
| ContentString (s : jsstring)
| ContentParts (parts : list OpenAIContentPart).

Record OpenAIMessage := { role : OpenAIRole; content : OpenAIContent }.

(** [{ type: 'function', function: { name, description?, parameters? } }] *)
Record OpenAITool := {
  name : jsstring;
  description : option jsstring;
  parameters : option JValue
}.

(** [{ type: 'function', function: { name } }] *)
Record OpenAIToolChoice := { choice_name : jsstring }.

Record LovableChatPayload := {
  model : option jsstring;
  messages : list OpenAIMessage;
  tools : option (list OpenAITool);
  tool_choice : option OpenAIToolChoice
}.

(** ** The provider-native request *)

Record InlineData := { mimeType : jsstring; data : jsstring }.
Record GeminiPart := { text : option jsstring; inlineData : option InlineData }.

Inductive GeminiRole : Type := role_user | role_model.
Record GeminiContent := { g_role : GeminiRole; g_parts : list GeminiPart }.

Record FunctionDeclaration := {
  fd_name : jsstring;
  fd_description : option jsstring;
  fd_parameters : option JValue
}.

Inductive CallingMode : Type := ANY | AUTO | NONE.
Record FunctionCallingConfig := {
  mode : CallingMode;
  allowedFunctionNames : option (list jsstring)
}.

Record GeminiRequest := {
  contents : list GeminiContent;
  (** the text of [systemInstruction.parts[0]], its role being [system] *)
  systemInstruction : option jsstring;
  (** [tools: [{ functionDeclarations }]] *)
  request_tools : option (list FunctionDeclaration);
  (** [toolConfig.functionCallingConfig] *)
  toolConfig : option FunctionCallingConfig
}.

(** ** The vendor-neutral response *)

Record ToolFunction := { arguments : option jsstring }.
Record ToolCall := { tc_function : option ToolFunction }.
Record Message := {
  msg_content : option jsstring;
  tool_calls : option (list ToolCall)
}.
Record Choice := { message : Message }.
Record LovableLikeResponse := { choices : list Choice }.

(** ** Building the request (lines 56-163) *)

Definition nonEmpty (s : jsstring) : bool :=
  match s with [] => false | _ => true end.

Section Adapter.
Context `{Platform}.

Definition normalizeModel (model : option jsstring) : jsstring :=
  let envModel := default [] (Deno_env_get (js "GEMINI_MODEL")) in
  if nonEmpty envModel && nonEmpty (trim envModel) then trim envModel
  else
    match model with
    | Some m =>
        if nonEmpty m
        then (if includes m (js "/") then afterLast 47 m else m)
        else js "gemini-3-flash-preview"
    | None => js "gemini-3-flash-preview"
    end.

Definition isSystem (m : OpenAIMessage) : bool :=
  match role m with system => true | _ => false end.

Definition partText (p : OpenAIContentPart) : option jsstring :=
  match p with TextPart t => Some t | ImageUrlPart _ => None end.

Definition extractSystemText (messages : list OpenAIMessage) : option jsstring :=
  match List.find isSystem messages with
  | None => None
  | Some systemMessage =>
      match content systemMessage with
      | ContentString s => Some s
      | ContentParts parts => Some (join [10%N] (omap partText parts))
      end
  end.

Fixpoint takeUntil (c : N) (s : jsstring) : jsstring :=
  match s with
  | [] => []
  | x :: s' => if (x =? c)%N then [] else x :: takeUntil c s'
  end.

Definition isLineTerminator (c : N) : bool :=
  existsb (N.eqb c) [10; 13; 8232; 8233]%N.

(** [url.match(/^data:([^;]+);base64,(.+)$/)]: the two groups. *)
Definition match_data_url (url : jsstring) : option (jsstring * jsstring) :=
  if startsWith url (js "data:") then
    let rest := skipn 5 url in
    let mime := takeUntil 59 rest in
    let tail := skipn (length mime) rest in
    if nonEmpty mime && startsWith tail (js ";base64,") then
      let payload := skipn 8 tail in
      if nonEmpty payload && forallb (fun c => negb (isLineTerminator c)) payload
      then Some (mime, payload)
      else None
    else None
  else None.

Definition convertImageUrlToPart (url : jsstring) : GeminiPart :=
  match match_data_url url with
  | None => {| text := Some (js "Image URL: " ++ url); inlineData := None |}
  | Some (m, d) =>
      {| text := None; inlineData := Some {| mimeType := m; data := d |} |}
  end.

Definition convertMessageContent (c : OpenAIContent) : list GeminiPart :=
  match c with
  | ContentString s => [ {| text := Some s; inlineData := None |} ]
  | ContentParts parts =>
      List.map (fun part =>
                  match part with
                  | TextPart t => {| text := Some t; inlineData := None |}
                  | ImageUrlPart u => convertImageUrlToPart u
                  end) parts
  end.

(** The keys that do not become own properties of the cleaned object.  An
    assignment [cleaned[key] = ...] creates an own property except for the
    key [__proto__], which sets the prototype instead: the cleaned value of
    such an entry is not among the own properties, which are what
    [Object.entries] and [JSON.stringify] read and what [JObj] holds. *)
Definition droppedKey (key : jsstring) : bool :=
  streq key (js "additionalProperties") || streq key (js "nullable")
  || streq key (js "__proto__").

Fixpoint sanitizeSchema (value : JValue) : JValue :=
  match value with
  | JArr items => JArr (List.map sanitizeSchema items)
  | JObj fields =>
      JObj ((fix entries (l : list (jsstring * JValue)) :=
               match l with
               | [] => []
               | (key, val) :: rest =>
                   if droppedKey key then entries rest
                   else (key, sanitizeSchema val) :: entries rest
               end) fields)
  | _ => value
  end.

Record BuiltRequest := { built_model : jsstring; request : GeminiRequest }.

Definition buildGeminiRequest (payload : LovableChatPayload) : BuiltRequest :=
  let model := normalizeModel (model payload) in
  let systemText := extractSystemText (messages payload) in
  let contents :=
    List.map (fun message =>
                {| g_role := match role message with
                             | assistant => role_model
                             | _ => role_user
                             end;
                   g_parts := convertMessageContent (content message) |})
             (List.filter (fun m => negb (isSystem m)) (messages payload)) in
  {| built_model := model;
     request :=
       {| contents := contents;
          systemInstruction :=
            match systemText with
            | Some t => if nonEmpty t then Some t else None
            | None => None
            end;
          request_tools :=
            match tools payload with
            | Some ((_ :: _) as ts) =>
                Some (List.map (fun tool =>
                                  {| fd_name := name tool;
                                     fd_description := description tool;
                                     fd_parameters :=
                                       option_map sanitizeSchema (parameters tool) |})
                               ts)
            | _ => None
            end;
          toolConfig :=
            match tool_choice payload with
            | Some choice =>
                if nonEmpty (choice_name choice)
                then Some {| mode := ANY;
                             allowedFunctionNames := Some [choice_name choice] |}
                else None
            | None => None
            end |} |}.

(** ** Adapting the answer back (lines 181-220) *)

Definition stringText (part : JValue) : option jsstring :=
  match prop (js "text") (Some part) with
  | Some (JStr s) => Some s
  | _ => None
  end.

Definition hasFunctionCall (part : JValue) : bool :=
  truthy_opt (prop (js "functionCall") (Some part)).

Definition oneToolCall (argumentsJson : jsstring) : list ToolCall :=
  [ {| tc_function := Some {| arguments := Some argumentsJson |} |} ].

(** [aiData?.candidates?.[0]?.content?.parts ?? []] *)
Definition candidateParts (aiData : JValue) : option JValue :=
  let candidate := index0 (prop (js "candidates") (Some aiData)) in
  nullish_or (prop (js "parts") (prop (js "content") candidate))
             (Some (JArr [])).

(** [functionCall.args ?? functionCall.arguments] of a function-call part. *)
Definition callArgs (part : JValue) : option JValue :=
  let functionCall := prop (js "functionCall") (Some part) in
  nullish_or (prop (js "args") functionCall)
             (prop (js "arguments") functionCall).

(** [typeof args === 'string' ? args : JSON.stringify(args ?? {})] *)
Definition argumentsJson (args : option JValue) : jsstring :=
  match args with
  | Some (JStr s) => s
  | _ => JSON_stringify (default (JObj []) (nullish_or args (Some (JObj []))))
  end.

(** The text of every part whose [text] is a string, joined. *)
Definition textOf (parts : list JValue) : jsstring :=
  List.concat (omap stringText parts).

(** The result is [inl] of the value thrown when [parts] is not an array
    ([parts.filter] is then not a function). *)
Definition normalizeGeminiToLovable (aiData : JValue)
  : Thrown + option LovableLikeResponse :=
  match candidateParts aiData with
  | Some (JArr parts) =>
      let textParts := textOf parts in
      let functionPart := List.find hasFunctionCall parts in
      let toolCalls :=
        match functionPart with
        | Some part => Some (oneToolCall (argumentsJson (callArgs part)))
        | None =>
            if nonEmpty textParts then
              match JSON_parse (trim textParts) with
              | Some parsed =>
                  Some (oneToolCall match parsed with
                                    | JStr s => s
                                    | _ => JSON_stringify parsed
                                    end)
              | None => None
              end
            else None
        end in
      if negb (nonEmpty textParts) && negb (bool_decide (is_Some toolCalls))
      then inr None
      else inr (Some {| choices :=
                          [ {| message := {| msg_content := Some textParts;
                                             tool_calls := toolCalls |} |} ] |})
  | _ => inl (ErrorObject (js "parts.filter is not a function"))
  end.

End Adapter.

(* ===================================================================== *)
(** * Awaited calls *)
(* ===================================================================== *)

(** An awaited call either returns or throws. *)
Inductive Outcome (X : Type) : Type :=
| Returned (x : X)
| Threw (e : Thrown).
Arguments Returned {X} x.
Arguments Threw {X} e.

(** ** What the calls answer *)

Record User := { id : jsstring }.

(** [{ data: { user }, error: authError }] *)
Record AuthAnswer := { auth_user : option User; authError : option jsstring }.

(** A row of [user_subscriptions], as the handler selects it. *)
Record Subscription := {
  ai_credits_remaining : Z;
  ai_credits_used : option Z
}.

(** [{ data: subscription, error: subError }] *)
Record SelectAnswer := {
  subscription : option Subscription;
  subError : option jsstring
}.

(** [{ error: creditError, count: updatedCount }] *)
Record UpdateAnswer := {
  creditError : option jsstring;
  updatedCount : option Z
}.

(** The answer of the direct page fetch: [status] and [await text()]. *)
Record PageResponse := { page_status : Z; page_text : Outcome jsstring }.

(** The body sent to the scraping API. *)
Record ScrapeRequest := {
  scrape_url : jsstring;
  formats : list jsstring;
  onlyMainContent : bool
}.

(** The fields of the scraping API's JSON answer that the handler reads,
    at the types the API gives them. *)
Record ScrapeMetadata := { title : option jsstring }.
Record ScrapeResult := {
  markdown : option jsstring;
  metadata : option ScrapeMetadata
}.
Record ScrapeData := {
  scrape_success : bool;
  scrape_error : option jsstring;
  scrape_data : option ScrapeResult
}.
Record ScrapeResponse := {
  scrape_status : Z;
  scrape_json : Outcome ScrapeData
}.

(** The answer of the model endpoint. *)
Record AiResponse := {
  ai_status : Z;
  ai_text : Outcome jsstring;
  ai_json : Outcome JValue
}.

(** [response.ok] *)
Definition isOk (status : Z) : bool := (200 <=? status)%Z && (status <=? 299)%Z.

(** ** The calls *)

Inductive Event : Type -> Type :=
(** [supabaseClient.auth.getUser()] with the caller's [Authorization] *)
| GetUser (authHeader : jsstring) : Event AuthAnswer
(** [select('ai_credits_remaining, ai_credits_used').eq('user_id', id).single()] *)
| SelectSubscription (user_id : jsstring) : Event SelectAnswer
(** [update({ ai_credits_remaining, ai_credits_used, updated_at })
     .eq('user_id', id).eq('ai_credits_remaining', observed)]; the time
    stamp is not kept *)
| UpdateSubscription (user_id : jsstring) (observed : Z)
                     (remaining used : Z) : Event UpdateAnswer
(** [req.json()] *)
| ReqJson : Event JValue
(** [fetch(formattedUrl, ...)], browser-like headers, aborted after 10 s *)
| FetchPage (url : jsstring) : Event PageResponse
(** [fetch('https://api.firecrawl.dev/v1/scrape', ...)] *)
| FetchScrape (apiKey : jsstring) (body : ScrapeRequest) : Event ScrapeResponse
(** [fetch(...models/${model}:generateContent?key=${apiKey}, ...)] with
    [JSON.stringify(request)] as its body *)
| FetchModel (model apiKey : jsstring) (request : GeminiRequest) : Event AiResponse.

(** ** Programs: trees of awaited calls *)

Inductive Prog (A : Type) : Type :=
| Ret (a : A)
| Throw (e : Thrown)
| Await {X : Type} (ev : Event X) (k : Outcome X -> Prog A).
Arguments Ret {A} a.
Arguments Throw {A} e.
Arguments Await {A X} ev k.

Fixpoint bind {A B : Type} (p : Prog A) (f : A -> Prog B) : Prog B :=
  match p with
  | Ret a => f a
  | Throw e => Throw e
  | Await ev k => Await ev (fun o => bind (k o) f)
  end.

(** [try { p } catch (e) { h e }] *)
Fixpoint try_catch {A : Type} (p : Prog A) (h : Thrown -> Prog A) : Prog A :=
  match p with
  | Ret a => Ret a
  | Throw e => h e
  | Await ev k => Await ev (fun o => try_catch (k o) h)
  end.

Definition settle {A : Type} (o : Outcome A) : Prog A :=
  match o with
  | Returned x => Ret x
  | Threw e => Throw e
  end.

(** [await ev] *)
Definition await {X : Type} (ev : Event X) : Prog X := Await ev settle.

Declare Scope prog_scope.
Delimit Scope prog_scope with prog.
Notation "x <- p ;; k" := (bind p (fun x => k))
  (at level 100, p at next level, right associativity) : prog_scope.

(* ===================================================================== *)
(** * The analyze-job handler (index.ts, lines 285-771) *)
(* ===================================================================== *)

(** What the handler reads of the request before its body. *)
Record Request := {
  method : jsstring;
  (** [req.headers.get('Authorization')] *)
  authorization : option jsstring
}.

(** The JSON body of a response, with the optional flags. *)
Record ResponseBody := {
  success : bool;
  error : option jsstring;
  details : option (list jsstring);
  unsupportedSite : bool;
  noContent : bool;
  job : option JValue   (** the [data] property *)
}.

(** [new Response(body, { status, headers })]; [body] is [None] for the
    CORS preflight.  Every response carries the same CORS headers. *)
Record Response := { status : Z; body : option ResponseBody }.

Definition failure (status : Z) (message : jsstring) : Response :=
  {| status := status;
     body := Some {| success := false; error := Some message; details := None;
                     unsupportedSite := false; noContent := false;
                     job := None |} |}.

(** A failure that carries one of the two flags. *)
Definition flagged (message : jsstring) (unsupported nothing : bool) : Response :=
  {| status := 400;
     body := Some {| success := false; error := Some message; details := None;
                     unsupportedSite := unsupported; noContent := nothing;
                     job := None |} |}.

Definition ERR_LOGIN_REQUIRED : jsstring :=
  js "로그인이 필요합니다. 다시 로그인한 뒤 재시도해주세요.".
Definition ERR_AUTH_EXPIRED : jsstring :=
  js "인증이 만료되었습니다. 다시 로그인해주세요.".
Definition ERR_NO_SUBSCRIPTION : jsstring :=
  js "구독 정보를 찾을 수 없습니다. 결제 상태를 확인하거나 고객센터에 문의해주세요.".
Definition ERR_NO_CREDITS : jsstring :=
  js "AI 크레딧이 부족합니다. 플랜을 업그레이드하거나 크레딧을 충전해주세요.".
Definition ERR_CREDIT_CONFLICT : jsstring :=
  js "크레딧 차감에 실패했습니다. 잠시 후 다시 시도해주세요.".
Definition ERR_BAD_REQUEST : jsstring :=
  js "요청 형식이 올바르지 않습니다. 입력 값을 확인하고 다시 시도해주세요.".
Definition ISSUE_SUFFIX : jsstring := js ": 입력 값을 확인해주세요.".
Definition ERR_SCRAPE_CONFIG : jsstring :=
  js "페이지 분석 설정이 완료되지 않았습니다. 잠시 후 다시 시도하거나 고객센터에 문의해주세요.".
Definition ERR_AI_CONFIG : jsstring :=
  js "AI 설정이 완료되지 않았습니다. 잠시 후 다시 시도하거나 고객센터에 문의해주세요.".
Definition ERR_UNSUPPORTED_BY_SCRAPER : jsstring :=
  js "LinkedIn 공고는 현재 자동 분석이 제한됩니다. 공고 내용을 직접 복사하여 입력해주세요.".
Definition ERR_SCRAPE_FAILED : jsstring :=
  js "페이지 내용을 가져오지 못했습니다. URL을 확인하거나 공고 내용을 직접 입력해주세요.".
Definition ERR_NO_PAGE_CONTENT : jsstring :=
  js "페이지 내용을 가져올 수 없습니다. URL을 확인하거나 공고 내용을 직접 입력해주세요.".
Definition ERR_RATE_LIMITED : jsstring :=
  js "요청이 너무 많습니다. 잠시 후 다시 시도해주세요.".
Definition ERR_AI_CREDITS : jsstring :=
  js "AI 크레딧이 필요합니다. 크레딧을 충전한 뒤 다시 시도해주세요.".
Definition ERR_AI_FAILED : jsstring :=
  js "AI 분석에 실패했습니다. 잠시 후 다시 시도해주세요.".
Definition ERR_NOTHING_EXTRACTED : jsstring :=
  js "공고 내용을 추출할 수 없습니다. 페이지가 마감되었거나 접근할 수 없는 상태일 수 있습니다.".
Definition ERR_NOT_A_POSTING : jsstring :=
  js "공고가 아닙니다. 채용 공고 URL을 입력해주세요.".
Definition fallbackMessage : jsstring :=
  js "서버 오류가 발생했습니다. 잠시 후 다시 시도해주세요.".

(** [requestSchema.safeParse(rawBody)] for
    [z.object({ url: z.string().min(1).max(2000) })]: the accepted [url],
    or the paths of the issues found. *)
Definition requestSchema_safeParse (rawBody : JValue)
  : list (list jsstring) + jsstring :=
  match rawBody with
  | JObj fields =>
      match assoc (js "url") fields with
      | Some (JStr u) =>
          if (1 <=? len u)%Z && (len u <=? 2000)%Z
          then inr u
          else inl [[js "url"]]
      | _ => inl [[js "url"]]
      end
  | _ => inl [[]]
  end.

(** The JSON schema of the [extract_job_posting] tool (lines 644-679). *)
Definition typed (t : string) : JValue := JObj [(js "type", JStr (js t))].
Definition typedNullable (t : string) : JValue :=
  JObj [(js "type", JStr (js t)); (js "nullable", JBool true)].

Definition extract_job_posting_parameters : JValue :=
  JObj
    [ (js "type", JStr (js "object"));
      (js "properties",
        JObj
          [ (js "isJobPosting", typed "boolean");
            (js "language",
              JObj [ (js "type", JStr (js "string"));
                     (js "enum", JArr [JStr (js "ko"); JStr (js "en")]) ]);
            (js "companyName", typed "string");
            (js "title", typed "string");
            (js "position", typed "string");
            (js "minExperience", typedNullable "string");
            (js "minExperienceEvidence", typed "string");
            (js "workType", typedNullable "string");
            (js "workTypeEvidence", typed "string");
            (js "location", typedNullable "string");
            (js "locationEvidence", typed "string");
            (js "visaSponsorship", typedNullable "boolean");
            (js "visaSponsorshipEvidence", typed "string");
            (js "summary", typed "string");
            (js "keyCompetencies",
              JObj
                [ (js "type", JStr (js "array"));
                  (js "items",
                    JObj
                      [ (js "type", JStr (js "object"));
                        (js "properties",
                          JObj [ (js "title", typed "string");
                                 (js "description", typed "string") ]);
                        (js "required",
                          JArr [JStr (js "title"); JStr (js "description")]) ]);
                  (js "minItems", JNum 5);
                  (js "maxItems", JNum 5) ]);
            (js "companyScore", typed "number");
            (js "fitScore", typed "number") ]);
      (js "required",
        JArr (List.map (fun k => JStr (js k))
                [ "isJobPosting"; "language"; "companyName"; "title";
                  "position"; "summary"; "keyCompetencies" ]%string));
      (js "additionalProperties", JBool false) ].

Section Handler.
Context `{Platform}.
Local Open Scope prog_scope.

(** The payload handed to [callGeminiFromLovable] (lines 632-684). *)
Definition jobPostingPayload (pageTitle pageContent : jsstring)
  : LovableChatPayload :=
  {| model := Some (js "google/gemini-2.5-flash");
     messages :=
       [ {| role := system; content := ContentString systemPrompt |};
         {| role := user;
            content :=
              ContentString
                (js "Page title: " ++ pageTitle ++ [10; 10]%N
                 ++ js "Job posting content:" ++ [10%N]
                 ++ substring0 15000 pageContent) |} ];
     tools :=
       Some [ {| name := js "extract_job_posting";
                 description :=
                   Some (js "Extract structured job posting information with evidence");
                 parameters := Some extract_job_posting_parameters |} ];
     tool_choice := Some {| choice_name := js "extract_job_posting" |} |}.

(** [aiData?.choices?.[0]?.message?.tool_calls?.[0]?.function?.arguments] *)
Definition toolCallArguments (aiData : option LovableLikeResponse)
  : option jsstring :=
  match aiData with
  | Some r =>
      match choices r with
      | c :: _ =>
          match tool_calls (message c) with
          | Some (toolCall :: _) =>
              match tc_function toolCall with
              | Some f => arguments f
              | None => None
              end
          | _ => None
          end
      | [] => None
      end
  | None => None
  end.

(** Lines 713-723: the structured data of the tool call, if any. *)
Definition parseJobData (aiData : option LovableLikeResponse) : option JValue :=
  match toolCallArguments aiData with
  | Some args => if nonEmpty args then JSON_parse args else None
  | None => None
  end.

(** Step 2, lines 525-759: the length check on the final content, the
    model call and the reading of its answer. *)
Definition extract (url pageTitle pageContent geminiApiKey : jsstring)
  : Prog Response :=
  if negb (nonEmpty pageContent) || (len pageContent <? 50)%Z
  then Ret (failure 400 ERR_NO_PAGE_CONTENT)
  else
    let built := buildGeminiRequest (jobPostingPayload pageTitle pageContent) in
    aiResponse <- await (FetchModel (built_model built) geminiApiKey
                                    (request built)) ;;
    if negb (isOk (ai_status aiResponse)) then
      errorText <- settle (ai_text aiResponse) ;;
      if (ai_status aiResponse =? 429)%Z then Ret (failure 429 ERR_RATE_LIMITED)
      else if (ai_status aiResponse =? 402)%Z then Ret (failure 402 ERR_AI_CREDITS)
      else Ret (failure 500 ERR_AI_FAILED)
    else
      aiDataRaw <- settle (ai_json aiResponse) ;;
      match normalizeGeminiToLovable aiDataRaw with
      | inl e => Throw e
      | inr aiData =>
          let jobData := parseJobData aiData in
          if negb (truthy_opt jobData) then
            Ret (flagged ERR_NOTHING_EXTRACTED false true)
          else
            match prop (js "isJobPosting") jobData with
            | Some (JBool false) => Ret (failure 400 ERR_NOT_A_POSTING)
            | _ =>
                Ret {| status := 200;
                       body :=
                         Some {| success := true; error := None;
                                 details := None; unsupportedSite := false;
                                 noContent := false;
                                 job :=
                                   Some (JObj (set_field (js "sourceUrl") (JStr url)
                                                 (spread (default JNull jobData)))) |} |}
            end
      end.

(** Lines 417-479: the direct fetch tried for LinkedIn; the pair is
    [(pageTitle, pageContent)], both empty when the fetch is refused,
    fails or throws. *)
Definition directFetch (formattedUrl : jsstring) : Prog (jsstring * jsstring) :=
  try_catch
    (directResponse <- await (FetchPage formattedUrl) ;;
     if isOk (page_status directResponse) then
       html <- settle (page_text directResponse) ;;
       let pageTitle := scan_title html in
       let description := scan_description html in
       let jsonLdContent := scan_jsonLd html in
       let bodyContent := scan_body html in
       Ret (pageTitle,
            js "Title: " ++ pageTitle ++ [10; 10]%N
            ++ js "Description: " ++ description ++ [10; 10]%N
            ++ (if nonEmpty jsonLdContent
                then js "Structured Data:" ++ [10%N] ++ jsonLdContent
                else [])
            ++ [10; 10]%N ++ js "Content:" ++ [10%N] ++ bodyContent)
     else Ret ([], []))
    (fun _ => Ret ([], [])).

(** Lines 481-523: the scraping API, asked when the content so far is
    missing or shorter than 100 units. *)
Definition scrapeFallback (url formattedUrl firecrawlApiKey geminiApiKey : jsstring)
           (pageTitle pageContent : jsstring) : Prog Response :=
  if negb (nonEmpty pageContent) || (len pageContent <? 100)%Z then
    scrapeResponse <-
      await (FetchScrape firecrawlApiKey
               {| scrape_url := formattedUrl;
                  formats := [js "markdown"];
                  onlyMainContent := true |}) ;;
    scrapeData <- settle (scrape_json scrapeResponse) ;;
    if negb (isOk (scrape_status scrapeResponse))
       || negb (scrape_success scrapeData)
    then
      let isUnsupported :=
        match scrape_error scrapeData with
        | Some e => includes e (js "not currently supported")
        | None => false
        end in
      if isUnsupported then Ret (flagged ERR_UNSUPPORTED_BY_SCRAPER true false)
      else Ret (failure 400 ERR_SCRAPE_FAILED)
    else
      let scraped :=
        match scrape_data scrapeData with
        | Some d => default [] (markdown d)
        | None => []
        end in
      let scrapedTitle :=
        match scrape_data scrapeData with
        | Some d => match metadata d with
                    | Some m => default [] (title m)
                    | None => []
                    end
        | None => []
        end in
      extract url
              (if nonEmpty scrapedTitle then scrapedTitle else pageTitle)
              scraped geminiApiKey
  else extract url pageTitle pageContent geminiApiKey.

(** Lines 411-479: the first tier, tried for LinkedIn only. *)
Definition firstTier (formattedUrl : jsstring) : Prog (jsstring * jsstring) :=
  let isLinkedIn := includes formattedUrl (js "linkedin.com") in
  if isLinkedIn then directFetch formattedUrl else Ret ([], []).

(** Lines 409-535: content for a validated URL. *)
Definition fetchContent (url formattedUrl firecrawlApiKey geminiApiKey : jsstring)
  : Prog Response :=
  page <- firstTier formattedUrl ;;
  scrapeFallback url formattedUrl firecrawlApiKey geminiApiKey
                 (fst page) (snd page).

(** Lines 360-407: the request body, its URL, the API keys. *)
Definition analyze : Prog Response :=
  rawBody <- await ReqJson ;;
  match requestSchema_safeParse rawBody with
  | inl issues =>
      Ret {| status := 400;
             body :=
               Some {| success := false; error := Some ERR_BAD_REQUEST;
                       details :=
                         Some (List.map (fun path => join (js ".") path ++ ISSUE_SUFFIX)
                                        issues);
                       unsupportedSite := false; noContent := false;
                       job := None |} |}
  | inr url =>
      let urlValidation := validateUrl url in
      if negb (valid urlValidation)
      then Ret {| status := 400;
                  body := Some {| success := false;
                                  error := uv_error urlValidation;
                                  details := None; unsupportedSite := false;
                                  noContent := false; job := None |} |}
      else
        let formattedUrl := default [] (uv_url urlValidation) in
        let firecrawlApiKey := default [] (Deno_env_get (js "FIRECRAWL_API_KEY")) in
        let geminiApiKey := default [] (Deno_env_get (js "GEMINI_API_KEY")) in
        if negb (nonEmpty firecrawlApiKey) then Ret (failure 500 ERR_SCRAPE_CONFIG)
        else if negb (nonEmpty geminiApiKey) then Ret (failure 500 ERR_AI_CONFIG)
        else fetchContent url formattedUrl firecrawlApiKey geminiApiKey
  end.

(** Lines 332-356: the credit check and the conditional update, for the
    row just read. *)
Definition deductCredit (u : User) (sub : Subscription) : Prog Response :=
  if (ai_credits_remaining sub <? 1)%Z then Ret (failure 402 ERR_NO_CREDITS)
  else
    updated <-
      await (UpdateSubscription (id u) (ai_credits_remaining sub)
               (ai_credits_remaining sub - 1)
               (default 0 (ai_credits_used sub) + 1)%Z) ;;
    if bool_decide (is_Some (creditError updated))
       || bool_decide (updatedCount updated = Some 0%Z)
    then Ret (failure 409 ERR_CREDIT_CONFLICT)
    else analyze.

(** Lines 291-330: authentication and the read of the subscription. *)
Definition authorize (req : Request) : Prog Response :=
  let authHeader := default [] (authorization req) in
  if negb (nonEmpty authHeader) then Ret (failure 401 ERR_LOGIN_REQUIRED)
  else
    auth <- await (GetUser authHeader) ;;
    match authError auth, auth_user auth with
    | None, Some u =>
        selected <- await (SelectSubscription (id u)) ;;
        match subError selected, subscription selected with
        | None, Some sub => deductCredit u sub
        | _, _ => Ret (failure 404 ERR_NO_SUBSCRIPTION)
        end
    | _, _ => Ret (failure 401 ERR_AUTH_EXPIRED)
    end.

(** Lines 761-770: the handler's [catch]. *)
Definition safeMessage (error : Thrown) : jsstring :=
  match error with
  | ErrorObject message => if hasHangul message then message else fallbackMessage
  | OtherValue _ => fallbackMessage
  end.

Definition caught (error : Thrown) : Response := failure 500 (safeMessage error).

Definition serve (req : Request) : Prog Response :=
  if streq (method req) (js "OPTIONS")
  then Ret {| status := 200; body := None |}
  else try_catch (authorize req) (fun error => Ret (caught error)).

End Handler.

(* ===================================================================== *)
(** * Running the handler *)
(* ===================================================================== *)

(** The table [user_subscriptions], keyed by [user_id]. *)
Abbreviation Table := (gmap (list N) Subscription) (only parsing).

(** [.single()] answers with the one matching row or with an error. *)
Definition db_select (table : Table) (user_id : jsstring) : SelectAnswer :=
  match table !! user_id with
  | Some row => {| subscription := Some row; subError := None |}
  | None =>
      {| subscription := None;
         subError := Some (js "JSON object requested, multiple (or no) rows returned") |}
  end.

(** The conditional update: the row of [user_id] is rewritten when its
    balance still equals [observed]; the number of rows changed comes with
    the new table. *)
Definition db_update (table : Table) (user_id : jsstring) (observed : Z)
           (remaining used : Z) : Table * nat :=
  match table !! user_id with
  | Some row =>
      if (ai_credits_remaining row =? observed)%Z
      then (<[user_id := {| ai_credits_remaining := remaining;
                            ai_credits_used := Some used |}]> table, 1%nat)
      else (table, 0%nat)
  | None => (table, 0%nat)
  end.

(** Everything outside the database that answers one request. *)
Record World := {
  getUser : jsstring -> Outcome AuthAnswer;
  reqJson : Outcome JValue;
  fetchPage : jsstring -> Outcome PageResponse;
  fetchScrape : jsstring -> ScrapeRequest -> Outcome ScrapeResponse;
  fetchModel : jsstring -> jsstring -> GeminiRequest -> Outcome AiResponse
}.

(** A call that was made. *)
Definition Call : Type := { X : Type & Event X }.
Definition called {X : Type} (ev : Event X) : Call := existT X ev.

Definition isPageFetch (c : Call) : bool :=
  match projT2 c with FetchPage _ => true | _ => false end.
Definition isScrapeFetch (c : Call) : bool :=
  match projT2 c with FetchScrape _ _ => true | _ => false end.
Definition isModelFetch (c : Call) : bool :=
  match projT2 c with FetchModel _ _ _ => true | _ => false end.
Definition isUpdate (c : Call) : bool :=
  match projT2 c with UpdateSubscription _ _ _ _ => true | _ => false end.
(** Any outbound HTTP request. *)
Definition isFetch (c : Call) : bool :=
  isPageFetch c || isScrapeFetch c || isModelFetch c.

Section Semantics.
Context `{Platform}.

(** The answer to one call, the table after it and the number of rows it
    changed. *)
Definition answer (w : World) (table : Table) {X : Type} (ev : Event X)
  : Outcome X * Table * nat :=
  match ev in Event X return Outcome X * Table * nat with
  | GetUser authHeader => (getUser w authHeader, table, 0%nat)
  | SelectSubscription user_id =>
      (Returned (db_select table user_id), table, 0%nat)
  | UpdateSubscription user_id observed remaining used =>
      let result := db_update table user_id observed remaining used in
      (Returned {| creditError := None;
                   updatedCount := report_count (snd result) |},
       fst result, snd result)
  | ReqJson => (reqJson w, table, 0%nat)
  | FetchPage url => (fetchPage w url, table, 0%nat)
  | FetchScrape apiKey body => (fetchScrape w apiKey body, table, 0%nat)
  | FetchModel model apiKey request =>
      (fetchModel w model apiKey request, table, 0%nat)
  end.

(** One request served alone: its result, the table afterwards and the
    calls made, in order. *)
Fixpoint run {A : Type} (w : World) (table : Table) (p : Prog A)
  : Outcome A * Table * list Call :=
  match p with
  | Ret a => (Returned a, table, [])
  | Throw e => (Threw e, table, [])
  | Await ev k =>
      let answered := answer w table ev in
      let rest := run w (snd (fst answered)) (k (fst (fst answered))) in
      (fst (fst rest), snd (fst rest), called ev :: snd rest)
  end.

(** ** Requests served concurrently

    Each request is a thread; a step lets one thread make its next
    awaited call against the shared table. *)
Record Thread := { world : World; prog : Prog Response }.

Record Step := { actor : nat; call : Call; changed : nat }.

Record System := {
  rows : Table;
  threads : list Thread;
  history : list Step
}.

Definition step_thread (i : nat) (sys : System) : System :=
  match threads sys !! i with
  | Some t =>
      match prog t with
      | Await ev k =>
          let answered := answer (world t) (rows sys) ev in
          {| rows := snd (fst answered);
             threads := <[i := {| world := world t;
                                  prog := k (fst (fst answered)) |}]> (threads sys);
             history := history sys
                        ++ [ {| actor := i; call := called ev;
                                changed := snd answered |} ] |}
      | _ => sys
      end
  | None => sys
  end.

(** A schedule names the thread that moves at each step. *)
Definition exec (schedule : list nat) (sys : System) : System :=
  fold_left (fun s i => step_thread i s) schedule sys.

(** The response of a thread that has finished. *)
Definition response_of (sys : System) (i : nat) : option Response :=
  match threads sys !! i with
  | Some t => match prog t with Ret r => Some r | _ => None end
  | None => None
  end.

(** The updates that changed a row. *)
Definition deductions (sys : System) : nat :=
  length (List.filter (fun st => isUpdate (call st) && (0 <? changed st)%nat)
                      (history sys)).

Definition balance (table : Table) (user_id : jsstring) : option Z :=
  ai_credits_remaining <$> table !! user_id.

End Semantics.

(* ===================================================================== *)
(** * A small executable platform *)
(* ===================================================================== *)

(** One instance of [Platform], used to run the definitions on concrete
    inputs.  Its URL parser reads [scheme://host[:port][/...]] with an
    ASCII host and refuses what it does not read (user information, a port
    that is not a number, a bracketed address, a scheme without [//]); its
    JSON reader and printer cover the integral numbers and objects without
    repeated keys; its page scans find nothing; its database client reports
    no count, as the client does for an update that asks for none. *)
Module Reference.

Fixpoint takeWhile (keep : N -> bool) (s : jsstring) : jsstring :=
  match s with
  | c :: s' => if keep c then c :: takeWhile keep s' else []
  | [] => []
  end.

Definition isAlpha (c : N) : bool :=
  (97 <=? lowerUnit c)%N && (lowerUnit c <=? 122)%N.
Definition isSchemeUnit (c : N) : bool :=
  isAlpha c || isDigit c || existsb (N.eqb c) [43; 45; 46]%N.
Definition isHostUnit (c : N) : bool :=
  isAlpha c || isDigit c || existsb (N.eqb c) [45; 46]%N.
Definition endsAuthority (c : N) : bool :=
  existsb (N.eqb c) [47; 63; 35; 92]%N.

Definition parseUrl (s : jsstring) : option URL :=
  let scheme := takeWhile isSchemeUnit s in
  match scheme, skipn (length scheme) s with
  | c :: _, 58%N :: 47%N :: 47%N :: rest =>
      let authority := takeWhile (fun x => negb (endsAuthority x)) rest in
      let host := takeUntil 58 authority in
      let port := skipn (S (length host)) authority in
      if isAlpha c && nonEmpty host && forallb isHostUnit host
         && forallb isDigit port
      then Some {| protocol := toLowerCase scheme ++ [58%N];
                   hostname := toLowerCase host |}
      else None
  | _, _ => None
  end.

(** ** Printing JSON *)

Definition hexDigit (n : N) : N := if (n <? 10)%N then (48 + n)%N else (87 + n)%N.

Definition escapeUnit (c : N) : jsstring :=
  if (c =? 34)%N then [92; 34]%N
  else if (c =? 92)%N then [92; 92]%N
  else if (c =? 8)%N then [92; 98]%N
  else if (c =? 9)%N then [92; 116]%N
  else if (c =? 10)%N then [92; 110]%N
  else if (c =? 12)%N then [92; 102]%N
  else if (c =? 13)%N then [92; 114]%N
  else if (c <? 32)%N then [92; 117; 48; 48; hexDigit (c / 16); hexDigit (c mod 16)]%N
  else [c].

Definition quote (s : jsstring) : jsstring :=
  [34%N] ++ List.concat (List.map escapeUnit s) ++ [34%N].

Fixpoint stringify (v : JValue) : jsstring :=
  match v with
  | JNull => js "null"
  | JBool true => js "true"
  | JBool false => js "false"
  | JNum n => (if (n <? 0)%Z then [45%N] else []) ++ decimal (Z.abs_N n)
  | JStr s => quote s
  | JArr items => [91%N] ++ join [44%N] (List.map stringify items) ++ [93%N]
  | JObj fields =>
      [123%N]
      ++ join [44%N]
           (List.map (fun kv => match kv with
                                | (k, x) => quote k ++ [58%N] ++ stringify x
                                end) fields)
      ++ [125%N]
  end.

(** ** Reading JSON *)

Definition isJsonSpace (c : N) : bool := existsb (N.eqb c) [32; 9; 10; 13]%N.

Fixpoint skipSpace (s : jsstring) : jsstring :=
  match s with
  | c :: s' => if isJsonSpace c then skipSpace s' else s
  | [] => []
  end.

Definition hexValue (c : N) : option N :=
  if isDigit c then Some (c - 48)%N
  else if (97 <=? lowerUnit c)%N && (lowerUnit c <=? 102)%N
       then Some (lowerUnit c - 87)%N
       else None.

(** The text of a string literal after its opening quote. *)
Fixpoint readString (s : jsstring) : option (jsstring * jsstring) :=
  match s with
  | [] => None
  | 34%N :: rest => Some ([], rest)
  | 92%N :: 117%N :: a :: b :: c :: d :: rest =>
      match hexValue a, hexValue b, hexValue c, hexValue d, readString rest with
      | Some x, Some y, Some z, Some w, Some (text, rest') =>
          Some ((x * 4096 + y * 256 + z * 16 + w)%N :: text, rest')
      | _, _, _, _, _ => None
      end
  | 92%N :: e :: rest =>
      let unit :=
        if (e =? 34)%N then Some 34%N
        else if (e =? 92)%N then Some 92%N
        else if (e =? 47)%N then Some 47%N
        else if (e =? 98)%N then Some 8%N
        else if (e =? 102)%N then Some 12%N
        else if (e =? 110)%N then Some 10%N
        else if (e =? 114)%N then Some 13%N
        else if (e =? 116)%N then Some 9%N
        else None in
      match unit, readString rest with
      | Some u, Some (text, rest') => Some (u :: text, rest')
      | _, _ => None
      end
  | c :: rest =>
      if (c <? 32)%N || (c =? 92)%N then None
      else match readString rest with
           | Some (text, rest') => Some (c :: text, rest')
           | None => None
           end
  end.

Definition digitsValue (ds : jsstring) : Z :=
  fold_left (fun acc d => (acc * 10 + Z.of_N (d - 48))%Z) ds 0%Z.

(** An optional minus sign and a decimal integer without leading zero,
    not followed by a fraction or an exponent. *)
Definition readNumber (s : jsstring) : option (JValue * jsstring) :=
  let negative := match s with 45%N :: _ => true | _ => false end in
  let body := if negative then skipn 1 s else s in
  let digits := takeWhile isDigit body in
  let rest := skipn (length digits) body in
  match digits with
  | [] => None
  | d :: more =>
      if (d =? 48)%N && nonEmpty more then None
      else
        match rest with
        | c :: _ =>
            if existsb (N.eqb c) [46; 101; 69]%N then None
            else Some (JNum (if negative then - digitsValue digits
                             else digitsValue digits), rest)
        | [] => Some (JNum (if negative then - digitsValue digits
                            else digitsValue digits), rest)
        end
  end.

(** The elements of an array after the first [[], up to the closing
    bracket. *)
Fixpoint readElements (value : jsstring -> option (JValue * jsstring))
         (fuel : nat) (s : jsstring) : option (list JValue * jsstring) :=
  match fuel with
  | O => None
  | S fuel' =>
      match value s with
      | Some (v, rest) =>
          match skipSpace rest with
          | 44%N :: rest' =>
              match readElements value fuel' rest' with
              | Some (vs, rest'') => Some (v :: vs, rest'')
              | None => None
              end
          | 93%N :: rest' => Some ([v], rest')
          | _ => None
          end
      | None => None
      end
  end.

(** The members of an object after the first [{]. *)
Fixpoint readMembers (value : jsstring -> option (JValue * jsstring))
         (fuel : nat) (s : jsstring)
  : option (list (jsstring * JValue) * jsstring) :=
  match fuel with
  | O => None
  | S fuel' =>
      match skipSpace s with
      | 34%N :: afterQuote =>
          match readString afterQuote with
          | Some (key, rest) =>
              match skipSpace rest with
              | 58%N :: rest' =>
                  match value rest' with
                  | Some (v, rest'') =>
                      match skipSpace rest'' with
                      | 44%N :: rest3 =>
                          match readMembers value fuel' rest3 with
                          | Some (ms, rest4) => Some ((key, v) :: ms, rest4)
                          | None => None
                          end
                      | 125%N :: rest3 => Some ([(key, v)], rest3)
                      | _ => None
                      end
                  | None => None
                  end
              | _ => None
              end
          | None => None
          end
      | _ => None
      end
  end.

Fixpoint readValue (fuel : nat) (s : jsstring) : option (JValue * jsstring) :=
  match fuel with
  | O => None
  | S fuel' =>
      match skipSpace s with
      | 110%N :: 117%N :: 108%N :: 108%N :: rest => Some (JNull, rest)
      | 116%N :: 114%N :: 117%N :: 101%N :: rest => Some (JBool true, rest)
      | 102%N :: 97%N :: 108%N :: 115%N :: 101%N :: rest => Some (JBool false, rest)
      | 34%N :: rest =>
          match readString rest with
          | Some (text, rest') => Some (JStr text, rest')
          | None => None
          end
      | 91%N :: rest =>
          match skipSpace rest with
          | 93%N :: rest' => Some (JArr [], rest')
          | _ =>
              match readElements (readValue fuel') fuel' rest with
              | Some (vs, rest') => Some (JArr vs, rest')
              | None => None
              end
          end
      | 123%N :: rest =>
          match skipSpace rest with
          | 125%N :: rest' => Some (JObj [], rest')
          | _ =>
              match readMembers (readValue fuel') fuel' rest with
              | Some (ms, rest') => Some (JObj ms, rest')
              | None => None
              end
          end
      | other => readNumber other
      end
  end.

Definition parse (s : jsstring) : option JValue :=
  match readValue (S (length s)) s with
  | Some (v, rest) => match skipSpace rest with [] => Some v | _ => None end
  | None => None
  end.

Definition env (name : jsstring) : option jsstring :=
  if streq name (js "FIRECRAWL_API_KEY") then Some (js "fc-key")
  else if streq name (js "GEMINI_API_KEY") then Some (js "gm-key")
  else None.

#[export] Instance platform : Platform := {|
  URL_parse := parseUrl;
  JSON_parse := parse;
  JSON_stringify := stringify;
  Deno_env_get := env;
  report_count := fun _ => None;
  scan_title := fun _ => [];
  scan_description := fun _ => [];
  scan_jsonLd := fun _ => [];
  scan_body := fun _ => [];
  systemPrompt := js "You are a job posting analyzer."
|}.

End Reference.

(* ===================================================================== *)
(** * Concrete requests *)
(* ===================================================================== *)

(** A user holding one credit, a few worlds around one request, and two
    answers of the model, for running the handler on the small platform. *)
Module Scenario.
Import Reference.

Definition alice : User := {| id := js "user-1" |}.

Definition oneCredit : gmap (list N) Subscription :=
  <[id alice := {| ai_credits_remaining := 1; ai_credits_used := Some 2%Z |}]> ∅.

Definition noCredit : gmap (list N) Subscription :=
  <[id alice := {| ai_credits_remaining := 0; ai_credits_used := Some 3%Z |}]> ∅.

Definition post : Request :=
  {| method := js "POST"; authorization := Some (js "Bearer token") |}.

Definition posting : jsstring :=
  js "Acme is hiring a backend engineer with five years of experience in distributed systems.".

(** A provider answer carrying a function call with object arguments. *)
Definition callAnswer (args : JValue) : JValue :=
  JObj [(js "candidates",
          JArr [JObj [(js "content",
                        JObj [(js "parts",
                                JArr [JObj [(js "functionCall",
                                              JObj [(js "name", JStr (js "extract_job_posting"));
                                                    (js "args", args)])]])])]])].

(** A provider answer carrying plain text only. *)
Definition textAnswer (t : jsstring) : JValue :=
  JObj [(js "candidates",
          JArr [JObj [(js "content",
                        JObj [(js "parts", JArr [JObj [(js "text", JStr t)]])])]])].

Definition acme : JValue :=
  JObj [(js "isJobPosting", JBool true); (js "companyName", JStr (js "Acme"))].

Definition scraped (text : jsstring) : Outcome ScrapeResponse :=
  Returned {| scrape_status := 200;
              scrape_json :=
                Returned {| scrape_success := true; scrape_error := None;
                            scrape_data :=
                              Some {| markdown := Some text;
                                      metadata := Some {| title := Some (js "Backend engineer") |} |} |} |}.

Definition refused (reason : jsstring) : Outcome ScrapeResponse :=
  Returned {| scrape_status := 400;
              scrape_json :=
                Returned {| scrape_success := false; scrape_error := Some reason;
                            scrape_data := None |} |}.

(** The world of a request for [url], given what the scraping API and the
    model answer. *)
Definition worldOf (url : jsstring) (scrape : Outcome ScrapeResponse)
           (modelJson : Outcome JValue) : World :=
  {| getUser := fun _ => Returned {| auth_user := Some alice; authError := None |};
     reqJson := Returned (JObj [(js "url", JStr url)]);
     fetchPage := fun _ => Threw (ErrorObject (js "The signal has been aborted"));
     fetchScrape := fun _ _ => scrape;
     fetchModel := fun _ _ _ =>
                     Returned {| ai_status := 200; ai_text := Returned [];
                                 ai_json := modelJson |} |}.

Definition wanted : World :=
  worldOf (js "wanted.co.kr/wd/12345") (scraped posting) (Returned (callAnswer acme)).

Definition lookalike : World :=
  worldOf (js "https://evil-linkedin.com.attacker.net/jobs") (scraped posting)
        (Returned (callAnswer acme)).

(** The scraping API refuses the site. *)
Definition unsupported : World :=
  worldOf (js "https://www.wanted.co.kr/wd/12345")
          (refused (js "This website is not currently supported."))
          (Returned (callAnswer acme)).

(** The scraping API returns next to nothing. *)
Definition thin : World :=
  worldOf (js "https://www.wanted.co.kr/wd/12345") (scraped (js "Closed."))
          (Returned (callAnswer acme)).

(** The model answers with prose. *)
Definition chatty : World :=
  worldOf (js "wanted.co.kr/wd/12345") (scraped posting)
          (Returned (textAnswer (js "Sorry, this page is not a job posting."))).

(** A LinkedIn page is served, with nothing on it to scan. *)
Definition walled : World :=
  {| getUser := fun _ => Returned {| auth_user := Some alice; authError := None |};
     reqJson := Returned (JObj [(js "url", JStr (js "https://www.linkedin.com/jobs/view/1"))]);
     fetchPage := fun _ => Returned {| page_status := 200;
                                       page_text := Returned (js "<html></html>") |};
     fetchScrape := fun _ _ => scraped posting;
     fetchModel := fun _ _ _ =>
                     Returned {| ai_status := 200; ai_text := Returned [];
                                 ai_json := Returned (callAnswer acme) |} |}.

(** The request has no readable body. *)
Definition noBody : World :=
  {| getUser := fun _ => Returned {| auth_user := Some alice; authError := None |};
     reqJson := Threw (ErrorObject (js "Unexpected end of JSON input"));
     fetchPage := fun _ => Threw (ErrorObject (js "The signal has been aborted"));
     fetchScrape := fun _ _ => scraped posting;
     fetchModel := fun _ _ _ =>
                     Returned {| ai_status := 200; ai_text := Returned [];
                                 ai_json := Returned (callAnswer acme) |} |}.

(** Two requests of the same user, before either has run. *)
Definition twoRequests (table : gmap (list N) Subscription) : System :=
  {| rows := table;
     threads := [ {| world := wanted; prog := serve post |};
                  {| world := wanted; prog := serve post |} ];
     history := [] |}.

End Scenario.

(* ===================================================================== *)
(** * Vocabulary of the properties *)
(* ===================================================================== *)

(** A host name is listed when it is an allowlisted domain or ends with a
    dot followed by one. *)
Definition listed (h : jsstring) : Prop :=
  exists allowed, In allowed ALLOWED_DOMAINS
                  /\ (h = allowed \/ exists sub, h = sub ++ js "." ++ allowed).

(** Every call the program can make, whatever it is answered, satisfies [P]. *)
Inductive always {A : Type} (P : Call -> Prop) : Prog A -> Prop :=
| always_Ret (a : A) : always P (Ret a)
| always_Throw (e : Thrown) : always P (Throw e)
| always_Await (X : Type) (ev : Event X) (k : Outcome X -> Prog A) :
    P (called ev) -> (forall o, always P (k o)) -> always P (Await ev k).

Definition noUpdate (c : Call) : Prop := isUpdate c = false.
Definition noModelFetch (c : Call) : Prop := isModelFetch c = false.

(** An update never writes a negative balance. *)
Definition writesNonNegative (c : Call) : Prop :=
  match projT2 c with
  | UpdateSubscription _ _ remaining _ => (0 <= remaining)%Z
  | _ => True
  end.

Definition isBodyRead (c : Call) : bool :=
  match projT2 c with ReqJson => true | _ => false end.

(** What the handler's [catch] makes of a result. *)
Definition settled (o : Outcome Response) : Outcome Response :=
  match o with
  | Returned r => Returned r
  | Threw e => Returned (caught e)
  end.

(** The request is not a preflight and its header authenticates [u]. *)
Definition authenticates (w : World) (req : Request) (u : User) : Prop :=
  method req <> js "OPTIONS"
  /\ exists h, authorization req = Some h /\ h <> []
               /\ getUser w h = Returned {| auth_user := Some u; authError := None |}.

(** The table after one credit of [u] was deducted from the row [sub]. *)
Definition deducted (table : Table) (u : User) (sub : Subscription) : Table :=
  <[id u := {| ai_credits_remaining := ai_credits_remaining sub - 1;
               ai_credits_used := Some (default 0 (ai_credits_used sub) + 1)%Z |}]>
    table.

(** The body sent to the scraping API for [formattedUrl]. *)
Definition markdownOfMainContent (formattedUrl : jsstring) : ScrapeRequest :=
  {| scrape_url := formattedUrl; formats := [js "markdown"];
     onlyMainContent := true |}.

(** The six ways in which two requests can both authenticate and read the
    subscription row before either of them updates it. *)
Definition bothObserveFirst : list (list nat) :=
  [ [0; 0; 1; 1]; [0; 1; 0; 1]; [0; 1; 1; 0];
    [1; 0; 0; 1]; [1; 0; 1; 0]; [1; 1; 0; 0] ]%nat.

Definition balanceIs (sys : System) (u : User) (n : Z) : Prop :=
  balance (rows sys) (id u) = Some n.

(** The request of [u], who holds a credit in the row [sub], carries [url],
    which the validator accepts as [formattedUrl], and both API keys are
    configured: the handler gets as far as fetching content. *)
Definition reachesContent `{Platform} (w : World) (table : Table) (req : Request)
           (u : User) (sub : Subscription)
           (url formattedUrl firecrawlApiKey geminiApiKey : jsstring) : Prop :=
  authenticates w req u
  /\ table !! id u = Some sub
  /\ (1 <= ai_credits_remaining sub)%Z
  /\ report_count 1 <> Some 0%Z
  /\ (exists rawBody, reqJson w = Returned rawBody
                      /\ requestSchema_safeParse rawBody = inr url)
  /\ validateUrl url = {| valid := true; uv_error := None;
                          uv_url := Some formattedUrl |}
  /\ Deno_env_get (js "FIRECRAWL_API_KEY") = Some firecrawlApiKey
  /\ firecrawlApiKey <> []
  /\ Deno_env_get (js "GEMINI_API_KEY") = Some geminiApiKey
  /\ geminiApiKey <> [].

(** The calls made on the way there. *)
Definition callsBeforeContent (h : jsstring) (u : User) (sub : Subscription)
  : list Call :=
  [ called (GetUser h);
    called (SelectSubscription (id u));
    called (UpdateSubscription (id u) (ai_credits_remaining sub)
                               (ai_credits_remaining sub - 1)
                               (default 0 (ai_credits_used sub) + 1)%Z);
    called ReqJson ].

Definition noScrapeFetch (c : Call) : Prop := isScrapeFetch c = false.

(** [scrapeData.data?.markdown || ''] *)
Definition scrapedText (scrapeData : ScrapeData) : jsstring :=
  match scrape_data scrapeData with
  | Some d => default [] (markdown d)
  | None => []
  end.

(** Of a run: if the model was called, the "nothing extracted" response
    came back. *)
Definition nothingExtracted {A : Type}
           (R : Outcome Response * A * list Call) : Prop :=
  existsb isModelFetch (snd R) = true ->
  fst (fst R) = Returned (flagged ERR_NOTHING_EXTRACTED false true).

(** Of a run: if the scraping API was called, the generic "no page content"
    response came back and the model was not called. *)
Definition thinContent {A : Type} (R : Outcome Response * A * list Call) : Prop :=
  existsb isScrapeFetch (snd R) = true ->
  fst (fst R) = Returned (failure 400 ERR_NO_PAGE_CONTENT)
  /\ existsb isModelFetch (snd R) = false.

Definition nonNegative (table : Table) : Prop :=
  forall uid row, table !! uid = Some row -> (0 <= ai_credits_remaining row)%Z.

(** A request that has read a row holding one credit and is about to
    deduct it. *)
Definition ready `{Platform} (u : User) (t : Thread) : Prop :=
  exists sub, ai_credits_remaining sub = 1%Z
              /\ prog t = try_catch (deductCredit u sub)
                                    (fun error => Ret (caught error)).

(** A request that will not touch the table again. *)
Definition quiet (t : Thread) : Prop := always noUpdate (prog t).

(** The states of two requests racing for the one credit of [u]: both ready,
    or the credit is gone after one deduction and each request is still
    ready or past its update. *)
Inductive raceState `{Platform} (u : User) (sys : System) : Prop :=
| race_open (t0 t1 : Thread) :
    threads sys = [t0; t1] -> balanceIs sys u 1 ->
    ready u t0 -> ready u t1 -> deductions sys = 0%nat -> raceState u sys
| race_won (t0 t1 : Thread) :
    threads sys = [t0; t1] -> balanceIs sys u 0 ->
    ready u t0 \/ quiet t0 -> ready u t1 \/ quiet t1 ->
    deductions sys = 1%nat -> raceState u sys.

(* ===================================================================== *)
(** * The caller's reading of a failed call (functionErrors.ts) *)
(* ===================================================================== *)

(** [!!value && typeof value === "object"]; [None] is [undefined]. *)
Definition isRecord (value : option JValue) : bool :=
  match value with
  | Some (JArr _) | Some (JObj _) => true
  | _ => false
  end.

Definition DEFAULT_FUNCTION_ERROR : jsstring :=
  js "요청 처리 중 오류가 발생했습니다. 잠시 후 다시 시도해주세요.".

(** [getFunctionErrorMessage(error, fallbackMessage)] (src/unnamed/part_005,
    lines 70-112); [error] is the value as far as the function reads it:
    its [message] and its [context.body]. *)
Definition getFunctionErrorMessage `{Platform} (error : option JValue)
           (fallbackMessage : jsstring) : jsstring :=
  if negb (isRecord error) then fallbackMessage
  else
    let body := prop (js "body") (prop (js "context") error) in
    let fromMessage :=
      match prop (js "message") error with
      | Some (JStr m) => if nonEmpty (trim m) then m else fallbackMessage
      | _ => fallbackMessage
      end in
    match body with
    | Some (JStr b) =>
        if nonEmpty (trim b) then
          match JSON_parse b with
          | Some parsed =>
              match prop (js "error") (Some parsed) with
              | Some (JStr e) =>
                  if nonEmpty e then e
                  else match prop (js "message") (Some parsed) with
                       | Some (JStr m) => if nonEmpty m then m else fromMessage
                       | _ => fromMessage
                       end
              | _ =>
                  match prop (js "message") (Some parsed) with
                  | Some (JStr m) => if nonEmpty m then m else fromMessage
                  | _ => fromMessage
                  end
              end
          | None => b
          end
        else fromMessage
    | _ => fromMessage
    end.

(** The object a response body is the [JSON.stringify] of: the literals of
    the handler, with the flags and [details] present where it writes
    them. *)
Definition responseJson (b : ResponseBody) : JValue :=
  JObj ([(js "success", JBool (success b))]
        ++ match error b with Some e => [(js "error", JStr e)] | None => [] end
        ++ match details b with
           | Some ds => [(js "details", JArr (List.map JStr ds))]
           | None => []
           end
        ++ (if unsupportedSite b then [(js "unsupportedSite", JBool true)] else [])
        ++ (if noContent b then [(js "noContent", JBool true)] else [])
        ++ match job b with Some d => [(js "data", d)] | None => [] end).

(* ===================================================================== *)
(** * More vocabulary *)
(* ===================================================================== *)

(** Some object inside [v], at any depth, has a property named [key]. *)
Fixpoint mentionsKey (key : jsstring) (v : JValue) : bool :=
  match v with
  | JArr items => existsb (mentionsKey key) items
  | JObj fields =>
      existsb (fun kv => match kv with
                         | (k, x) => streq k key || mentionsKey key x
                         end) fields
  | _ => false
  end.

(** The messages with every system message after the first left out. *)
Fixpoint firstSystemOnly (messages : list OpenAIMessage) : list OpenAIMessage :=
  match messages with
  | [] => []
  | m :: rest =>
      if isSystem m
      then m :: List.filter (fun x => negb (isSystem x)) rest
      else m :: firstSystemOnly rest
  end.

(** A text that does not begin with white space. *)
Definition startsClean (s : jsstring) : Prop :=
  match s with
  | c :: _ => isWhiteSpace c = false
  | [] => True
  end.

(** The text put before the page content in the user message. *)
Definition userMessageHeader (pageTitle : jsstring) : jsstring :=
  js "Page title: " ++ pageTitle ++ [10; 10]%N
  ++ js "Job posting content:" ++ [10%N].

(** What is known about the answers given to awaited calls. *)
Definition Guarantee : Type := forall X : Type, Event X -> Outcome X -> Prop.

Definition anyAnswer : Guarantee := fun _ _ _ => True.

(** The model endpoint answers every request with [a]. *)
Definition modelAnswers (a : AiResponse) : Guarantee :=
  fun X ev =>
    match ev in Event X return Outcome X -> Prop with
    | FetchModel _ _ _ => fun o => o = Returned a
    | _ => fun _ => True
    end.

(** The request body reads as [o0]. *)
Definition bodyReads (o0 : Outcome JValue) : Guarantee :=
  fun X ev =>
    match ev in Event X return Outcome X -> Prop with
    | ReqJson => fun o => o = o0
    | _ => fun _ => True
    end.

Definition both (G1 G2 : Guarantee) : Guarantee :=
  fun X ev o => G1 X ev o /\ G2 X ev o.

(** The world [w] answers as [G] says, whatever the table. *)
Definition honours `{Platform} (w : World) (G : Guarantee) : Prop :=
  forall (X : Type) (ev : Event X) (table : Table),
    G X ev (fst (fst (answer w table ev))).

(** Whatever answers within [G] the program gets, its result and the calls
    it has made satisfy [P]. *)
Inductive ensures {A : Type} (G : Guarantee)
  : (Outcome A -> list Call -> Prop) -> Prog A -> Prop :=
| ensures_Ret (P : Outcome A -> list Call -> Prop) (a : A) :
    P (Returned a) [] -> ensures G P (Ret a)
| ensures_Throw (P : Outcome A -> list Call -> Prop) (e : Thrown) :
    P (Threw e) [] -> ensures G P (Throw e)
| ensures_Await (P : Outcome A -> list Call -> Prop) (X : Type)
                (ev : Event X) (k : Outcome X -> Prog A) :
    (forall o, G X ev o ->
               ensures G (fun r calls => P r (called ev :: calls)) (k o)) ->
    ensures G P (Await ev k).

(** The database answers an update without an error and, the update asking
    for no count, without one. *)
Definition uncounted : Guarantee :=
  fun X ev =>
    match ev in Event X return Outcome X -> Prop with
    | UpdateSubscription _ _ _ _ =>
        fun o => o = Returned {| creditError := None; updatedCount := None |}
    | _ => fun _ => True
    end.

(** A result that is not the 409 answer. *)
Definition notRefused (r : Outcome Response) : Prop :=
  forall response, r = Returned response -> status response <> 409%Z.


(** The stages of the pipeline, by the call that marks them. *)
Inductive Kind : Type :=
| KAuth | KSelect | KUpdate | KBody | KPage | KScrape | KModel.

Definition kindOf (c : Call) : Kind :=
  match projT2 c with
  | GetUser _ => KAuth
  | SelectSubscription _ => KSelect
  | UpdateSubscription _ _ _ _ => KUpdate
  | ReqJson => KBody
  | FetchPage _ => KPage
  | FetchScrape _ _ => KScrape
  | FetchModel _ _ _ => KModel
  end.

(** What every request passes before any content is fetched. *)
Definition gates : list Kind := [KAuth; KSelect; KUpdate; KBody].

(** The sequences of calls one request can make: the gates up to the one
    that refuses it, or all of them followed by the fetches of one of the
    five ways through the two tiers and the model. *)
Definition callShapes : list (list Kind) :=
  [ []; [KAuth]; [KAuth; KSelect]; [KAuth; KSelect; KUpdate]; gates;
    gates ++ [KScrape];
    gates ++ [KScrape; KModel];
    gates ++ [KPage; KScrape];
    gates ++ [KPage; KScrape; KModel];
    gates ++ [KPage; KModel] ].

(** An update of the row of [uid]. *)
Definition isUpdateOf (uid : jsstring) (c : Call) : bool :=
  match projT2 c with
  | UpdateSubscription user_id _ _ _ => streq user_id uid
  | _ => false
  end.

(** The updates that changed the row of [uid]. *)
Definition deductionsOf (uid : jsstring) (sys : System) : nat :=
  length (List.filter (fun st => isUpdateOf uid (call st) && (0 <? changed st)%nat)
                      (history sys)).

(** An update writes one less than the balance it is conditioned on. *)
Definition writesOneLess (c : Call) : Prop :=
  match projT2 c with
  | UpdateSubscription _ observed remaining _ => remaining = (observed - 1)%Z
  | _ => True
  end.

(** A URL the validator has accepted. *)
Definition accepted `{Platform} (u : jsstring) : Prop :=
  exists raw,
    validateUrl raw = {| valid := true; uv_error := None; uv_url := Some u |}.

(** What holds of a call that leaves the server: a page is fetched at an
    accepted URL that mentions LinkedIn; the scraping API is asked, with the
    configured key, for the markdown of the main content of an accepted
    URL; the model is asked, with the configured key, about content of at
    least 50 units. *)
Definition vetted `{Platform} (c : Call) : Prop :=
  match projT2 c with
  | FetchPage u => accepted u /\ includes u (js "linkedin.com") = true
  | FetchScrape apiKey body =>
      accepted (scrape_url body)
      /\ body = markdownOfMainContent (scrape_url body)
      /\ Deno_env_get (js "FIRECRAWL_API_KEY") = Some apiKey /\ apiKey <> []
  | FetchModel model apiKey sent =>
      Deno_env_get (js "GEMINI_API_KEY") = Some apiKey /\ apiKey <> []
      /\ model = normalizeModel (Some (js "google/gemini-2.5-flash"))
      /\ exists pageTitle pageContent,
          (50 <= len pageContent)%Z
          /\ sent = request (buildGeminiRequest
                                (jobPostingPayload pageTitle pageContent))
  | _ => True
  end.

(** A response as the handler writes them: a body; on success status 200,
    no error and an object of job data; on failure one of the seven failure
    statuses, no job data and a non-empty error text. *)
Definition wellFormed (r : Response) : Prop :=
  exists b,
    body r = Some b
    /\ ((success b = true /\ status r = 200%Z /\ error b = None
         /\ exists fields, job b = Some (JObj fields))
        \/ (success b = false
            /\ In (status r) [400; 401; 402; 404; 409; 429; 500]%Z
            /\ job b = None
            /\ exists message, error b = Some message /\ message <> [])).

(** ** More concrete requests *)
Module Cases.
Import Reference Scenario.

(** The model finds that the page is not a job posting. *)
Definition notAPosting : World :=
  worldOf (js "wanted.co.kr/wd/12345") (scraped posting)
          (Returned (callAnswer (JObj [(js "isJobPosting", JBool false)]))).

(** The model endpoint is rate limited. *)
Definition busy : World :=
  {| getUser := getUser wanted;
     reqJson := reqJson wanted;
     fetchPage := fetchPage wanted;
     fetchScrape := fetchScrape wanted;
     fetchModel := fun _ _ _ =>
                     Returned {| ai_status := 429;
                                 ai_text := Returned (js "quota exceeded");
                                 ai_json := Threw (OtherValue JNull) |} |}.

(** The platform with no API key configured. *)
Definition unconfigured : Platform := {|
  URL_parse := parseUrl;
  JSON_parse := parse;
  JSON_stringify := stringify;
  Deno_env_get := fun _ => None;
  report_count := fun _ => None;
  scan_title := fun _ => [];
  scan_description := fun _ => [];
  scan_jsonLd := fun _ => [];
  scan_body := fun _ => [];
  systemPrompt := js "You are a job posting analyzer."
|}.

(** The request body is not an object with a [url]. *)
Definition malformed : World :=
  {| getUser := getUser wanted;
     reqJson := Returned (JObj [(js "link", JStr (js "wanted.co.kr/wd/12345"))]);
     fetchPage := fetchPage wanted;
     fetchScrape := fetchScrape wanted;
     fetchModel := fetchModel wanted |}.

(** Reading the request body throws the parser's error, which quotes the
    Hangul syllable the body begins with. *)
Definition hangulBody : World :=
  {| getUser := getUser wanted;
     reqJson := Threw (ErrorObject (js "Unexpected token 안 in JSON at position 0"));
     fetchPage := fetchPage wanted;
     fetchScrape := fetchScrape wanted;
     fetchModel := fetchModel wanted |}.

(** The body of the 402 answer, and the error value a caller holds for a
    failed call whose response body reads [text]. *)
Definition outOfCredits : ResponseBody :=
  {| success := false; error := Some ERR_NO_CREDITS; details := None;
     unsupportedSite := false; noContent := false; job := None |}.

Definition invokeError (text : jsstring) : JValue :=
  JObj [ (js "message", JStr (js "Edge Function returned a non-2xx status code"));
         (js "context", JObj [(js "body", JStr text)]) ].

End Cases.

(* ===================================================================== *)
(** * Facts about strings and the allowlist *)
(* ===================================================================== *)

Lemma startsWith_spec (s p : list N) :
  startsWith s p = true <-> exists t, s = p ++ t.
Proof.
  revert s. induction p as [|c p IH]; intros s; simpl.
  - split; [intros _; exists s; reflexivity | reflexivity].
  - destruct s as [|d s].
    + split; [discriminate | intros [t Ht]; discriminate].
    + rewrite andb_true_iff, N.eqb_eq, IH. split.
      * intros [-> [t ->]]. eauto.
      * intros [t Ht]. injection Ht as -> ->. eauto.
Qed.

Lemma endsWith_spec (s p : list N) :
  endsWith s p = true <-> exists t, s = t ++ p.
Proof.
  unfold endsWith. rewrite startsWith_spec. split.
  - intros [t Ht]. exists (rev t).
    rewrite <- (rev_involutive s), Ht, rev_app_distr, rev_involutive. reflexivity.
  - intros [t ->]. exists (rev t). apply rev_app_distr.
Qed.

(** The allowlist test of the code is the dot-boundary suffix match. *)
Lemma isAllowed_listed (h : list N) : isAllowed h = true <-> listed h.
Proof.
  unfold isAllowed, listed. rewrite existsb_exists.
  split; intros [allowed [Hin Hm]]; exists allowed; split; auto.
  - apply orb_true_iff in Hm as [Hm | Hm].
    + left. unfold streq in Hm. apply bool_decide_eq_true in Hm. exact Hm.
    + right. apply endsWith_spec in Hm. exact Hm.
  - apply orb_true_iff. destruct Hm as [-> | Hsub].
    + left. apply bool_decide_eq_true. reflexivity.
    + right. apply endsWith_spec. exact Hsub.
Qed.

Lemma unlisted_not_allowed (h : list N) : ~ listed h <-> isAllowed h = false.
Proof.
  rewrite <- isAllowed_listed. destruct (isAllowed h); split; intros Hx;
    congruence || (exfalso; apply Hx; reflexivity) || discriminate.
Qed.

Example lookalikes_are_not_listed :
  isAllowed (js "notlinkedin.com") = false
  /\ isAllowed (js "evil-linkedin.com.attacker.net") = false
  /\ isAllowed (js "127.0.0.1") = false
  /\ isAllowed (js "www.linkedin.com") = true
  /\ isAllowed (js "linkedin.com") = true.
Proof. vm_compute. repeat split. Qed.

(** Without the [http] prefix the scheme is added. *)
Lemma scheme_added_without_http_prefix (urlString : list N) :
  startsWith (trim urlString) (js "http") = false ->
  formatUrl urlString = js "https://" ++ trim urlString.
Proof. unfold formatUrl. intros ->. reflexivity. Qed.

(* ===================================================================== *)
(** * The validator *)
(* ===================================================================== *)

Section Validator.
Context `{Platform}.

Lemma rejected_reason_nonempty (urlString : list N) :
  valid (validateUrl urlString) = false ->
  exists reason, validateUrl urlString = rejected reason /\ reason <> [].
Proof.
  unfold validateUrl.
  destruct (URL_parse (formatUrl urlString)) as [parsed|].
  2:{ intros _. eexists. split; [reflexivity|]. vm_compute. discriminate. }
  repeat match goal with
         | |- context [if ?c then _ else _] => destruct c
         end;
    try (intros _; eexists; split; [reflexivity|]; vm_compute; discriminate).
  simpl. discriminate.
Qed.

Lemma unlisted_invalid (urlString : list N) :
  (forall parsed, URL_parse (formatUrl urlString) = Some parsed ->
                  ~ listed (toLowerCase (hostname parsed))) ->
  valid (validateUrl urlString) = false.
Proof.
  intros Hhost. unfold validateUrl.
  destruct (URL_parse (formatUrl urlString)) as [parsed|]; [|reflexivity].
  specialize (Hhost parsed eq_refl). apply unlisted_not_allowed in Hhost.
  cbv zeta. rewrite Hhost. cbn [negb].
  repeat match goal with
         | |- context [if ?c then _ else _] => destruct c
         end; reflexivity.
Qed.

(** The example of the specification, for any URL parser that reads the
    normalized text as an https URL on that host. *)
Lemma wanted_example :
  URL_parse (js "https://wanted.co.kr/wd/12345")
  = Some {| protocol := js "https:"; hostname := js "wanted.co.kr" |} ->
  validateUrl (js "wanted.co.kr/wd/12345")
  = {| valid := true; uv_error := None;
       uv_url := Some (js "https://wanted.co.kr/wd/12345") |}.
Proof.
  intros Hparse. unfold validateUrl.
  replace (formatUrl (js "wanted.co.kr/wd/12345"))
    with (js "https://wanted.co.kr/wd/12345") by (vm_compute; reflexivity).
  rewrite Hparse. vm_compute. reflexivity.
Qed.

End Validator.

(* ===================================================================== *)
(** * Facts about running programs *)
(* ===================================================================== *)

Section Running.
Context `{Platform}.
Implicit Types (w : World) (table : gmap (list N) Subscription).

Lemma run_bind {A B : Type} w table (p : Prog A) (f : A -> Prog B) :
  run w table (bind p f) =
  match fst (fst (run w table p)) with
  | Returned a =>
      let rest := run w (snd (fst (run w table p))) (f a) in
      (fst (fst rest), snd (fst rest), snd (run w table p) ++ snd rest)
  | Threw e => (Threw e, snd (fst (run w table p)), snd (run w table p))
  end.
Proof.
  revert table. induction p as [a|e|X ev k IH]; intros table; simpl.
  - destruct (run w table (f a)) as [[r t] c]. reflexivity.
  - reflexivity.
  - rewrite IH.
    destruct (fst (fst (run w (snd (fst (answer w table ev)))
                            (k (fst (fst (answer w table ev)))))));
      reflexivity.
Qed.

Lemma run_try_catch {A : Type} w table (p : Prog A) (g : Thrown -> A) :
  run w table (try_catch p (fun e => Ret (g e))) =
  (match fst (fst (run w table p)) with
   | Returned a => Returned a
   | Threw e => Returned (g e)
   end, snd (fst (run w table p)), snd (run w table p)).
Proof.
  revert table. induction p as [a|e|X ev k IH]; intros table; simpl.
  - reflexivity.
  - reflexivity.
  - rewrite IH. reflexivity.
Qed.

Lemma run_serve w table (req : Request) :
  method req <> js "OPTIONS" ->
  run w table (serve req)
  = (settled (fst (fst (run w table (authorize req)))),
     snd (fst (run w table (authorize req))),
     snd (run w table (authorize req))).
Proof.
  intros Hm. unfold serve, streq.
  rewrite bool_decide_eq_false_2 by exact Hm.
  rewrite run_try_catch. reflexivity.
Qed.

(** ** Programs all of whose calls satisfy a property *)

Lemma always_inv {A : Type} (P : Call -> Prop) (p : Prog A) :
  always P p ->
  match p with
  | Await ev k => P (called ev) /\ forall o, always P (k o)
  | _ => True
  end.
Proof. intros Hp. destruct Hp; auto. Qed.

Lemma always_mono {A : Type} (P Q : Call -> Prop) (p : Prog A) :
  (forall c, P c -> Q c) -> always P p -> always Q p.
Proof. intros HPQ Hp. induction Hp; constructor; auto. Qed.

Lemma always_bind {A B : Type} (P : Call -> Prop) (p : Prog A) (f : A -> Prog B) :
  always P p -> (forall a, always P (f a)) -> always P (bind p f).
Proof. intros Hp Hf. induction Hp; simpl; auto; constructor; auto. Qed.

Lemma always_try_catch {A : Type} (P : Call -> Prop) (p : Prog A) (h : Thrown -> Prog A) :
  always P p -> (forall e, always P (h e)) -> always P (try_catch p h).
Proof. intros Hp Hh. induction Hp; simpl; auto; constructor; auto. Qed.

Lemma always_settle {A : Type} (P : Call -> Prop) (o : Outcome A) :
  always P (settle o).
Proof. destruct o; constructor. Qed.

Lemma always_await {X : Type} (P : Call -> Prop) (ev : Event X) :
  P (called ev) -> always P (await ev).
Proof. intros Hev. constructor; [exact Hev | apply always_settle]. Qed.

Lemma always_run {A : Type} (P : Call -> Prop) w table (p : Prog A) :
  always P p -> Forall P (snd (run w table p)).
Proof.
  intros Hp. revert table. induction Hp; intros table; simpl; auto.
Qed.

(** A call other than the update leaves the table as it is. *)
Lemma answer_unchanged {X : Type} w table (ev : Event X) :
  noUpdate (called ev) ->
  snd (fst (answer w table ev)) = table /\ snd (answer w table ev) = 0%nat.
Proof. destruct ev; simpl; auto. discriminate. Qed.


End Running.

(** Goes through a program built from [await], [bind], [try_catch] and case
    distinctions. *)
Ltac always_tac :=
  repeat first
    [ apply always_Ret
    | apply always_Throw
    | apply always_settle
    | apply always_await; reflexivity
    | apply always_bind; [| intros ?]
    | apply always_try_catch; [| intros ?]
    | match goal with
      | |- always _ (if ?c then _ else _) => destruct c
      | |- always _ (match ?x with _ => _ end) => destruct x
      end ].

Section Quiet.
Context `{Platform}.

Lemma extract_no_update (url pageTitle pageContent geminiApiKey : list N) :
  always noUpdate (extract url pageTitle pageContent geminiApiKey).
Proof. unfold extract. always_tac. Qed.

Lemma analyze_no_update : always noUpdate analyze.
Proof.
  unfold analyze, fetchContent, firstTier, directFetch, scrapeFallback.
  always_tac; apply extract_no_update.
Qed.

Lemma firstTier_no_model (formattedUrl : list N) :
  always noModelFetch (firstTier formattedUrl).
Proof. unfold firstTier, directFetch. always_tac. Qed.

Lemma deductCredit_nonneg (u : User) (sub : Subscription) :
  always writesNonNegative (deductCredit u sub).
Proof.
  unfold deductCredit.
  destruct (ai_credits_remaining sub <? 1)%Z eqn:Hlt; [constructor|].
  apply always_bind.
  - apply always_await. unfold writesNonNegative. simpl. apply Z.ltb_ge in Hlt. lia.
  - intros updated. destruct (_ || _); [constructor|].
    eapply always_mono; [|apply analyze_no_update].
    intros [X ev]; destruct ev; unfold noUpdate, writesNonNegative; simpl;
      intros Hc; auto; discriminate.
Qed.

Lemma serve_nonneg (req : Request) : always writesNonNegative (serve req).
Proof.
  unfold serve. destruct (streq _ _); [constructor|].
  apply always_try_catch; [|intros e; constructor].
  unfold authorize. always_tac; apply deductCredit_nonneg.
Qed.

End Quiet.

(* ===================================================================== *)
(** * The handler up to the validation of the URL *)
(* ===================================================================== *)

Ltac run_step :=
  cbn [run bind try_catch await settle answer fst snd called app settled].

Ltac error_exit :=
  solve [ eexists _, _; repeat split; try reflexivity;
          try (repeat constructor); try discriminate ].

Section Rejection.
Context `{Platform}.

Lemma authorize_rejects (w : World) (table : gmap (list N) Subscription)
      (req : Request) (rawBody : JValue) (urlString : list N) :
  reqJson w = Returned rawBody ->
  requestSchema_safeParse rawBody = inr urlString ->
  valid (validateUrl urlString) = false ->
  exists response b,
    settled (fst (fst (run w table (authorize req)))) = Returned response
    /\ body response = Some b /\ success b = false
    /\ Forall (fun c => isFetch c = false) (snd (run w table (authorize req)))
    /\ (existsb isBodyRead (snd (run w table (authorize req))) = true ->
        status response = 400%Z /\ error b = uv_error (validateUrl urlString)).
Proof.
  intros Hb Hp Hv. unfold authorize.
  destruct (negb (nonEmpty (default [] (authorization req)))); [error_exit|].
  run_step.
  destruct (getUser w (default [] (authorization req))) as [auth|e]; run_step;
    [|error_exit].
  destruct (authError auth), (auth_user auth) as [u|]; run_step; try error_exit.
  destruct (subError (db_select table (id u))),
           (subscription (db_select table (id u))) as [sub|];
    run_step; try error_exit.
  unfold deductCredit.
  destruct (ai_credits_remaining sub <? 1)%Z; run_step; try error_exit.
  match goal with |- context [if ?c then _ else _] => destruct c end;
    run_step; try error_exit.
  unfold analyze. run_step. rewrite Hb. run_step. rewrite Hp, Hv.
  run_step. cbn [negb]. run_step.
  eexists _, _. repeat split; try reflexivity. repeat constructor.
Qed.

End Rejection.

(** C1. A URL whose host name (lower-cased, as the validator compares it) is
    neither an allowlisted domain nor a dot-separated subdomain of one is
    rejected by [validateUrl] with a non-empty error, and a request carrying
    it gets an error response while the handler makes no outbound fetch; once
    the body has been read the response is the 400 with the validator's
    error. *)
Theorem unlisted_host_rejected_before_any_fetch `{Platform} (urlString : list N) :
  (forall parsed, URL_parse (formatUrl urlString) = Some parsed ->
                  ~ listed (toLowerCase (hostname parsed))) ->
  (exists reason, validateUrl urlString = rejected reason /\ reason <> [])
  /\ forall (w : World) (table : gmap (list N) Subscription) (req : Request)
            (rawBody : JValue),
      method req <> js "OPTIONS" ->
      reqJson w = Returned rawBody ->
      requestSchema_safeParse rawBody = inr urlString ->
      exists response b,
        fst (fst (run w table (serve req))) = Returned response
        /\ body response = Some b /\ success b = false
        /\ Forall (fun c => isFetch c = false) (snd (run w table (serve req)))
        /\ (existsb isBodyRead (snd (run w table (serve req))) = true ->
            status response = 400%Z /\ error b = uv_error (validateUrl urlString)).
Proof.
  intros Hhost. pose proof (unlisted_invalid urlString Hhost) as Hv. split.
  - apply rejected_reason_nonempty. exact Hv.
  - intros w table req rawBody Hm Hb Hp.
    rewrite (run_serve w table req Hm). cbn [fst snd].
    apply authorize_rejects with (rawBody := rawBody); assumption.
Qed.

Lemma unlisted_host_rejected_witness :
  (exists reason,
      @validateUrl Reference.platform (js "https://evil-linkedin.com.attacker.net/jobs")
      = rejected reason /\ reason <> [])
  /\ exists response b,
      fst (fst (@run Reference.platform _ Scenario.lookalike Scenario.oneCredit
                     (@serve Reference.platform Scenario.post)))
      = Returned response
      /\ body response = Some b /\ success b = false.
Proof.
  assert (Hhost : forall parsed,
             @URL_parse Reference.platform
                        (formatUrl (js "https://evil-linkedin.com.attacker.net/jobs"))
             = Some parsed -> ~ listed (toLowerCase (hostname parsed))).
  { intros parsed Hparse. vm_compute in Hparse. injection Hparse as <-.
    apply unlisted_not_allowed. vm_compute. reflexivity. }
  destruct (@unlisted_host_rejected_before_any_fetch Reference.platform _ Hhost)
    as [Hv Hserve].
  split; [exact Hv|].
  destruct (Hserve Scenario.lookalike Scenario.oneCredit Scenario.post
                   (JObj [(js "url", JStr (js "https://evil-linkedin.com.attacker.net/jobs"))]))
    as (response & b & Hr & Hb & Hs & _).
  - vm_compute. discriminate.
  - reflexivity.
  - vm_compute. reflexivity.
  - exists response, b. auto.
Defined.

(* ===================================================================== *)
(** * The scheme prefix *)
(* ===================================================================== *)

(** C8. The input [http2.linkedin.com/jobs] starts with no scheme, yet
    [validateUrl] leaves it as it is, since it starts with the letters
    [http]; the URL constructor then refuses the text and the validator
    answers with the format error. *)
Theorem http_prefixed_host_is_not_normalized `{Platform} :
  URL_parse (js "http2.linkedin.com/jobs") = None ->
  formatUrl (js "http2.linkedin.com/jobs") = js "http2.linkedin.com/jobs"
  /\ validateUrl (js "http2.linkedin.com/jobs") = rejected ERR_URL_FORMAT.
Proof.
  intros Hparse.
  assert (Hf : formatUrl (js "http2.linkedin.com/jobs") = js "http2.linkedin.com/jobs")
    by (vm_compute; reflexivity).
  split; [exact Hf|].
  unfold validateUrl. rewrite Hf, Hparse. reflexivity.
Qed.

Lemma http_prefixed_host_witness :
  formatUrl (js "http2.linkedin.com/jobs") = js "http2.linkedin.com/jobs"
  /\ @validateUrl Reference.platform (js "http2.linkedin.com/jobs")
     = rejected ERR_URL_FORMAT.
Proof.
  apply (@http_prefixed_host_is_not_normalized Reference.platform).
  vm_compute. reflexivity.
Defined.

(** With the scheme written out the same host is accepted. *)
Example http_prefixed_host_is_allowlisted :
  @validateUrl Reference.platform (js "https://http2.linkedin.com/jobs")
  = {| valid := true; uv_error := None;
       uv_url := Some (js "https://http2.linkedin.com/jobs") |}.
Proof. vm_compute. reflexivity. Qed.

Example wanted_example_runs :
  @validateUrl Reference.platform (js "wanted.co.kr/wd/12345")
  = {| valid := true; uv_error := None;
       uv_url := Some (js "https://wanted.co.kr/wd/12345") |}.
Proof. apply (@wanted_example Reference.platform). vm_compute. reflexivity. Qed.

(* ===================================================================== *)
(** * The adapter *)
(* ===================================================================== *)

Section AdapterFacts.
Context `{Platform}.

Lemma normalize_function_call (aiData : JValue) (parts : list JValue) (part : JValue) :
  candidateParts aiData = Some (JArr parts) ->
  List.find hasFunctionCall parts = Some part ->
  normalizeGeminiToLovable aiData
  = inr (Some {| choices :=
                   [ {| message :=
                          {| msg_content := Some (textOf parts);
                             tool_calls :=
                               Some (oneToolCall (argumentsJson (callArgs part))) |} |} ] |}).
Proof.
  intros Hparts Hfind. unfold normalizeGeminiToLovable.
  rewrite Hparts, Hfind. cbv zeta.
  rewrite bool_decide_eq_true_2 by eauto.
  rewrite andb_false_r. reflexivity.
Qed.

Lemma normalize_text_only (aiData : JValue) (parts : list JValue) :
  candidateParts aiData = Some (JArr parts) ->
  List.find hasFunctionCall parts = None ->
  normalizeGeminiToLovable aiData
  = match textOf parts with
    | [] => inr None
    | _ :: _ =>
        inr (Some {| choices :=
                       [ {| message :=
                              {| msg_content := Some (textOf parts);
                                 tool_calls :=
                                   match JSON_parse (trim (textOf parts)) with
                                   | Some parsed =>
                                       Some (oneToolCall
                                               match parsed with
                                               | JStr s => s
                                               | _ => JSON_stringify parsed
                                               end)
                                   | None => None
                                   end |} |} ] |})
    end.
Proof.
  intros Hparts Hfind. unfold normalizeGeminiToLovable.
  rewrite Hparts, Hfind. cbv zeta.
  destruct (textOf parts) as [|c t]; [reflexivity|].
  cbn [nonEmpty negb andb]. reflexivity.
Qed.

End AdapterFacts.

(** C7, as the code has it.  A forced tool choice with a non-empty function
    name becomes the calling mode ANY restricted to that one name; and when
    a part of the first candidate carries a function call, the adapted
    response has that one tool call, whose [arguments] are the call's
    [args] (or, failing that, its [arguments]) unchanged when they are a
    string, and [JSON.stringify] of them, or of the empty object when there
    are none, otherwise: they parse whenever the platform's parser reads what
    its printer wrote for that value. *)
Theorem forced_choice_and_call_arguments `{Platform} :
  (forall (payload : LovableChatPayload) (choice : OpenAIToolChoice),
      tool_choice payload = Some choice ->
      choice_name choice <> [] ->
      toolConfig (request (buildGeminiRequest payload))
      = Some {| mode := ANY; allowedFunctionNames := Some [choice_name choice] |})
  /\ (forall (aiData : JValue) (parts : list JValue) (part : JValue),
         candidateParts aiData = Some (JArr parts) ->
         List.find hasFunctionCall parts = Some part ->
         normalizeGeminiToLovable aiData
         = inr (Some {| choices :=
                          [ {| message :=
                                 {| msg_content := Some (textOf parts);
                                    tool_calls :=
                                      Some (oneToolCall (argumentsJson (callArgs part))) |} |} ] |})
         /\ (forall s, callArgs part = Some (JStr s) ->
                       argumentsJson (callArgs part) = s)
         /\ (forall v, callArgs part = Some v -> (forall s, v <> JStr s) -> v <> JNull ->
                       argumentsJson (callArgs part) = JSON_stringify v
                       /\ forall parsed, JSON_parse (JSON_stringify v) = Some parsed ->
                                         JSON_parse (argumentsJson (callArgs part))
                                         = Some parsed)
         /\ (callArgs part = None \/ callArgs part = Some JNull ->
             argumentsJson (callArgs part) = JSON_stringify (JObj []))).
Proof.
  split.
  - intros payload choice Hchoice Hname. unfold buildGeminiRequest.
    cbn [request toolConfig]. rewrite Hchoice.
    destruct (choice_name choice); [congruence|reflexivity].
  - intros aiData parts part Hparts Hfind. split; [|split; [|split]].
    + apply normalize_function_call; assumption.
    + intros s ->. reflexivity.
    + intros v -> Hstr Hnull.
      assert (Hargs : argumentsJson (Some v) = JSON_stringify v).
      { destruct v; try reflexivity; [congruence | exfalso; eapply Hstr; reflexivity]. }
      split; [exact Hargs|]. intros parsed Hparsed. rewrite Hargs. exact Hparsed.
    + intros [-> | ->]; reflexivity.
Qed.

Lemma forced_choice_and_call_arguments_witness :
  toolConfig (request (@buildGeminiRequest Reference.platform
                         (@jobPostingPayload Reference.platform (js "Backend engineer")
                                             Scenario.posting)))
  = Some {| mode := ANY; allowedFunctionNames := Some [js "extract_job_posting"] |}
  /\ @JSON_parse Reference.platform
       (@argumentsJson Reference.platform (Some Scenario.acme))
     = Some Scenario.acme.
Proof.
  destruct (@forced_choice_and_call_arguments Reference.platform) as [Hchoice Hcall].
  split.
  - apply (Hchoice _ {| choice_name := js "extract_job_posting" |}).
    + reflexivity.
    + vm_compute. discriminate.
  - destruct (Hcall (Scenario.callAnswer Scenario.acme)
                    [JObj [(js "functionCall",
                             JObj [(js "name", JStr (js "extract_job_posting"));
                                   (js "args", Scenario.acme)])]]
                    (JObj [(js "functionCall",
                             JObj [(js "name", JStr (js "extract_job_posting"));
                                   (js "args", Scenario.acme)])]))
      as (_ & _ & Hobject & _).
    + vm_compute. reflexivity.
    + vm_compute. reflexivity.
    + destruct (Hobject Scenario.acme) as [_ Hparse].
      * vm_compute. reflexivity.
      * intros s. discriminate.
      * discriminate.
      * apply Hparse. vm_compute. reflexivity.
Defined.

(** C7 as stated fails: string arguments are handed on as they are, and
    [oops] is not JSON. *)
Lemma string_arguments_are_not_checked :
  @normalizeGeminiToLovable Reference.platform
    (Scenario.callAnswer (JStr (js "oops")))
  = inr (Some {| choices :=
                   [ {| message := {| msg_content := Some [];
                                      tool_calls := Some (oneToolCall (js "oops")) |} |} ] |})
  /\ @JSON_parse Reference.platform (js "oops") = None.
Proof. vm_compute. split; reflexivity. Qed.

(** A forced choice whose function name is empty sets no calling mode. *)
Example empty_forced_name_sets_no_mode :
  toolConfig (request (@buildGeminiRequest Reference.platform
                         {| model := None; messages := []; tools := None;
                            tool_choice := Some {| choice_name := [] |} |}))
  = None.
Proof. reflexivity. Qed.

(** C10. With text but no function-call part, text that does not parse as
    JSON is returned as the message content with no tool call; and whenever
    a tool call comes out of text alone, that text did parse and the
    arguments are what it parsed to. *)
Theorem free_text_is_never_made_a_tool_call `{Platform}
        (aiData : JValue) (parts : list JValue) :
  candidateParts aiData = Some (JArr parts) ->
  List.find hasFunctionCall parts = None ->
  (textOf parts <> [] ->
   JSON_parse (trim (textOf parts)) = None ->
   normalizeGeminiToLovable aiData
   = inr (Some {| choices :=
                    [ {| message := {| msg_content := Some (textOf parts);
                                       tool_calls := None |} |} ] |}))
  /\ (forall (r : LovableLikeResponse) (c : Choice) (calls : list ToolCall),
         normalizeGeminiToLovable aiData = inr (Some r) ->
         In c (choices r) ->
         tool_calls (message c) = Some calls ->
         exists parsed,
           JSON_parse (trim (textOf parts)) = Some parsed
           /\ calls = oneToolCall match parsed with
                                  | JStr s => s
                                  | _ => JSON_stringify parsed
                                  end).
Proof.
  intros Hparts Hfind.
  rewrite (normalize_text_only aiData parts Hparts Hfind). split.
  - intros Htext Hparse. destruct (textOf parts); [congruence|].
    rewrite Hparse. reflexivity.
  - intros r c calls Hr Hc Hcalls.
    destruct (textOf parts) as [|u t]; [discriminate|].
    injection Hr as <-. destruct Hc as [<- | []]. cbn [message tool_calls] in Hcalls.
    destruct (JSON_parse (trim (u :: t))) as [parsed|]; [|discriminate].
    injection Hcalls as <-. exists parsed. split; reflexivity.
Qed.

Lemma free_text_witness :
  @normalizeGeminiToLovable Reference.platform
    (Scenario.textAnswer (js "Sorry, this page is not a job posting."))
  = inr (Some {| choices :=
                   [ {| message :=
                          {| msg_content := Some (js "Sorry, this page is not a job posting.");
                             tool_calls := None |} |} ] |}).
Proof.
  apply (@free_text_is_never_made_a_tool_call Reference.platform
           (Scenario.textAnswer (js "Sorry, this page is not a job posting."))
           [JObj [(js "text", JStr (js "Sorry, this page is not a job posting."))]]).
  - vm_compute. reflexivity.
  - vm_compute. reflexivity.
  - vm_compute. discriminate.
  - vm_compute. reflexivity.
Defined.

(** Text that is JSON does become the tool call. *)
Example json_text_becomes_tool_call :
  @normalizeGeminiToLovable Reference.platform (Scenario.textAnswer (js " [1, 2] "))
  = inr (Some {| choices :=
                   [ {| message := {| msg_content := Some (js " [1, 2] ");
                                      tool_calls := Some (oneToolCall (js "[1,2]")) |} |} ] |}).
Proof. vm_compute. reflexivity. Qed.

(* ===================================================================== *)
(** * The handler's catch *)
(* ===================================================================== *)

(** C9, as the code has it.  An exception that escapes the body of the
    handler becomes a 500 response carrying [safeMessage]: the fixed generic
    message, unless the thrown value is an [Error] whose message contains a
    Hangul syllable, and then that message itself, unchanged. *)
Theorem escaping_exception_gets_safe_message `{Platform}
        (w : World) (table table' : gmap (list N) Subscription) (req : Request)
        (e : Thrown) (calls : list Call) :
  method req <> js "OPTIONS" ->
  run w table (authorize req) = (Threw e, table', calls) ->
  run w table (serve req) = (Returned (failure 500 (safeMessage e)), table', calls)
  /\ ((forall message, e = ErrorObject message -> hasHangul message = false) ->
      safeMessage e = fallbackMessage)
  /\ (forall message,
         e = ErrorObject message -> hasHangul message = true ->
         safeMessage e = message).
Proof.
  intros Hm Hrun. split; [|split].
  - rewrite (run_serve w table req Hm), Hrun. reflexivity.
  - intros Hplain. destruct e as [message|v]; [|reflexivity].
    simpl. rewrite (Hplain message eq_refl). reflexivity.
  - intros message -> Hhangul. simpl. rewrite Hhangul. reflexivity.
Qed.

Lemma escaping_exception_witness :
  fst (fst (@run Reference.platform _ Scenario.noBody Scenario.oneCredit
                 (@serve Reference.platform Scenario.post)))
  = Returned (failure 500 fallbackMessage).
Proof.
  pose (R := @run Reference.platform _ Scenario.noBody Scenario.oneCredit
                  (@authorize Reference.platform Scenario.post)).
  destruct (@escaping_exception_gets_safe_message Reference.platform
              Scenario.noBody Scenario.oneCredit (snd (fst R)) Scenario.post
              (ErrorObject (js "Unexpected end of JSON input")) (snd R))
    as (Hrun & Hplain & _).
  - vm_compute. discriminate.
  - vm_compute. reflexivity.
  - rewrite Hrun. cbn [fst]. rewrite Hplain; [reflexivity|].
    intros message Hmessage. injection Hmessage as <-. vm_compute. reflexivity.
Defined.

(** C9 as stated fails: the message of the parser for a body that begins
    with a Hangul syllable is an internal detail, and the caller gets it as
    it is. *)
Lemma hangul_error_detail_is_returned :
  fst (fst (@run Reference.platform _ Cases.hangulBody Scenario.oneCredit
                 (@serve Reference.platform Scenario.post)))
  = Returned (failure 500 (js "Unexpected token 안 in JSON at position 0"))
  /\ js "Unexpected token 안 in JSON at position 0" <> fallbackMessage.
Proof.
  split; [vm_compute; reflexivity|].
  intros Hsame. apply (f_equal (@length N)) in Hsame.
  vm_compute in Hsame. discriminate Hsame.
Qed.

(** A thrown message that is itself localized is passed on. *)
Example localized_message_is_passed_on :
  safeMessage (ErrorObject ERR_NO_CREDITS) = ERR_NO_CREDITS
  /\ safeMessage (ErrorObject (js "Unexpected token")) = fallbackMessage
  /\ safeMessage (OtherValue (JStr ERR_NO_CREDITS)) = fallbackMessage.
Proof. vm_compute. repeat split. Qed.

(* ===================================================================== *)
(** * The credit ledger, one request at a time *)
(* ===================================================================== *)

Section Gates.
Context `{Platform}.
Implicit Types (w : World) (table : gmap (list N) Subscription).

Lemma nonEmpty_true (s : list N) : s <> [] -> nonEmpty s = true.
Proof. destruct s; [congruence|reflexivity]. Qed.



Lemma run_authorize_credited w table req u sub :
  authenticates w req u ->
  table !! id u = Some sub ->
  (1 <= ai_credits_remaining sub)%Z ->
  report_count 1 <> Some 0%Z ->
  exists h,
    authorization req = Some h
    /\ run w table (authorize req)
       = (fst (fst (run w (deducted table u sub) analyze)),
          snd (fst (run w (deducted table u sub) analyze)),
          called (GetUser h)
            :: called (SelectSubscription (id u))
            :: called (UpdateSubscription (id u) (ai_credits_remaining sub)
                                          (ai_credits_remaining sub - 1)
                                          (default 0 (ai_credits_used sub) + 1)%Z)
            :: snd (run w (deducted table u sub) analyze)).
Proof.
  intros (_ & h & Hh & Hne & Huser) Hrow Hcredit Hcount. exists h.
  split; [exact Hh|].
  unfold authorize. rewrite Hh. cbn [from_option Datatypes.id].
  rewrite (nonEmpty_true _ Hne). cbn [negb]. run_step. rewrite Huser. run_step.
  cbn [authError auth_user]. run_step.
  unfold db_select. rewrite Hrow. cbn [subError subscription].
  unfold deductCredit. apply Z.ltb_ge in Hcredit. rewrite Hcredit. run_step.
  unfold db_update. rewrite Hrow, Z.eqb_refl. cbn [fst snd creditError updatedCount].
  rewrite (bool_decide_eq_false_2 (is_Some None)) by (intros [x Hx]; discriminate).
  rewrite (bool_decide_eq_false_2 _ Hcount). cbn [orb].
  reflexivity.
Qed.

Lemma run_analyze_valid w table (url formattedUrl firecrawlApiKey geminiApiKey : list N) :
  (exists rawBody, reqJson w = Returned rawBody
                   /\ requestSchema_safeParse rawBody = inr url) ->
  validateUrl url = {| valid := true; uv_error := None; uv_url := Some formattedUrl |} ->
  Deno_env_get (js "FIRECRAWL_API_KEY") = Some firecrawlApiKey ->
  firecrawlApiKey <> [] ->
  Deno_env_get (js "GEMINI_API_KEY") = Some geminiApiKey ->
  geminiApiKey <> [] ->
  run w table analyze
  = (fst (fst (run w table (fetchContent url formattedUrl firecrawlApiKey geminiApiKey))),
     snd (fst (run w table (fetchContent url formattedUrl firecrawlApiKey geminiApiKey))),
     called ReqJson
       :: snd (run w table (fetchContent url formattedUrl firecrawlApiKey geminiApiKey))).
Proof.
  intros (rawBody & Hbody & Hparse) Hvalid Hk1 Hne1 Hk2 Hne2.
  unfold analyze. run_step. rewrite Hbody. run_step. rewrite Hparse, Hvalid.
  cbn [valid uv_url negb from_option Datatypes.id]. rewrite Hk1, Hk2. cbn [from_option Datatypes.id].
  rewrite (nonEmpty_true _ Hne1), (nonEmpty_true _ Hne2). reflexivity.
Qed.

(** A request that reaches the content stage: what came before it. *)
Lemma run_serve_reaches w table req u sub
      (url formattedUrl firecrawlApiKey geminiApiKey : list N) :
  reachesContent w table req u sub url formattedUrl firecrawlApiKey geminiApiKey ->
  exists h,
    authorization req = Some h
    /\ run w table (serve req)
       = (settled (fst (fst (run w (deducted table u sub)
                                 (fetchContent url formattedUrl
                                               firecrawlApiKey geminiApiKey)))),
          snd (fst (run w (deducted table u sub)
                        (fetchContent url formattedUrl firecrawlApiKey geminiApiKey))),
          callsBeforeContent h u sub
            ++ snd (run w (deducted table u sub)
                        (fetchContent url formattedUrl firecrawlApiKey geminiApiKey))).
Proof.
  intros (Hauth & Hrow & Hcredit & Hcount & Hbody & Hvalid & Hk1 & Hne1 & Hk2 & Hne2).
  destruct (run_authorize_credited w table req u sub Hauth Hrow Hcredit Hcount)
    as (h & Hh & Hrun).
  exists h. split; [exact Hh|].
  rewrite (run_serve w table req (proj1 Hauth)), Hrun.
  rewrite (run_analyze_valid w (deducted table u sub) url formattedUrl
                             firecrawlApiKey geminiApiKey Hbody Hvalid Hk1 Hne1 Hk2 Hne2).
  reflexivity.
Qed.


End Gates.




(* ===================================================================== *)
(** * Fetching content *)
(* ===================================================================== *)

Section Content.
Context `{Platform}.
Implicit Types (w : World) (table : gmap (list N) Subscription).

Lemma run_firstTier_other w table (formattedUrl : list N) :
  includes formattedUrl (js "linkedin.com") = false ->
  run w table (firstTier formattedUrl) = (Returned ([], []), table, []).
Proof. intros Hother. unfold firstTier. rewrite Hother. reflexivity. Qed.

Lemma run_fetchContent_unsupported w table
      (url formattedUrl firecrawlApiKey geminiApiKey reason : list N)
      (scrapeResponse : ScrapeResponse) (scrapeData : ScrapeData) :
  includes formattedUrl (js "linkedin.com") = false ->
  fetchScrape w firecrawlApiKey (markdownOfMainContent formattedUrl)
  = Returned scrapeResponse ->
  scrape_json scrapeResponse = Returned scrapeData ->
  isOk (scrape_status scrapeResponse) = false \/ scrape_success scrapeData = false ->
  scrape_error scrapeData = Some reason ->
  includes reason (js "not currently supported") = true ->
  run w table (fetchContent url formattedUrl firecrawlApiKey geminiApiKey)
  = (Returned (flagged ERR_UNSUPPORTED_BY_SCRAPER true false), table,
     [called (FetchScrape firecrawlApiKey (markdownOfMainContent formattedUrl))]).
Proof.
  intros Hother Hscrape Hjson Hfailed Herror Hreason.
  unfold fetchContent. rewrite run_bind, (run_firstTier_other _ _ _ Hother).
  cbn [fst snd app]. unfold scrapeFallback. cbn [nonEmpty negb orb]. run_step.
  unfold markdownOfMainContent in Hscrape. rewrite Hscrape. run_step.
  rewrite Hjson. run_step.
  assert (Hcond : negb (isOk (scrape_status scrapeResponse))
                  || negb (scrape_success scrapeData) = true).
  { destruct Hfailed as [-> | ->]; [reflexivity | apply orb_true_r]. }
  rewrite Hcond, Herror, Hreason. reflexivity.
Qed.

End Content.

(** C4. For a request that reaches the content stage with a validated URL
    that is not a LinkedIn one: when the scraping API's answer is not
    successful and its error contains "not currently supported", the
    response is the 400 with [success: false] and [unsupportedSite: true],
    and the model is never called. *)
Theorem unsupported_site_is_flagged_without_model_call `{Platform}
        (w : World) (table : gmap (list N) Subscription) (req : Request)
        (u : User) (sub : Subscription)
        (url formattedUrl firecrawlApiKey geminiApiKey reason : list N)
        (scrapeResponse : ScrapeResponse) (scrapeData : ScrapeData) :
  reachesContent w table req u sub url formattedUrl firecrawlApiKey geminiApiKey ->
  includes formattedUrl (js "linkedin.com") = false ->
  fetchScrape w firecrawlApiKey (markdownOfMainContent formattedUrl)
  = Returned scrapeResponse ->
  scrape_json scrapeResponse = Returned scrapeData ->
  isOk (scrape_status scrapeResponse) = false \/ scrape_success scrapeData = false ->
  scrape_error scrapeData = Some reason ->
  includes reason (js "not currently supported") = true ->
  fst (fst (run w table (serve req)))
  = Returned {| status := 400;
                body := Some {| success := false;
                                error := Some ERR_UNSUPPORTED_BY_SCRAPER;
                                details := None; unsupportedSite := true;
                                noContent := false; job := None |} |}
  /\ Forall noModelFetch (snd (run w table (serve req))).
Proof.
  intros Hreach Hother Hscrape Hjson Hfailed Herror Hreason.
  destruct (run_serve_reaches w table req u sub url formattedUrl
                              firecrawlApiKey geminiApiKey Hreach) as (h & _ & Hrun).
  rewrite Hrun.
  rewrite (run_fetchContent_unsupported w (deducted table u sub) url formattedUrl
             firecrawlApiKey geminiApiKey reason scrapeResponse scrapeData
             Hother Hscrape Hjson Hfailed Herror Hreason).
  split; [reflexivity|].
  cbn [fst snd]. unfold callsBeforeContent. repeat constructor.
Qed.

Lemma unsupported_site_witness :
  fst (fst (@run Reference.platform _ Scenario.unsupported Scenario.oneCredit
                 (@serve Reference.platform Scenario.post)))
  = Returned (flagged ERR_UNSUPPORTED_BY_SCRAPER true false)
  /\ Forall noModelFetch
            (snd (@run Reference.platform _ Scenario.unsupported Scenario.oneCredit
                       (@serve Reference.platform Scenario.post))).
Proof.
  eapply (@unsupported_site_is_flagged_without_model_call Reference.platform
            Scenario.unsupported Scenario.oneCredit Scenario.post Scenario.alice
            {| ai_credits_remaining := 1; ai_credits_used := Some 2%Z |}
            (js "https://www.wanted.co.kr/wd/12345")
            (js "https://www.wanted.co.kr/wd/12345")
            (js "fc-key") (js "gm-key")
            (js "This website is not currently supported.")).
  - repeat split; try (vm_compute; discriminate); try (vm_compute; reflexivity).
    + exists (js "Bearer token"). repeat split. vm_compute. discriminate.
    + eexists. split; reflexivity.
  - vm_compute. reflexivity.
  - reflexivity.
  - reflexivity.
  - left. vm_compute. reflexivity.
  - reflexivity.
  - vm_compute. reflexivity.
Defined.

(* ===================================================================== *)
(** * Reading the model's answer *)
(* ===================================================================== *)

Ltac no_such_call :=
  solve [ cbn [existsb isModelFetch isScrapeFetch projT2 called orb fst snd];
          intros; discriminate ].

Section NothingExtracted.
Context `{Platform}.
Implicit Types (table : gmap (list N) Subscription).

Variables (w : World) (modelAnswer : AiResponse) (raw : JValue)
          (aiData : option LovableLikeResponse).
Hypothesis Hmodel : forall m k rq, fetchModel w m k rq = Returned modelAnswer.
Hypothesis Hok : isOk (ai_status modelAnswer) = true.
Hypothesis Hjson : ai_json modelAnswer = Returned raw.
Hypothesis Hnormal : normalizeGeminiToLovable raw = inr aiData.
Hypothesis Hnothing :
  toolCallArguments aiData = None
  \/ exists a, toolCallArguments aiData = Some a /\ JSON_parse a = None.

Lemma nothing_parsed : parseJobData aiData = None.
Proof.
  unfold parseJobData.
  destruct Hnothing as [-> | (a & -> & Hparse)]; [reflexivity|].
  rewrite Hparse. destruct (nonEmpty a); reflexivity.
Qed.

Lemma extract_nothing table (url pageTitle pageContent geminiApiKey : list N) :
  nothingExtracted (run w table (extract url pageTitle pageContent geminiApiKey)).
Proof.
  unfold nothingExtracted, extract.
  destruct (negb (nonEmpty pageContent) || (len pageContent <? 50)%Z);
    [no_such_call|].
  run_step. rewrite Hmodel. run_step. rewrite Hok. cbn [negb].
  rewrite Hjson. run_step. rewrite Hnormal, nothing_parsed. reflexivity.
Qed.

Lemma scrapeFallback_nothing table
      (url formattedUrl firecrawlApiKey geminiApiKey pageTitle pageContent : list N) :
  nothingExtracted
    (run w table (scrapeFallback url formattedUrl firecrawlApiKey geminiApiKey
                                 pageTitle pageContent)).
Proof.
  unfold nothingExtracted, scrapeFallback.
  destruct (negb (nonEmpty pageContent) || (len pageContent <? 100)%Z);
    [|apply extract_nothing].
  run_step.
  destruct (fetchScrape w firecrawlApiKey _) as [scrapeResponse|e];
    run_step; [|no_such_call].
  destruct (scrape_json scrapeResponse) as [scrapeData|e];
    run_step; [|no_such_call].
  destruct (negb (isOk (scrape_status scrapeResponse))
            || negb (scrape_success scrapeData)).
  - destruct (match scrape_error scrapeData with
              | Some e => includes e (js "not currently supported")
              | None => false
              end); no_such_call.
  - cbn [existsb isModelFetch projT2 called orb]. apply extract_nothing.
Qed.

Lemma fetchContent_nothing table
      (url formattedUrl firecrawlApiKey geminiApiKey : list N) :
  nothingExtracted
    (run w table (fetchContent url formattedUrl firecrawlApiKey geminiApiKey)).
Proof.
  unfold nothingExtracted, fetchContent. rewrite run_bind.
  pose proof (always_run noModelFetch w table (firstTier formattedUrl)
                         (firstTier_no_model formattedUrl)) as Hquiet.
  assert (Hnone : existsb isModelFetch (snd (run w table (firstTier formattedUrl)))
                  = false).
  { induction Hquiet as [|c calls Hc _ IH]; [reflexivity|].
    cbn [existsb]. unfold noModelFetch in Hc. rewrite Hc. exact IH. }
  destruct (fst (fst (run w table (firstTier formattedUrl)))) as [page|e].
  - cbn [fst snd]. rewrite existsb_app, Hnone. cbn [orb].
    apply scrapeFallback_nothing.
  - cbn [fst snd]. rewrite Hnone. discriminate.
Qed.

Lemma analyze_nothing table : nothingExtracted (run w table analyze).
Proof.
  unfold nothingExtracted, analyze. run_step.
  destruct (reqJson w) as [rawBody|e]; run_step; [|no_such_call].
  destruct (requestSchema_safeParse rawBody) as [issues|url]; [no_such_call|].
  destruct (negb (valid (validateUrl url))); [no_such_call|].
  destruct (negb (nonEmpty (default [] (Deno_env_get (js "FIRECRAWL_API_KEY")))));
    [no_such_call|].
  destruct (negb (nonEmpty (default [] (Deno_env_get (js "GEMINI_API_KEY")))));
    [no_such_call|].
  cbn [existsb isModelFetch projT2 called orb]. apply fetchContent_nothing.
Qed.

Lemma authorize_nothing table (req : Request) :
  nothingExtracted (run w table (authorize req)).
Proof.
  unfold nothingExtracted, authorize.
  destruct (negb (nonEmpty (default [] (authorization req)))); [no_such_call|].
  run_step.
  destruct (getUser w (default [] (authorization req))) as [auth|e]; run_step;
    [|no_such_call].
  destruct (authError auth), (auth_user auth) as [u|]; run_step; try no_such_call.
  destruct (subError (db_select table (id u))),
           (subscription (db_select table (id u))) as [sub|];
    run_step; try no_such_call.
  unfold deductCredit.
  destruct (ai_credits_remaining sub <? 1)%Z; run_step; try no_such_call.
  match goal with |- context [if ?c then _ else _] => destruct c end;
    run_step; try no_such_call.
  cbn [existsb isModelFetch projT2 called orb]. apply analyze_nothing.
Qed.

End NothingExtracted.

(** C5. Suppose the model endpoint answers successfully and the normalized
    answer either has no tool-call arguments or has arguments that
    [JSON.parse] refuses.  Then every request for which the model was called
    is answered 400 with [success: false] and [noContent: true], and the
    response carries no job data. *)
Theorem unparsed_tool_call_yields_no_content `{Platform}
        (w : World) (table : gmap (list N) Subscription) (req : Request)
        (modelAnswer : AiResponse) (raw : JValue)
        (aiData : option LovableLikeResponse) :
  (forall m k rq, fetchModel w m k rq = Returned modelAnswer) ->
  isOk (ai_status modelAnswer) = true ->
  ai_json modelAnswer = Returned raw ->
  normalizeGeminiToLovable raw = inr aiData ->
  (toolCallArguments aiData = None
   \/ exists a, toolCallArguments aiData = Some a /\ JSON_parse a = None) ->
  existsb isModelFetch (snd (run w table (serve req))) = true ->
  fst (fst (run w table (serve req)))
  = Returned {| status := 400;
                body := Some {| success := false;
                                error := Some ERR_NOTHING_EXTRACTED;
                                details := None; unsupportedSite := false;
                                noContent := true; job := None |} |}.
Proof.
  intros Hmodel Hok Hjson Hnormal Hnothing.
  unfold serve. destruct (streq (method req) (js "OPTIONS")).
  - cbn [run snd existsb]. discriminate.
  - rewrite run_try_catch. cbn [fst snd]. intros Hcalled.
    rewrite (authorize_nothing w modelAnswer raw aiData Hmodel Hok Hjson Hnormal
                               Hnothing table req Hcalled).
    reflexivity.
Qed.

Lemma unparsed_tool_call_witness :
  fst (fst (@run Reference.platform _ Scenario.chatty Scenario.oneCredit
                 (@serve Reference.platform Scenario.post)))
  = Returned (flagged ERR_NOTHING_EXTRACTED false true).
Proof.
  apply (@unparsed_tool_call_yields_no_content Reference.platform
           Scenario.chatty Scenario.oneCredit Scenario.post
           {| ai_status := 200; ai_text := Returned [];
              ai_json := Returned (Scenario.textAnswer
                                     (js "Sorry, this page is not a job posting.")) |}
           (Scenario.textAnswer (js "Sorry, this page is not a job posting."))
           (Some {| choices :=
                      [ {| message :=
                             {| msg_content :=
                                  Some (js "Sorry, this page is not a job posting.");
                                tool_calls := None |} |} ] |})).
  - intros m k rq. reflexivity.
  - reflexivity.
  - reflexivity.
  - vm_compute. reflexivity.
  - left. reflexivity.
  - vm_compute. reflexivity.
Defined.

(** Arguments that are not JSON end the same way. *)
Example broken_arguments_yield_no_content :
  fst (fst (@run Reference.platform _
                 (Scenario.worldOf (js "wanted.co.kr/wd/12345")
                                   (Scenario.scraped Scenario.posting)
                                   (Returned (Scenario.callAnswer (JStr (js "{oops")))))
                 Scenario.oneCredit (@serve Reference.platform Scenario.post)))
  = Returned (flagged ERR_NOTHING_EXTRACTED false true).
Proof. vm_compute. reflexivity. Qed.

(** With arguments that parse, the job data is returned. *)
Example parsed_arguments_are_returned :
  fst (fst (@run Reference.platform _ Scenario.wanted Scenario.oneCredit
                 (@serve Reference.platform Scenario.post)))
  = Returned {| status := 200;
                body := Some {| success := true; error := None; details := None;
                                unsupportedSite := false; noContent := false;
                                job := Some (JObj [ (js "isJobPosting", JBool true);
                                                    (js "companyName", JStr (js "Acme"));
                                                    (js "sourceUrl",
                                                      JStr (js "wanted.co.kr/wd/12345")) ]) |} |}.
Proof. vm_compute. reflexivity. Qed.

(* ===================================================================== *)
(** * The two tiers and the length checks *)
(* ===================================================================== *)

Lemma none_called (P : Call -> bool) (calls : list Call) :
  Forall (fun c => P c = false) calls -> existsb P calls = false.
Proof.
  induction 1 as [|c calls Hc _ IH]; [reflexivity|].
  cbn [existsb]. rewrite Hc. exact IH.
Qed.

Section Tiers.
Context `{Platform}.
Implicit Types (w : World) (table : gmap (list N) Subscription).

Lemma short_first_tier_falls_back w table
      (url formattedUrl firecrawlApiKey geminiApiKey pageTitle pageContent : list N) :
  fst (fst (run w table (firstTier formattedUrl))) = Returned (pageTitle, pageContent) ->
  (len pageContent < 100)%Z ->
  exists rest,
    snd (run w table (fetchContent url formattedUrl firecrawlApiKey geminiApiKey))
    = snd (run w table (firstTier formattedUrl))
      ++ called (FetchScrape firecrawlApiKey (markdownOfMainContent formattedUrl))
      :: rest.
Proof.
  intros Hfirst Hshort. unfold fetchContent. rewrite run_bind, Hfirst.
  cbn [fst snd]. unfold scrapeFallback.
  apply Z.ltb_lt in Hshort. rewrite Hshort, orb_true_r. run_step.
  eexists. reflexivity.
Qed.

Lemma short_content_is_refused w table
      (url pageTitle pageContent geminiApiKey : list N) :
  (len pageContent < 50)%Z ->
  run w table (extract url pageTitle pageContent geminiApiKey)
  = (Returned (failure 400 ERR_NO_PAGE_CONTENT), table, []).
Proof.
  intros Hshort. unfold extract.
  apply Z.ltb_lt in Hshort. rewrite Hshort, orb_true_r. reflexivity.
Qed.

Lemma extract_no_scrape (url pageTitle pageContent geminiApiKey : list N) :
  always noScrapeFetch (extract url pageTitle pageContent geminiApiKey).
Proof. unfold extract. always_tac. Qed.

Lemma firstTier_no_scrape (formattedUrl : list N) :
  always noScrapeFetch (firstTier formattedUrl).
Proof. unfold firstTier, directFetch. always_tac. Qed.

Variables (w : World) (scrapeResponse : ScrapeResponse) (scrapeData : ScrapeData).
Hypothesis Hscrape : forall k b, fetchScrape w k b = Returned scrapeResponse.
Hypothesis Hok : isOk (scrape_status scrapeResponse) = true.
Hypothesis Hjson : scrape_json scrapeResponse = Returned scrapeData.
Hypothesis Hsuccess : scrape_success scrapeData = true.
Hypothesis Hthin : (len (scrapedText scrapeData) < 50)%Z.

Lemma scrapeFallback_thin table
      (url formattedUrl firecrawlApiKey geminiApiKey pageTitle pageContent : list N) :
  thinContent
    (run w table (scrapeFallback url formattedUrl firecrawlApiKey geminiApiKey
                                 pageTitle pageContent)).
Proof.
  unfold thinContent, scrapeFallback.
  destruct (negb (nonEmpty pageContent) || (len pageContent <? 100)%Z).
  - run_step. rewrite Hscrape. run_step. rewrite Hjson. run_step.
    rewrite Hok, Hsuccess. cbn [negb orb].
    fold (scrapedText scrapeData).
    rewrite short_content_is_refused by exact Hthin.
    intros _. split; reflexivity.
  - rewrite (none_called isScrapeFetch _
               (always_run noScrapeFetch w table _
                           (extract_no_scrape url pageTitle pageContent geminiApiKey))).
    discriminate.
Qed.

Lemma fetchContent_thin table
      (url formattedUrl firecrawlApiKey geminiApiKey : list N) :
  thinContent
    (run w table (fetchContent url formattedUrl firecrawlApiKey geminiApiKey)).
Proof.
  unfold thinContent, fetchContent. rewrite run_bind.
  pose proof (none_called isScrapeFetch _
                (always_run noScrapeFetch w table _
                            (firstTier_no_scrape formattedUrl))) as Hnone.
  pose proof (none_called isModelFetch _
                (always_run noModelFetch w table _
                            (firstTier_no_model formattedUrl))) as Hquiet.
  destruct (fst (fst (run w table (firstTier formattedUrl)))) as [page|e].
  - cbn [fst snd]. rewrite !existsb_app, Hnone, Hquiet. cbn [orb].
    apply scrapeFallback_thin.
  - cbn [fst snd]. rewrite Hnone. discriminate.
Qed.

Lemma analyze_thin table : thinContent (run w table analyze).
Proof.
  unfold thinContent, analyze. run_step.
  destruct (reqJson w) as [rawBody|e]; run_step; [|no_such_call].
  destruct (requestSchema_safeParse rawBody) as [issues|url]; [no_such_call|].
  destruct (negb (valid (validateUrl url))); [no_such_call|].
  destruct (negb (nonEmpty (default [] (Deno_env_get (js "FIRECRAWL_API_KEY")))));
    [no_such_call|].
  destruct (negb (nonEmpty (default [] (Deno_env_get (js "GEMINI_API_KEY")))));
    [no_such_call|].
  cbn [existsb isModelFetch isScrapeFetch projT2 called orb].
  apply fetchContent_thin.
Qed.

Lemma authorize_thin table (req : Request) :
  thinContent (run w table (authorize req)).
Proof.
  unfold thinContent, authorize.
  destruct (negb (nonEmpty (default [] (authorization req)))); [no_such_call|].
  run_step.
  destruct (getUser w (default [] (authorization req))) as [auth|e]; run_step;
    [|no_such_call].
  destruct (authError auth), (auth_user auth) as [u|]; run_step; try no_such_call.
  destruct (subError (db_select table (id u))),
           (subscription (db_select table (id u))) as [sub|];
    run_step; try no_such_call.
  unfold deductCredit.
  destruct (ai_credits_remaining sub <? 1)%Z; run_step; try no_such_call.
  match goal with |- context [if ?c then _ else _] => destruct c end;
    run_step; try no_such_call.
  cbn [existsb isModelFetch isScrapeFetch projT2 called orb].
  apply analyze_thin.
Qed.

End Tiers.

(** C6. (1) When the first tier leaves content shorter than 100 units
    (for a URL that is not a LinkedIn one it leaves none), the next call is
    the scraping API, asked for the markdown of the main content of the
    validated URL.  (2) Content shorter than 50 units is refused with the
    generic 400 and no call at all.  (3) So when the scraping API was called
    and its successful answer has fewer than 50 units of markdown, the
    request is answered with that generic 400 and the model is not
    called. *)
Theorem short_content_falls_back_then_fails `{Platform} (w : World) :
  (forall (table : gmap (list N) Subscription)
          (url formattedUrl firecrawlApiKey geminiApiKey pageTitle pageContent : list N),
      fst (fst (run w table (firstTier formattedUrl)))
      = Returned (pageTitle, pageContent) ->
      (len pageContent < 100)%Z ->
      exists rest,
        snd (run w table (fetchContent url formattedUrl firecrawlApiKey geminiApiKey))
        = snd (run w table (firstTier formattedUrl))
          ++ called (FetchScrape firecrawlApiKey
                                 {| scrape_url := formattedUrl;
                                    formats := [js "markdown"];
                                    onlyMainContent := true |})
          :: rest)
  /\ (forall (table : gmap (list N) Subscription)
             (url pageTitle pageContent geminiApiKey : list N),
         (len pageContent < 50)%Z ->
         run w table (extract url pageTitle pageContent geminiApiKey)
         = (Returned (failure 400 ERR_NO_PAGE_CONTENT), table, []))
  /\ (forall (table : gmap (list N) Subscription) (req : Request)
             (scrapeResponse : ScrapeResponse) (scrapeData : ScrapeData),
         (forall k b, fetchScrape w k b = Returned scrapeResponse) ->
         isOk (scrape_status scrapeResponse) = true ->
         scrape_json scrapeResponse = Returned scrapeData ->
         scrape_success scrapeData = true ->
         (len (scrapedText scrapeData) < 50)%Z ->
         existsb isScrapeFetch (snd (run w table (serve req))) = true ->
         fst (fst (run w table (serve req)))
         = Returned (failure 400 ERR_NO_PAGE_CONTENT)
         /\ existsb isModelFetch (snd (run w table (serve req))) = false).
Proof.
  split; [|split].
  - intros table url formattedUrl firecrawlApiKey geminiApiKey pageTitle pageContent.
    apply short_first_tier_falls_back.
  - intros table url pageTitle pageContent geminiApiKey.
    apply short_content_is_refused.
  - intros table req scrapeResponse scrapeData Hscrape Hok Hjson Hsuccess Hthin.
    unfold serve. destruct (streq (method req) (js "OPTIONS")).
    + cbn [run snd existsb]. discriminate.
    + rewrite run_try_catch. cbn [fst snd]. intros Hcalled.
      destruct (authorize_thin w scrapeResponse scrapeData Hscrape Hok Hjson
                               Hsuccess Hthin table req Hcalled) as [-> Hquiet].
      split; [reflexivity | exact Hquiet].
Qed.

Lemma short_content_witness :
  (exists rest,
      snd (@run Reference.platform _ Scenario.thin Scenario.oneCredit
                (@fetchContent Reference.platform
                               (js "linkedin.com/jobs/view/1")
                               (js "https://linkedin.com/jobs/view/1")
                               (js "fc-key") (js "gm-key")))
      = snd (@run Reference.platform _ Scenario.thin Scenario.oneCredit
                  (@firstTier Reference.platform (js "https://linkedin.com/jobs/view/1")))
        ++ called (FetchScrape (js "fc-key")
                               {| scrape_url := js "https://linkedin.com/jobs/view/1";
                                  formats := [js "markdown"];
                                  onlyMainContent := true |})
        :: rest)
  /\ fst (fst (@run Reference.platform _ Scenario.thin Scenario.oneCredit
                    (@serve Reference.platform Scenario.post)))
     = Returned (failure 400 ERR_NO_PAGE_CONTENT).
Proof.
  destruct (@short_content_falls_back_then_fails Reference.platform Scenario.thin)
    as (Hfall & _ & Hthin).
  split.
  - apply (Hfall Scenario.oneCredit (js "linkedin.com/jobs/view/1")
                 (js "https://linkedin.com/jobs/view/1") (js "fc-key") (js "gm-key")
                 [] []).
    + vm_compute. reflexivity.
    + vm_compute. reflexivity.
  - apply (Hthin Scenario.oneCredit Scenario.post
                 {| scrape_status := 200;
                    scrape_json :=
                      Returned {| scrape_success := true; scrape_error := None;
                                  scrape_data :=
                                    Some {| markdown := Some (js "Closed.");
                                            metadata :=
                                              Some {| title := Some (js "Backend engineer") |} |} |} |}
                 {| scrape_success := true; scrape_error := None;
                    scrape_data :=
                      Some {| markdown := Some (js "Closed.");
                              metadata := Some {| title := Some (js "Backend engineer") |} |} |}).
    + intros k b. reflexivity.
    + reflexivity.
    + reflexivity.
    + reflexivity.
    + vm_compute. reflexivity.
    + vm_compute. reflexivity.
Defined.

(* ===================================================================== *)
(** * The credit ledger under concurrent requests *)
(* ===================================================================== *)

Section Ledger.
Context `{Platform}.
Implicit Types (sys : System) (t : Thread) (table : gmap (list N) Subscription).

Lemma exec_app (a b : list nat) sys : exec (a ++ b) sys = exec b (exec a sys).
Proof. unfold exec. apply fold_left_app. Qed.

Lemma step_thread_finished sys (i : nat) :
  (forall t, threads sys !! i = Some t ->
             match prog t with Await _ _ => False | _ => True end) ->
  step_thread i sys = sys.
Proof.
  intros Hdone. unfold step_thread.
  destruct (threads sys !! i) as [t|]; [|reflexivity].
  specialize (Hdone t eq_refl). destruct (prog t); [reflexivity..|contradiction].
Qed.

(** ** The balance never goes below zero *)

Lemma db_update_nonneg table (uid : list N) (observed remaining used : Z) :
  nonNegative table -> (0 <= remaining)%Z ->
  nonNegative (fst (db_update table uid observed remaining used)).
Proof.
  intros Htable Hrem. unfold db_update.
  destruct (table !! uid) as [row|]; [|exact Htable].
  destruct (ai_credits_remaining row =? observed)%Z; [|exact Htable].
  cbn [fst]. intros uid' row' Hlookup.
  destruct (decide (uid = uid')) as [->|Hne].
  - rewrite lookup_insert_eq in Hlookup. injection Hlookup as <-. exact Hrem.
  - rewrite lookup_insert_ne in Hlookup by exact Hne. eapply Htable, Hlookup.
Qed.

Lemma answer_nonneg {X : Type} (w : World) table (ev : Event X) :
  nonNegative table -> writesNonNegative (called ev) ->
  nonNegative (snd (fst (answer w table ev))).
Proof.
  intros Htable Hev. destruct ev; cbn [answer fst snd]; auto.
  apply db_update_nonneg; assumption.
Qed.

Lemma step_thread_nonneg sys (i : nat) :
  (forall j t, threads sys !! j = Some t -> always writesNonNegative (prog t)) ->
  nonNegative (rows sys) ->
  (forall j t, threads (step_thread i sys) !! j = Some t ->
               always writesNonNegative (prog t))
  /\ nonNegative (rows (step_thread i sys)).
Proof.
  intros Hthreads Htable. unfold step_thread.
  destruct (threads sys !! i) as [t|] eqn:Hi; [|auto].
  pose proof (Hthreads i t Hi) as Ht.
  destruct (prog t) as [a|e|X ev k] eqn:Hprog; [auto..|].
  apply always_inv in Ht. destruct Ht as [Hev Hk].
  cbn [threads rows]. split.
  - intros j t' Hj. destruct (decide (i = j)) as [<-|Hne].
    + rewrite list_lookup_insert_eq in Hj by (eapply lookup_lt_Some, Hi).
      injection Hj as <-. apply Hk.
    + rewrite list_lookup_insert_ne in Hj by exact Hne. eapply Hthreads, Hj.
  - apply answer_nonneg; assumption.
Qed.

Lemma exec_nonneg (schedule : list nat) sys :
  (forall j t, threads sys !! j = Some t -> always writesNonNegative (prog t)) ->
  nonNegative (rows sys) ->
  nonNegative (rows (exec schedule sys)).
Proof.
  revert sys. induction schedule as [|i schedule IH]; intros sys Hthreads Htable.
  - exact Htable.
  - cbn [exec fold_left].
    destruct (step_thread_nonneg sys i Hthreads Htable) as [Hthreads' Htable'].
    apply IH; assumption.
Qed.

(** ** Two requests and one credit *)

Lemma deductions_snoc sys (rows' : gmap (list N) Subscription)
      (threads' : list Thread) (s : Step) :
  deductions {| rows := rows'; threads := threads'; history := history sys ++ [s] |}
  = (deductions sys
     + if isUpdate (call s) && (0 <? changed s)%nat then 1 else 0)%nat.
Proof.
  unfold deductions. cbn [history].
  rewrite List.filter_app, length_app. cbn [List.filter].
  destruct (isUpdate (call s) && (0 <? changed s)%nat); reflexivity.
Qed.

Variable u : User.

(** The step of a ready request while the credit is there: it deducts. *)
Lemma step_ready_wins sys (i : nat) t :
  threads sys !! i = Some t -> ready u t -> balanceIs sys u 1 ->
  exists t',
    threads (step_thread i sys) = <[i := t']> (threads sys)
    /\ quiet t'
    /\ balanceIs (step_thread i sys) u 0
    /\ deductions (step_thread i sys) = S (deductions sys).
Proof.
  intros Hi (sub & Hone & Hprog) Hbalance.
  unfold balanceIs, balance in Hbalance.
  destruct (rows sys !! id u) as [row|] eqn:Hrow; [|discriminate].
  cbn [fmap option_fmap option_map] in Hbalance. injection Hbalance as Hrem.
  unfold step_thread. rewrite Hi, Hprog.
  unfold deductCredit. rewrite Hone.
  cbn [Z.ltb Z.compare Pos.compare Pos.compare_cont bind await try_catch].
  unfold answer, db_update. rewrite Hrow, Hrem.
  cbn [Z.eqb Pos.eqb fst snd].
  eexists. split; [reflexivity|]. split; [|split].
  - unfold quiet. cbn [prog settle bind]. 
    match goal with |- context [if ?c then _ else _] => destruct c end.
    + constructor.
    + apply always_try_catch; [apply analyze_no_update | intros e; constructor].
  - unfold balanceIs, balance. cbn [rows].
    rewrite lookup_insert_eq. reflexivity.
  - rewrite deductions_snoc. cbn [call changed isUpdate called projT2 andb Nat.ltb Nat.leb].
    lia.
Qed.

(** The step of a ready request after the credit is gone: the update
    changes no row, and whatever the client reports of it the request makes
    no further update. *)
Lemma step_ready_loses sys (i : nat) t :
  threads sys !! i = Some t -> ready u t -> balanceIs sys u 0 ->
  exists t',
    threads (step_thread i sys) = <[i := t']> (threads sys)
    /\ quiet t'
    /\ balanceIs (step_thread i sys) u 0
    /\ deductions (step_thread i sys) = deductions sys.
Proof.
  intros Hi (sub & Hone & Hprog) Hbalance.
  pose proof Hbalance as Hkeep.
  unfold balanceIs, balance in Hbalance.
  destruct (rows sys !! id u) as [row|] eqn:Hrow; [|discriminate].
  cbn [fmap option_fmap option_map] in Hbalance. injection Hbalance as Hrem.
  unfold step_thread. rewrite Hi, Hprog.
  unfold deductCredit. rewrite Hone.
  cbn [Z.ltb Z.compare Pos.compare Pos.compare_cont bind await try_catch].
  unfold answer, db_update. rewrite Hrow, Hrem.
  cbn [Z.eqb fst snd].
  eexists. split; [reflexivity|]. split; [|split].
  - unfold quiet. cbn [prog settle bind].
    match goal with |- context [if ?c then _ else _] => destruct c end.
    + constructor.
    + apply always_try_catch; [apply analyze_no_update | intros e; constructor].
  - exact Hkeep.
  - rewrite deductions_snoc. cbn [call changed isUpdate called projT2 andb Nat.ltb Nat.leb].
    lia.
Qed.

(** The step of a request that makes no further update. *)
Lemma step_quiet sys (i : nat) t :
  threads sys !! i = Some t -> quiet t ->
  exists t',
    threads (step_thread i sys) = <[i := t']> (threads sys)
    /\ quiet t'
    /\ rows (step_thread i sys) = rows sys
    /\ deductions (step_thread i sys) = deductions sys.
Proof.
  intros Hi Hquiet. unfold step_thread. rewrite Hi.
  unfold quiet in Hquiet.
  destruct (prog t) as [a|e|X ev k] eqn:Hprog.
  - exists t. rewrite list_insert_id by exact Hi. unfold quiet. rewrite Hprog.
    repeat split; constructor.
  - exists t. rewrite list_insert_id by exact Hi. unfold quiet. rewrite Hprog.
    repeat split; constructor.
  - apply always_inv in Hquiet. destruct Hquiet as [Hev Hk].
    destruct (answer_unchanged (world t) (rows sys) ev Hev) as [Hrows Hchanged].
    eexists. split; [reflexivity|]. split; [|split].
    + apply Hk.
    + exact Hrows.
    + rewrite deductions_snoc. cbn [call changed]. rewrite Hchanged.
      rewrite andb_false_r. lia.
Qed.

Lemma step_outside sys (i : nat) (t0 t1 : Thread) :
  threads sys = [t0; t1] -> step_thread (S (S i)) sys = sys.
Proof.
  intros Hthreads. apply step_thread_finished. intros t.
  rewrite Hthreads. discriminate.
Qed.

Lemma balanceIs_rows sys sys' (n : Z) :
  rows sys' = rows sys -> balanceIs sys u n -> balanceIs sys' u n.
Proof. unfold balanceIs. intros ->. auto. Qed.

Lemma raceState_step sys (i : nat) :
  raceState u sys -> raceState u (step_thread i sys).
Proof.
  intros [t0 t1 Hthreads Hbalance Hready0 Hready1 Hnone
         |t0 t1 Hthreads Hbalance Hfirst Hsecond Hone].
  - destruct i as [|[|i]].
    + destruct (step_ready_wins sys 0 t0) as (t' & Ht' & Hq & Hb & Hd);
        [rewrite Hthreads; reflexivity | assumption..|].
      rewrite Hthreads in Ht'. cbn in Ht'.
      eapply race_won; eauto. lia.
    + destruct (step_ready_wins sys 1 t1) as (t' & Ht' & Hq & Hb & Hd);
        [rewrite Hthreads; reflexivity | assumption..|].
      rewrite Hthreads in Ht'. cbn in Ht'.
      eapply race_won; eauto. lia.
    + rewrite (step_outside sys i t0 t1 Hthreads).
      eapply race_open; eauto.
  - destruct i as [|[|i]].
    + destruct Hfirst as [Hready | Hquiet].
      * destruct (step_ready_loses sys 0 t0) as (t' & Ht' & Hq & Hb & Hd);
          [rewrite Hthreads; reflexivity | assumption..|].
        rewrite Hthreads in Ht'. cbn in Ht'.
        eapply race_won; eauto. lia.
      * destruct (step_quiet sys 0 t0) as (t' & Ht' & Hq & Hr & Hd);
          [rewrite Hthreads; reflexivity | assumption |].
        rewrite Hthreads in Ht'. cbn in Ht'.
        eapply race_won; eauto using balanceIs_rows. lia.
    + destruct Hsecond as [Hready | Hquiet].
      * destruct (step_ready_loses sys 1 t1) as (t' & Ht' & Hq & Hb & Hd);
          [rewrite Hthreads; reflexivity | assumption..|].
        rewrite Hthreads in Ht'. cbn in Ht'.
        eapply race_won; eauto. lia.
      * destruct (step_quiet sys 1 t1) as (t' & Ht' & Hq & Hr & Hd);
          [rewrite Hthreads; reflexivity | assumption |].
        rewrite Hthreads in Ht'. cbn in Ht'.
        eapply race_won; eauto using balanceIs_rows. lia.
    + rewrite (step_outside sys i t0 t1 Hthreads).
      eapply race_won; eauto.
Qed.

Lemma raceState_exec (schedule : list nat) sys :
  raceState u sys -> raceState u (exec schedule sys).
Proof.
  revert sys. induction schedule as [|i schedule IH]; intros sys Hrace.
  - exact Hrace.
  - cbn [exec fold_left]. apply IH, raceState_step, Hrace.
Qed.

Lemma ready_unfinished sys (i : nat) t (r : Response) :
  threads sys !! i = Some t -> ready u t -> response_of sys i = Some r -> False.
Proof.
  intros Hi (sub & Hone & Hprog). unfold response_of. rewrite Hi, Hprog.
  unfold deductCredit. rewrite Hone. discriminate.
Qed.

(** What a race state says about the outcome. *)
Lemma raceState_outcome sys :
  raceState u sys ->
  (deductions sys <= 1)%nat
  /\ (balanceIs sys u 1 \/ balanceIs sys u 0)
  /\ forall r0 r1,
      response_of sys 0 = Some r0 -> response_of sys 1 = Some r1 ->
      deductions sys = 1%nat /\ balanceIs sys u 0.
Proof.
  intros [t0 t1 Hthreads Hbalance Hready0 Hready1 Hnone
         |t0 t1 Hthreads Hbalance Hfirst Hsecond Hone].
  - split; [lia|]. split; [auto|]. intros r0 r1 Hr0 _. exfalso.
    eapply (ready_unfinished sys 0 t0); eauto. rewrite Hthreads. reflexivity.
  - split; [lia|]. split; [auto|]. intros r0 r1 _ _. split; assumption.
Qed.

(** Both requests authenticate and read the row, in any of the six
    orders: the race is open. *)
Lemma both_observe (w0 w1 : World) (req0 req1 : Request)
      table (first : list nat) :
  authenticates w0 req0 u -> authenticates w1 req1 u ->
  balance table (id u) = Some 1%Z ->
  In first bothObserveFirst ->
  raceState u (exec first {| rows := table;
                             threads := [ {| world := w0; prog := serve req0 |};
                                          {| world := w1; prog := serve req1 |} ];
                             history := [] |}).
Proof.
  intros (Hm0 & h0 & Hh0 & Hne0 & Huser0) (Hm1 & h1 & Hh1 & Hne1 & Huser1)
         Hbalance Hfirst.
  pose proof Hbalance as Hkeep. unfold balance in Hbalance.
  destruct (table !! id u) as [row|] eqn:Hrow; [|discriminate].
  cbn [fmap option_fmap option_map] in Hbalance. injection Hbalance as Hrem.
  assert (Hs0 : serve req0
                = Await (GetUser h0)
                    (fun o => try_catch (bind (settle o)
                       (fun auth =>
                          match authError auth, auth_user auth with
                          | None, Some u' =>
                              bind (await (SelectSubscription (id u')))
                                (fun selected =>
                                   match subError selected, subscription selected with
                                   | None, Some sub => deductCredit u' sub
                                   | _, _ => Ret (failure 404 ERR_NO_SUBSCRIPTION)
                                   end)
                          | _, _ => Ret (failure 401 ERR_AUTH_EXPIRED)
                          end))
                       (fun error => Ret (caught error)))).
  { unfold serve, streq. rewrite bool_decide_eq_false_2 by exact Hm0.
    unfold authorize. rewrite Hh0. cbn [from_option Datatypes.id].
    rewrite (nonEmpty_true _ Hne0). reflexivity. }
  assert (Hs1 : serve req1
                = Await (GetUser h1)
                    (fun o => try_catch (bind (settle o)
                       (fun auth =>
                          match authError auth, auth_user auth with
                          | None, Some u' =>
                              bind (await (SelectSubscription (id u')))
                                (fun selected =>
                                   match subError selected, subscription selected with
                                   | None, Some sub => deductCredit u' sub
                                   | _, _ => Ret (failure 404 ERR_NO_SUBSCRIPTION)
                                   end)
                          | _, _ => Ret (failure 401 ERR_AUTH_EXPIRED)
                          end))
                       (fun error => Ret (caught error)))).
  { unfold serve, streq. rewrite bool_decide_eq_false_2 by exact Hm1.
    unfold authorize. rewrite Hh1. cbn [from_option Datatypes.id].
    rewrite (nonEmpty_true _ Hne1). reflexivity. }
  rewrite Hs0, Hs1.
  unfold bothObserveFirst in Hfirst. cbn [In] in Hfirst.
  assert (Hready : forall w, ready u {| world := w;
                                        prog := try_catch (deductCredit u row)
                                                  (fun error => Ret (caught error)) |}).
  { intros w. exists row. split; [exact Hrem | reflexivity]. }
  destruct Hfirst as [<-|[<-|[<-|[<-|[<-|[<-|[]]]]]]];
    repeat (progress
              (cbn [exec fold_left step_thread threads rows history world prog
                    lookup list_lookup insert list_insert answer fst snd app
                    settle bind try_catch authError auth_user await db_select
                    subError subscription];
               unfold db_select; rewrite ?Huser0, ?Huser1, ?Hrow));
    (eapply race_open;
     [ reflexivity | exact Hkeep | apply Hready | apply Hready | reflexivity ]).
Qed.

End Ledger.

(** A LinkedIn page on which the scans find nothing leaves 35 units of
    content; the scraping API is asked next and its text goes to the
    model. *)
Example walled_page_falls_back :
  List.map isFetch
           (snd (@run Reference.platform _ Scenario.walled Scenario.oneCredit
                      (@serve Reference.platform Scenario.post)))
  = [false; false; false; false; true; true; true]
  /\ List.map isScrapeFetch
              (snd (@run Reference.platform _ Scenario.walled Scenario.oneCredit
                         (@serve Reference.platform Scenario.post)))
     = [false; false; false; false; false; true; false]
  /\ fst (fst (@run Reference.platform _ Scenario.walled Scenario.oneCredit
                    (@firstTier Reference.platform
                                (js "https://www.linkedin.com/jobs/view/1"))))
     = Returned ([], js "Title: " ++ [10; 10]%N ++ js "Description: "
                        ++ [10; 10; 10; 10]%N ++ js "Content:" ++ [10%N]).
Proof. vm_compute. repeat split. Qed.

(* ===================================================================== *)
(** * More about the validator *)
(* ===================================================================== *)

Lemma existsb_streq (x : list N) (l : list (list N)) :
  existsb (streq x) l = true <-> In x l.
Proof.
  rewrite existsb_exists. unfold streq. split.
  - intros (y & Hy & Hxy). apply bool_decide_eq_true in Hxy. subst. exact Hy.
  - intros Hx. exists x. split; [exact Hx | apply bool_decide_eq_true; reflexivity].
Qed.

(** X1. Whatever [validateUrl] accepts is the normalized input, at most
    2000 units long, and parses as an http or https URL whose lower-cased
    host is listed, matches none of the private-range patterns and is none
    of the loopback names. *)
Theorem accepted_url_is_safe `{Platform} (urlString : list N) :
  valid (validateUrl urlString) = true ->
  validateUrl urlString
  = {| valid := true; uv_error := None; uv_url := Some (formatUrl urlString) |}
  /\ (len (formatUrl urlString) <= 2000)%Z
  /\ exists parsed,
      URL_parse (formatUrl urlString) = Some parsed
      /\ (protocol parsed = js "https:" \/ protocol parsed = js "http:")
      /\ listed (toLowerCase (hostname parsed))
      /\ isPrivateHost (toLowerCase (hostname parsed)) = false
      /\ ~ In (toLowerCase (hostname parsed))
              [js "localhost"; js "127.0.0.1"; js "0.0.0.0"; js "::1"].
Proof.
  unfold validateUrl.
  destruct (URL_parse (formatUrl urlString)) as [parsed|]; [|discriminate].
  cbv zeta.
  destruct (existsb (streq (protocol parsed)) [js "https:"; js "http:"]) eqn:Hproto;
    [|discriminate].
  cbn [negb].
  destruct (existsb (streq (toLowerCase (hostname parsed))) _) eqn:Hloop;
    [discriminate|].
  destruct (isPrivateHost (toLowerCase (hostname parsed))) eqn:Hprivate;
    [discriminate|].
  destruct (isAllowed (toLowerCase (hostname parsed))) eqn:Hallowed;
    [|discriminate].
  cbn [negb].
  destruct (2000 <? len (formatUrl urlString))%Z eqn:Hlong; [discriminate|].
  intros _. split; [reflexivity|]. split; [apply Z.ltb_ge in Hlong; lia|].
  exists parsed. split; [reflexivity|]. split; [|split; [|split]].
  - apply existsb_streq in Hproto.
    destruct Hproto as [Hp | [Hp | []]]; [left | right]; symmetry; exact Hp.
  - apply isAllowed_listed. exact Hallowed.
  - exact Hprivate.
  - intros Hin. apply existsb_streq in Hin. congruence.
Qed.

Lemma accepted_url_is_safe_witness :
  @validateUrl Reference.platform (js "  wanted.co.kr/wd/12345 ")
  = {| valid := true; uv_error := None;
       uv_url := Some (js "https://wanted.co.kr/wd/12345") |}
  /\ (len (formatUrl (js "  wanted.co.kr/wd/12345 ")) <= 2000)%Z.
Proof.
  destruct (@accepted_url_is_safe Reference.platform (js "  wanted.co.kr/wd/12345 "))
    as (Hresult & Hlen & _).
  - vm_compute. reflexivity.
  - split; [|exact Hlen]. rewrite Hresult. vm_compute. reflexivity.
Defined.

(** ** Trimming *)

Lemma trimStart_clean (s : list N) : startsClean (trimStart s).
Proof.
  induction s as [|c s IH]; [exact I|].
  cbn [trimStart]. destruct (isWhiteSpace c) eqn:Hc; [exact IH | exact Hc].
Qed.

Lemma trimStart_id (s : list N) : startsClean s -> trimStart s = s.
Proof. destruct s as [|c s]; [reflexivity|]. cbn. intros ->. reflexivity. Qed.

Lemma trimStart_suffix (s : list N) : exists ws, s = ws ++ trimStart s.
Proof.
  induction s as [|c s [ws IH]]; [exists []; reflexivity|].
  cbn [trimStart]. destruct (isWhiteSpace c).
  - exists (c :: ws). cbn. f_equal. exact IH.
  - exists []. reflexivity.
Qed.

Lemma trim_clean (s : list N) : startsClean (trim s) /\ startsClean (rev (trim s)).
Proof.
  unfold trim. rewrite rev_involutive. split; [|apply trimStart_clean].
  destruct (trimStart_suffix (rev (trimStart s))) as [ws Hws].
  assert (Ht : trimStart s = rev (trimStart (rev (trimStart s))) ++ rev ws).
  { rewrite <- rev_app_distr, <- Hws, rev_involutive. reflexivity. }
  pose proof (trimStart_clean s) as Hclean. rewrite Ht in Hclean.
  destruct (rev (trimStart (rev (trimStart s)))); [exact I | exact Hclean].
Qed.

Lemma trim_id (s : list N) :
  startsClean s -> startsClean (rev s) -> trim s = s.
Proof.
  intros Hs Hr. unfold trim.
  rewrite (trimStart_id s Hs), (trimStart_id (rev s) Hr). apply rev_involutive.
Qed.

Lemma trim_idempotent (s : list N) : trim (trim s) = trim s.
Proof. destruct (trim_clean s). apply trim_id; assumption. Qed.

Lemma trim_prefixed (s : list N) : trim (js "https://" ++ trim s) = js "https://" ++ trim s.
Proof.
  apply trim_id.
  - vm_compute. reflexivity.
  - rewrite rev_app_distr. destruct (trim_clean s) as [_ Hend].
    destruct (rev (trim s)) as [|c r]; [vm_compute; reflexivity | exact Hend].
Qed.

(** X2. Normalizing is stable: the normalized text normalizes to itself, and
    the validator gives the same verdict on it as on the original input. *)
Theorem normalization_is_stable `{Platform} (urlString : list N) :
  formatUrl (formatUrl urlString) = formatUrl urlString
  /\ validateUrl (formatUrl urlString) = validateUrl urlString.
Proof.
  assert (Hstable : formatUrl (formatUrl urlString) = formatUrl urlString).
  { assert (Hprefixed : startsWith (js "https://" ++ trim urlString) (js "http") = true).
    { apply startsWith_spec. exists (skipn 4 (js "https://") ++ trim urlString).
      vm_compute (js "http"). vm_compute (js "https://"). reflexivity. }
    unfold formatUrl. cbv zeta.
    destruct (startsWith (trim urlString) (js "http")) eqn:Hhttp.
    - rewrite trim_idempotent, Hhttp. reflexivity.
    - rewrite trim_prefixed, Hprefixed. reflexivity. }
  split; [exact Hstable|]. unfold validateUrl. rewrite Hstable. reflexivity.
Qed.

(** X3. The allowlist is closed under subdomains: whatever is put in front
    of an allowed host name and a dot is allowed too. *)
Theorem allowlist_closed_under_subdomains (h sub : list N) :
  isAllowed h = true -> isAllowed (sub ++ js "." ++ h) = true.
Proof.
  rewrite !isAllowed_listed. intros (allowed & Hin & Hmatch).
  exists allowed. split; [exact Hin|]. right.
  destruct Hmatch as [-> | [sub' ->]].
  - exists sub. reflexivity.
  - exists (sub ++ js "." ++ sub'). rewrite <- !app_assoc. reflexivity.
Qed.

Lemma allowlist_closed_under_subdomains_witness :
  isAllowed (js "kr" ++ js "." ++ js "www.linkedin.com") = true.
Proof.
  apply allowlist_closed_under_subdomains. vm_compute. reflexivity.
Defined.

(** X4. The loopback and private-range tests come before the allowlist: an
    http(s) URL whose lower-cased host is a loopback name or starts with
    [10.], [192.168.] or [169.254.] is refused as invalid even when that
    host is a subdomain of an allowlisted domain. *)
Theorem private_prefix_overrides_allowlist `{Platform}
        (urlString : list N) (parsed : URL) :
  URL_parse (formatUrl urlString) = Some parsed ->
  protocol parsed = js "https:" \/ protocol parsed = js "http:" ->
  In (toLowerCase (hostname parsed))
     [js "localhost"; js "127.0.0.1"; js "0.0.0.0"; js "::1"]
  \/ (exists rest, toLowerCase (hostname parsed) = js "10." ++ rest)
  \/ (exists rest, toLowerCase (hostname parsed) = js "192.168." ++ rest)
  \/ (exists rest, toLowerCase (hostname parsed) = js "169.254." ++ rest) ->
  validateUrl urlString = rejected ERR_INVALID_URL.
Proof.
  intros Hparse Hproto Hhost. unfold validateUrl. rewrite Hparse. cbv zeta.
  replace (existsb (streq (protocol parsed)) [js "https:"; js "http:"]) with true
    by (symmetry; apply existsb_streq;
        destruct Hproto as [-> | ->]; [left | right; left]; reflexivity).
  cbn [negb].
  destruct (existsb (streq (toLowerCase (hostname parsed))) _) eqn:Hloop;
    [reflexivity|].
  destruct Hhost as [Hin | Hprefix].
  - apply existsb_streq in Hin. congruence.
  - replace (isPrivateHost (toLowerCase (hostname parsed))) with true; [reflexivity|].
    symmetry. unfold isPrivateHost.
    destruct Hprefix as [Hp | [Hp | Hp]];
      apply startsWith_spec in Hp; rewrite Hp;
      rewrite ?orb_true_r; reflexivity.
Qed.

Lemma private_prefix_overrides_allowlist_witness :
  @validateUrl Reference.platform (js "https://10.jobs.lever.co/acme")
  = rejected ERR_INVALID_URL
  /\ isAllowed (js "10.jobs.lever.co") = true.
Proof.
  split; [|vm_compute; reflexivity].
  apply (@private_prefix_overrides_allowlist Reference.platform _
           {| protocol := js "https:"; hostname := js "10.jobs.lever.co" |}).
  - vm_compute. reflexivity.
  - left. reflexivity.
  - right. left. exists (js "jobs.lever.co"). vm_compute. reflexivity.
Defined.

(* ===================================================================== *)
(** * More about the adapter *)
(* ===================================================================== *)

(** Induction on JSON values, with the hypothesis for every element of an
    array and every property of an object. *)
Lemma JValue_nested_ind (P : JValue -> Prop) :
  P JNull ->
  (forall b, P (JBool b)) ->
  (forall n, P (JNum n)) ->
  (forall s, P (JStr s)) ->
  (forall items, Forall P items -> P (JArr items)) ->
  (forall fields, Forall (fun kv => P (snd kv)) fields -> P (JObj fields)) ->
  forall v, P v.
Proof.
  intros HNull HBool HNum HStr HArr HObj.
  fix IH 1. intros [ | b | n | s | items | fields ].
  - exact HNull.
  - apply HBool.
  - apply HNum.
  - apply HStr.
  - apply HArr. induction items as [|x items IHitems]; constructor;
      [apply IH | exact IHitems].
  - apply HObj. induction fields as [|[k x] fields IHfields]; constructor;
      [apply IH | exact IHfields].
Qed.

Lemma sanitizeSchema_cons (key : list N) (val : JValue)
      (rest : list (list N * JValue)) :
  sanitizeSchema (JObj ((key, val) :: rest))
  = match sanitizeSchema (JObj rest) with
    | JObj cleaned =>
        JObj (if droppedKey key then cleaned
              else (key, sanitizeSchema val) :: cleaned)
    | other => other
    end.
Proof. cbn [sanitizeSchema]. destruct (droppedKey key); reflexivity. Qed.

Lemma sanitizeSchema_object (fields : list (list N * JValue)) :
  exists cleaned, sanitizeSchema (JObj fields) = JObj cleaned.
Proof. eexists. reflexivity. Qed.

Lemma droppedKey_differs (k key : list N) :
  droppedKey k = false -> droppedKey key = true -> streq k key = false.
Proof.
  intros Hk Hkey. unfold streq. apply bool_decide_eq_false. intros ->. congruence.
Qed.

Lemma sanitizeSchema_drops (key : list N) (v : JValue) :
  droppedKey key = true -> mentionsKey key (sanitizeSchema v) = false.
Proof.
  intros Hkey. induction v as [ | b | n | s | items IH | fields IH ]
    using JValue_nested_ind; try reflexivity.
  - cbn [sanitizeSchema mentionsKey].
    induction IH as [|x items Hx _ IHitems]; [reflexivity|].
    cbn [List.map existsb]. rewrite Hx, IHitems. reflexivity.
  - induction IH as [|[k x] rest Hx _ IHrest]; [reflexivity|].
    rewrite sanitizeSchema_cons.
    destruct (sanitizeSchema_object rest) as [cleaned Hcleaned].
    rewrite Hcleaned in *. destruct (droppedKey k) eqn:Hk; [exact IHrest|].
    cbn [mentionsKey existsb] in *. cbn [snd] in Hx.
    rewrite (droppedKey_differs k key Hk Hkey), Hx, IHrest. reflexivity.
Qed.

(** X5. [sanitizeSchema] leaves no [additionalProperties] and no [nullable]
    property at any depth of a schema, however the objects and arrays in it
    are nested. *)
Theorem sanitizeSchema_strips_at_every_depth (schema : JValue) :
  mentionsKey (js "additionalProperties") (sanitizeSchema schema) = false
  /\ mentionsKey (js "nullable") (sanitizeSchema schema) = false.
Proof. split; apply sanitizeSchema_drops; vm_compute; reflexivity. Qed.

(** X6. [sanitizeSchema] is idempotent: a cleaned schema is left as it is. *)
Theorem sanitizeSchema_idempotent (schema : JValue) :
  sanitizeSchema (sanitizeSchema schema) = sanitizeSchema schema.
Proof.
  induction schema as [ | b | n | s | items IH | fields IH ]
    using JValue_nested_ind; try reflexivity.
  - cbn [sanitizeSchema]. f_equal.
    induction IH as [|x items Hx _ IHitems]; [reflexivity|].
    cbn [List.map]. rewrite Hx, IHitems. reflexivity.
  - induction IH as [|[k x] rest Hx _ IHrest]; [reflexivity|].
    rewrite sanitizeSchema_cons.
    destruct (sanitizeSchema_object rest) as [cleaned Hcleaned].
    rewrite Hcleaned in *. destruct (droppedKey k) eqn:Hk; [exact IHrest|].
    rewrite sanitizeSchema_cons, IHrest, Hk. cbn [snd] in Hx. rewrite Hx.
    reflexivity.
Qed.


(** ** Data URLs *)

Lemma takeUntil_app (c : N) (before rest : list N) :
  existsb (N.eqb c) before = false ->
  takeUntil c (before ++ c :: rest) = before.
Proof.
  induction before as [|x before IH]; cbn [existsb app takeUntil]; intros Hfree.
  - rewrite N.eqb_refl. reflexivity.
  - apply orb_false_elim in Hfree as [Hx Hrest].
    rewrite N.eqb_sym, Hx, IH by exact Hrest. reflexivity.
Qed.

Lemma takeUntil_prefix (c : N) (s : list N) :
  takeUntil c s ++ skipn (length (takeUntil c s)) s = s.
Proof.
  induction s as [|x s IH]; [reflexivity|].
  cbn [takeUntil]. destruct (x =? c)%N; [reflexivity|].
  cbn [length skipn app]. rewrite IH. reflexivity.
Qed.

Lemma startsWith_skip (s p : list N) :
  startsWith s p = true -> s = p ++ skipn (length p) s.
Proof.
  intros Hp. apply startsWith_spec in Hp as [rest ->].
  rewrite skipn_app, skipn_all, Nat.sub_diag. reflexivity.
Qed.

Lemma match_data_url_sound (url mime payload : list N) :
  match_data_url url = Some (mime, payload) ->
  url = js "data:" ++ mime ++ js ";base64," ++ payload
  /\ mime <> [] /\ payload <> [].
Proof.
  unfold match_data_url.
  destruct (startsWith url (js "data:")) eqn:Hdata; [|discriminate].
  cbv zeta.
  set (rest := skipn 5 url).
  destruct (nonEmpty (takeUntil 59 rest)) eqn:Hmime; [|discriminate].
  destruct (startsWith (skipn (length (takeUntil 59 rest)) rest) (js ";base64,"))
    eqn:Hbase; [|discriminate].
  cbn [andb].
  destruct (nonEmpty (skipn 8 (skipn (length (takeUntil 59 rest)) rest)))
    eqn:Hpayload; [|discriminate].
  destruct (forallb _ _); [|discriminate].
  cbn [andb]. intros [= <- <-].
  split; [|split].
  - rewrite (startsWith_skip _ _ Hdata). f_equal.
    change (skipn (length (js "data:")) url) with rest.
    rewrite <- (takeUntil_prefix 59 rest) at 1. f_equal.
    apply (startsWith_skip _ _ Hbase).
  - intros Hnil. rewrite Hnil in Hmime. discriminate.
  - intros Hnil. rewrite Hnil in Hpayload. discriminate.
Qed.

Lemma match_data_url_complete (mime payload : list N) :
  mime <> [] ->
  existsb (N.eqb 59) mime = false ->
  payload <> [] ->
  forallb (fun c => negb (isLineTerminator c)) payload = true ->
  match_data_url (js "data:" ++ mime ++ js ";base64," ++ payload)
  = Some (mime, payload).
Proof.
  intros Hmime Hfree Hpayload Hline. unfold match_data_url.
  replace (startsWith (js "data:" ++ mime ++ js ";base64," ++ payload) (js "data:"))
    with true by (symmetry; apply startsWith_spec; eexists; reflexivity).
  cbv zeta.
  change (skipn 5 (js "data:" ++ mime ++ js ";base64," ++ payload))
    with (mime ++ 59%N :: (skipn 1 (js ";base64,") ++ payload)).
  rewrite takeUntil_app by exact Hfree.
  rewrite skipn_app, skipn_all, Nat.sub_diag. cbn [skipn app].
  change (59%N :: (skipn 1 (js ";base64,") ++ payload))
    with (js ";base64," ++ payload).
  replace (startsWith (js ";base64," ++ payload) (js ";base64,"))
    with true by (symmetry; apply startsWith_spec; eexists; reflexivity).
  change (skipn 7 (skipn 1 (js ";base64,") ++ payload)) with payload.
  rewrite Hline.
  destruct mime; [congruence|]. destruct payload; [congruence|]. reflexivity.
Qed.

(** X8. An image reference becomes inline data exactly when it is a base64
    data URL: [data:], a non-empty type without a semicolon, [;base64,] and
    a non-empty payload on one line give the type and the payload back; an
    inline part only ever comes from a URL of that form; and every other
    reference becomes the text [Image URL: ] followed by the reference. *)
Theorem data_url_round_trip :
  (forall mime payload : list N,
      mime <> [] ->
      existsb (N.eqb 59) mime = false ->
      payload <> [] ->
      forallb (fun c => negb (isLineTerminator c)) payload = true ->
      convertImageUrlToPart (js "data:" ++ mime ++ js ";base64," ++ payload)
      = {| text := None;
           inlineData := Some {| mimeType := mime; data := payload |} |})
  /\ (forall url mime payload,
         inlineData (convertImageUrlToPart url)
         = Some {| mimeType := mime; data := payload |} ->
         url = js "data:" ++ mime ++ js ";base64," ++ payload
         /\ text (convertImageUrlToPart url) = None)
  /\ (forall url,
         inlineData (convertImageUrlToPart url) = None ->
         text (convertImageUrlToPart url) = Some (js "Image URL: " ++ url)).
Proof.
  split; [|split].
  - intros mime payload Hmime Hfree Hpayload Hline. unfold convertImageUrlToPart.
    rewrite match_data_url_complete by assumption. reflexivity.
  - intros url mime payload. unfold convertImageUrlToPart.
    destruct (match_data_url url) as [[m d]|] eqn:Hmatch; [|discriminate].
    cbn [inlineData text]. intros [= -> ->].
    split; [|reflexivity]. apply (match_data_url_sound _ _ _ Hmatch).
  - intros url. unfold convertImageUrlToPart.
    destruct (match_data_url url) as [[m d]|]; [discriminate|]. reflexivity.
Qed.

Lemma data_url_round_trip_witness :
  convertImageUrlToPart (js "data:" ++ js "image/png" ++ js ";base64," ++ js "iVBORw0KGgo=")
  = {| text := None;
       inlineData := Some {| mimeType := js "image/png"; data := js "iVBORw0KGgo=" |} |}
  /\ text (convertImageUrlToPart (js "https://example.com/a.png"))
     = Some (js "Image URL: " ++ js "https://example.com/a.png").
Proof.
  destruct data_url_round_trip as (Hdata & _ & Hother). split.
  - apply Hdata; [discriminate | vm_compute; reflexivity | discriminate
                  | vm_compute; reflexivity].
  - apply Hother. vm_compute. reflexivity.
Defined.

(** ** The request *)

Lemma filter_twice {A : Type} (f : A -> bool) (l : list A) :
  List.filter f (List.filter f l) = List.filter f l.
Proof.
  induction l as [|x l IH]; [reflexivity|].
  cbn [List.filter]. destruct (f x) eqn:Hx; [|exact IH].
  cbn [List.filter]. rewrite Hx, IH. reflexivity.
Qed.

Lemma firstSystemOnly_find (messages : list OpenAIMessage) :
  List.find isSystem (firstSystemOnly messages) = List.find isSystem messages.
Proof.
  induction messages as [|m rest IH]; [reflexivity|].
  cbn [firstSystemOnly List.find]. destruct (isSystem m) eqn:Hm;
    cbn [List.find]; rewrite Hm; [reflexivity | exact IH].
Qed.

Lemma firstSystemOnly_others (messages : list OpenAIMessage) :
  List.filter (fun m => negb (isSystem m)) (firstSystemOnly messages)
  = List.filter (fun m => negb (isSystem m)) messages.
Proof.
  induction messages as [|m rest IH]; [reflexivity|].
  cbn [firstSystemOnly List.filter]. destruct (isSystem m) eqn:Hm;
    cbn [List.filter]; rewrite Hm; cbn [negb].
  - apply filter_twice.
  - rewrite IH. reflexivity.
Qed.

(** X9. Only the first system message of a payload reaches the provider:
    the request built from a payload is the one built after every later
    system message has been removed from it. *)
Theorem only_first_system_message_counts `{Platform} (payload : LovableChatPayload) :
  buildGeminiRequest
    {| model := model payload;
       messages := firstSystemOnly (messages payload);
       tools := tools payload;
       tool_choice := tool_choice payload |}
  = buildGeminiRequest payload.
Proof.
  unfold buildGeminiRequest, extractSystemText.
  cbn [model messages tools tool_choice].
  rewrite firstSystemOnly_find, firstSystemOnly_others. reflexivity.
Qed.

(** X10. The request sent for a page: one user content holding the title
    header followed by at most the first 15000 units of the page content
    (all of it when it is that short), the system prompt as the system
    instruction when it is not empty, one declared function
    [extract_job_posting] whose schema has no [nullable] and no
    [additionalProperties] at any depth, and the calling mode forced to that
    function. *)
Theorem extraction_request_shape `{Platform} (pageTitle pageContent : list N) :
  let r := request (buildGeminiRequest (jobPostingPayload pageTitle pageContent)) in
  contents r
  = [ {| g_role := role_user;
         g_parts :=
           [ {| text := Some (userMessageHeader pageTitle
                              ++ substring0 15000 pageContent);
                inlineData := None |} ] |} ]
  /\ (len (substring0 15000 pageContent) <= 15000)%Z
  /\ (exists cut, pageContent = substring0 15000 pageContent ++ cut)
  /\ ((len pageContent <= 15000)%Z -> substring0 15000 pageContent = pageContent)
  /\ systemInstruction r = (if nonEmpty systemPrompt then Some systemPrompt else None)
  /\ toolConfig r
     = Some {| mode := ANY;
               allowedFunctionNames := Some [js "extract_job_posting"] |}
  /\ exists parameters,
      request_tools r
      = Some [ {| fd_name := js "extract_job_posting";
                  fd_description :=
                    Some (js "Extract structured job posting information with evidence");
                  fd_parameters := Some parameters |} ]
      /\ mentionsKey (js "nullable") parameters = false
      /\ mentionsKey (js "additionalProperties") parameters = false.
Proof.
  cbv zeta. split; [|split; [|split; [|split; [|split; [|split]]]]].
  - unfold buildGeminiRequest, jobPostingPayload, userMessageHeader.
    cbn [request contents messages List.filter isSystem role negb List.map
         convertMessageContent content].
    rewrite <- !app_assoc. reflexivity.
  - unfold substring0, len.
    pose proof (firstn_le_length (Z.to_nat 15000) pageContent). lia.
  - exists (skipn (Z.to_nat 15000) pageContent). unfold substring0.
    symmetry. apply firstn_skipn.
  - unfold substring0, len. intros Hshort. apply firstn_all2. lia.
  - reflexivity.
  - reflexivity.
  - exists (sanitizeSchema extract_job_posting_parameters).
    split; [reflexivity|].
    split; apply sanitizeSchema_drops; vm_compute; reflexivity.
Qed.

Lemma extraction_request_shape_witness :
  substring0 15000 (js "Senior engineer wanted.") = js "Senior engineer wanted.".
Proof.
  destruct (@extraction_request_shape Reference.platform (js "Acme")
              (js "Senior engineer wanted.")) as (_ & _ & _ & Hshort & _).
  apply Hshort. vm_compute. discriminate.
Defined.

(** ** The model name *)

Lemma includes_unit (c : N) (s : list N) :
  includes s [c] = existsb (N.eqb c) s.
Proof.
  induction s as [|d s IH]; [reflexivity|].
  cbn [includes startsWith existsb]. rewrite IH, andb_true_r. reflexivity.
Qed.

Lemma afterLast_free (sep : N) (s : list N) :
  existsb (N.eqb sep) (afterLast sep s) = false.
Proof.
  induction s as [|c s IH]; [reflexivity|].
  cbn [afterLast]. destruct (existsb (N.eqb sep) s) eqn:Hlater; [exact IH|].
  destruct (c =? sep)%N eqn:Hc; [exact Hlater|].
  cbn [existsb]. rewrite N.eqb_sym, Hc, Hlater. reflexivity.
Qed.

Lemma afterLast_suffix (sep : N) (s : list N) :
  existsb (N.eqb sep) s = true ->
  exists before, s = before ++ sep :: afterLast sep s.
Proof.
  induction s as [|c s IH]; [discriminate|].
  cbn [existsb afterLast]. destruct (existsb (N.eqb sep) s) eqn:Hlater.
  - intros _. destruct (IH eq_refl) as [before Hbefore].
    exists (c :: before). cbn [app]. f_equal. exact Hbefore.
  - rewrite orb_false_r. intros Hc. rewrite N.eqb_sym, Hc.
    apply N.eqb_eq in Hc. subst c. exists []. reflexivity.
Qed.

(** X11. The model name: a [GEMINI_MODEL] setting that is not blank wins
    over whatever the caller asked for, trimmed; without one, a missing or
    empty name gives the default, and a given name loses everything up to
    its last slash, so that the result never contains a slash. *)
Theorem model_name_resolution `{Platform} :
  (forall setting requested,
      Deno_env_get (js "GEMINI_MODEL") = Some setting ->
      trim setting <> [] ->
      normalizeModel requested = trim setting)
  /\ ((forall setting,
          Deno_env_get (js "GEMINI_MODEL") = Some setting -> trim setting = []) ->
      normalizeModel None = js "gemini-3-flash-preview"
      /\ normalizeModel (Some []) = js "gemini-3-flash-preview"
      /\ forall requested,
          requested <> [] ->
          existsb (N.eqb 47) (normalizeModel (Some requested)) = false
          /\ ((existsb (N.eqb 47) requested = false
               /\ normalizeModel (Some requested) = requested)
              \/ exists provider,
                  requested = provider ++ js "/" ++ normalizeModel (Some requested))).
Proof.
  split.
  - intros setting requested Hget Htrim. unfold normalizeModel.
    rewrite Hget. cbn [default from_option Datatypes.id].
    destruct setting as [|c setting]; [contradiction Htrim; reflexivity|].
    destruct (trim (c :: setting)); [contradiction Htrim; reflexivity|].
    reflexivity.
  - intros Hblank.
    assert (Hno : forall requested,
               normalizeModel requested
               = match requested with
                 | Some m =>
                     if nonEmpty m
                     then (if includes m (js "/") then afterLast 47 m else m)
                     else js "gemini-3-flash-preview"
                 | None => js "gemini-3-flash-preview"
                 end).
    { intros requested. unfold normalizeModel.
      destruct (Deno_env_get (js "GEMINI_MODEL")) as [setting|] eqn:Hget;
        cbn [default from_option Datatypes.id]; [|reflexivity].
      rewrite (Hblank setting eq_refl). rewrite andb_false_r. reflexivity. }
    split; [apply Hno|]. split; [apply Hno|].
    intros requested Hrequested. rewrite Hno.
    destruct requested as [|c requested]; [congruence|].
    cbn [nonEmpty]. change (js "/") with [47%N]. rewrite includes_unit.
    destruct (existsb (N.eqb 47) (c :: requested)) eqn:Hslash.
    + split; [apply afterLast_free|]. right.
      destruct (afterLast_suffix 47 _ Hslash) as [provider Hprovider].
      exists provider. exact Hprovider.
    + split; [exact Hslash|]. left. split; reflexivity.
Qed.

Lemma model_name_resolution_witness :
  @normalizeModel Reference.platform (Some (js "google/gemini-2.5-flash"))
  = js "gemini-2.5-flash".
Proof.
  destruct (@model_name_resolution Reference.platform) as (_ & Hdefault).
  destruct Hdefault as (_ & _ & Hgiven).
  - intros setting Hget. vm_compute in Hget. discriminate.
  - destruct (Hgiven (js "google/gemini-2.5-flash")) as (_ & [[Hfree _] | [provider Hp]]).
    + vm_compute. discriminate.
    + vm_compute in Hfree. discriminate.
    + vm_compute. reflexivity.
Defined.

(** ** The answer *)



(* ===================================================================== *)
(** * Every path through the handler *)
(* ===================================================================== *)

Section Paths.
Context `{Platform}.

Lemma ensures_sound {A : Type} (G : Guarantee) (w : World)
      (P : Outcome A -> list Call -> Prop) (p : Prog A) :
  honours w G -> ensures G P p ->
  forall table, P (fst (fst (run w table p))) (snd (run w table p)).
Proof.
  intros Hw Hp. induction Hp as [P a Ha | P e He | P X ev k _ IH]; intros table.
  - exact Ha.
  - exact He.
  - cbn [run fst snd]. apply (IH _ (Hw X ev table)).
Qed.

Lemma honours_any (w : World) : honours w anyAnswer.
Proof. intros X ev table. exact I. Qed.

Lemma honours_model (w : World) (a : AiResponse) :
  (forall model apiKey request, fetchModel w model apiKey request = Returned a) ->
  honours w (modelAnswers a).
Proof. intros Hmodel X ev table. destruct ev; cbn; auto. Qed.

Lemma honours_body (w : World) (o : Outcome JValue) :
  reqJson w = o -> honours w (bodyReads o).
Proof. intros Hbody X ev table. destruct ev; cbn; auto. Qed.

Lemma honours_both (w : World) (G1 G2 : Guarantee) :
  honours w G1 -> honours w G2 -> honours w (both G1 G2).
Proof. intros H1 H2 X ev table. split; [apply H1 | apply H2]. Qed.

Lemma safeMessage_nonempty (e : Thrown) : safeMessage e <> [].
Proof.
  destruct e as [message|v]; cbn [safeMessage].
  - destruct (hasHangul message) eqn:Hm.
    + intros ->. discriminate.
    + vm_compute. discriminate.
  - vm_compute. discriminate.
Qed.

End Paths.

(** The part of a program that decides how it goes on. *)
Ltac prog_head p :=
  lazymatch p with
  | try_catch ?q _ => prog_head q
  | bind ?q _ => prog_head q
  | _ => p
  end.

(** One step along every path of a program: an awaited call with each of
    its outcomes, a case distinction with each of its cases. *)
Ltac ensures_step :=
  cbv zeta; cbn [bind try_catch await settle];
  lazymatch goal with
  | |- ensures _ _ (Ret _) => apply ensures_Ret; cbv beta
  | |- ensures _ _ (Throw _) => apply ensures_Throw; cbv beta
  | |- ensures _ _ (Await _ _) =>
      let o := fresh "o" in
      let Ho := fresh "Ho" in
      apply ensures_Await; intros o Ho;
      cbv [both modelAnswers bodyReads anyAnswer uncounted] in Ho;
      first [ subst o
            | match type of Ho with
              | _ /\ _ => destruct Ho as [? ?]; subst o
              end
            | destruct o ]
  | |- ensures _ _ ?p =>
      let h := prog_head p in
      lazymatch h with
      | (if ?c then _ else _) => destruct c eqn:?
      | (match ?c with _ => _ end) => destruct c eqn:?
      | settle ?o => destruct o eqn:?
      | _ =>
          first [ progress unfold serve | progress unfold authorize
                | progress unfold deductCredit | progress unfold analyze
                | progress unfold fetchContent | progress unfold firstTier
                | progress unfold directFetch | progress unfold scrapeFallback
                | progress unfold extract ]
      end
  end.

Ltac ensures_paths := repeat ensures_step.

(** The same, with what is known about the answers used at each step. *)
Ltac ensures_with known :=
  repeat (cbv zeta; cbn [bind try_catch await settle]; known; ensures_step).

(** Closes a path whose case distinctions contradict one another. *)
Ltac infeasible :=
  exfalso; cbn [fst snd nonEmpty negb orb] in *;
  repeat match goal with
         | Hb : _ || _ = false |- _ => apply orb_false_elim in Hb; destruct Hb
         | Hb : _ || _ = true |- _ => apply orb_true_iff in Hb; destruct Hb
         | Hb : negb _ = true |- _ => apply negb_true_iff in Hb
         | Hb : negb _ = false |- _ => apply negb_false_iff in Hb
         | Hb : (_ <? _)%Z = true |- _ => apply Z.ltb_lt in Hb
         | Hb : (_ <? _)%Z = false |- _ => apply Z.ltb_ge in Hb
         end;
  first [congruence | lia | discriminate].

Ltac nonempty_text := let Hc := fresh in intros Hc; vm_compute in Hc; discriminate Hc.

Section Answers.
Context `{Platform}.

Lemma serve_well_formed (req : Request) :
  ensures anyAnswer
    (fun r _ => exists response,
         r = Returned response
         /\ ((method req = js "OPTIONS"
              /\ response = {| status := 200; body := None |})
             \/ (method req <> js "OPTIONS" /\ wellFormed response)))
    (serve req).
Proof.
  ensures_paths.
  all: eexists; split; [reflexivity|].
  all: match goal with
       | Hm : streq (method _) _ = true |- _ =>
           left; split; [apply bool_decide_eq_true in Hm; exact Hm | reflexivity]
       | Hm : streq (method _) _ = false |- _ =>
           right; split; [apply bool_decide_eq_false in Hm; exact Hm|]
       end.
  all: eexists; split; [reflexivity|];
    cbn [success status error job failure flagged caught body].
  all: try (left; repeat split; eexists; reflexivity).
  all: right; split; [reflexivity|]; split; [cbn [In]; tauto|]; split; [reflexivity|].
  all: lazymatch goal with
       | Hv : negb (valid (validateUrl ?u)) = true |- _ =>
           apply negb_true_iff in Hv;
           destruct (rejected_reason_nonempty u Hv) as (reason & -> & Hreason);
           exists reason; split; [reflexivity | exact Hreason]
       | |- _ =>
           eexists; split; [reflexivity|];
           first [apply safeMessage_nonempty | nonempty_text]
       end.
Qed.

Lemma serve_call_shapes (req : Request) :
  ensures anyAnswer (fun _ calls => In (List.map kindOf calls) callShapes)
          (serve req).
Proof.
  ensures_paths.
  all: cbn [List.map kindOf called projT2]; unfold callShapes, gates; cbn [app In].
  all: try solve [repeat (first [left; reflexivity | right])].
  all: infeasible.
Qed.

End Answers.

(** X13. The handler never lets an exception out and always answers in one
    of three forms: the bodiless 200 of a preflight; a success with status
    200, no error text and an object of job data; or a failure with one of
    the statuses 400, 401, 402, 404, 409, 429 and 500, no job data and an
    error text that is not empty. *)
Theorem every_answer_is_well_formed `{Platform}
        (w : World) (table : gmap (list N) Subscription) (req : Request) :
  exists response,
    fst (fst (run w table (serve req))) = Returned response
    /\ ((method req = js "OPTIONS"
         /\ response = {| status := 200; body := None |})
        \/ (method req <> js "OPTIONS" /\ wellFormed response)).
Proof.
  exact (ensures_sound anyAnswer w _ (serve req) (honours_any w)
                       (serve_well_formed req) table).
Qed.

(** X15. One request makes its calls in the order of the pipeline, each at
    most once and none skipped on the way: authentication, the read of the
    subscription, the conditional update, the read of the body, and only
    after all four the page fetch, the scraping API and the model.  The
    model is never called without a fetch before it, and a page fetch is
    always followed by the scraping API or the model. *)
Theorem calls_follow_the_pipeline `{Platform}
        (w : World) (table : gmap (list N) Subscription) (req : Request) :
  In (List.map kindOf (snd (run w table (serve req)))) callShapes.
Proof.
  exact (ensures_sound anyAnswer w _ (serve req) (honours_any w)
                       (serve_call_shapes req) table).
Qed.

(** ** What becomes of the model's answer *)

Lemma assoc_set_field_same (key : list N) (v : JValue)
      (fields : list (list N * JValue)) :
  assoc key (set_field key v fields) = Some v.
Proof.
  induction fields as [|[k x] rest IH]; cbn [set_field assoc].
  - unfold streq. rewrite bool_decide_eq_true_2 by reflexivity. reflexivity.
  - destruct (streq k key) eqn:Hk; cbn [assoc]; rewrite Hk; [reflexivity | exact IH].
Qed.

Lemma assoc_set_field_other (key other : list N) (v : JValue)
      (fields : list (list N * JValue)) :
  other <> key -> assoc other (set_field key v fields) = assoc other fields.
Proof.
  intros Hother.
  assert (Hkey : streq key other = false).
  { unfold streq. apply bool_decide_eq_false. congruence. }
  induction fields as [|[k x] rest IH]; cbn [set_field assoc].
  - rewrite Hkey. reflexivity.
  - destruct (streq k key) eqn:Hk; cbn [assoc].
    + apply bool_decide_eq_true in Hk. subst k. rewrite Hkey. reflexivity.
    + rewrite IH. reflexivity.
Qed.

Section Gateway.
Context `{Platform}.
Variables (a : AiResponse) (errorText : list N).
Hypothesis Hfailed : isOk (ai_status a) = false.
Hypothesis Htext : ai_text a = Returned errorText.

Lemma serve_gateway (req : Request) :
  ensures (modelAnswers a)
    (fun r calls =>
       existsb isModelFetch calls = true ->
       (ai_status a = 429%Z -> r = Returned (failure 429 ERR_RATE_LIMITED))
       /\ (ai_status a = 402%Z -> r = Returned (failure 402 ERR_AI_CREDITS))
       /\ (ai_status a <> 429%Z -> ai_status a <> 402%Z ->
           r = Returned (failure 500 ERR_AI_FAILED)))
    (serve req).
Proof.
  ensures_with ltac:(repeat progress
                       (rewrite ?Hfailed, ?Htext; cbv zeta;
                        cbn [negb bind try_catch await settle])).
  all: intros Hcalled; try discriminate Hcalled.
  all: repeat match goal with
              | Hb : (_ =? _)%Z = true |- _ => apply Z.eqb_eq in Hb
              | Hb : (_ =? _)%Z = false |- _ => apply Z.eqb_neq in Hb
              end.
  all: split; [|split]; intros; first [lia | reflexivity].
Qed.

End Gateway.

(** X18. When the model endpoint answers with a status outside 200-299 and
    its error text can be read, a request that got as far as calling the
    model is answered 429 for 429, 402 for 402 and 500 for every other
    status, each with its own message. *)
Theorem gateway_status_is_mapped `{Platform}
        (w : World) (table : gmap (list N) Subscription) (req : Request)
        (a : AiResponse) (errorText : list N) :
  (forall model apiKey request, fetchModel w model apiKey request = Returned a) ->
  isOk (ai_status a) = false ->
  ai_text a = Returned errorText ->
  existsb isModelFetch (snd (run w table (serve req))) = true ->
  (ai_status a = 429%Z ->
   fst (fst (run w table (serve req))) = Returned (failure 429 ERR_RATE_LIMITED))
  /\ (ai_status a = 402%Z ->
      fst (fst (run w table (serve req))) = Returned (failure 402 ERR_AI_CREDITS))
  /\ (ai_status a <> 429%Z -> ai_status a <> 402%Z ->
      fst (fst (run w table (serve req))) = Returned (failure 500 ERR_AI_FAILED)).
Proof.
  intros Hmodel Hfailed Htext.
  exact (ensures_sound (modelAnswers a) w _ (serve req) (honours_model w a Hmodel)
                       (serve_gateway a errorText Hfailed Htext req) table).
Qed.

Lemma gateway_status_is_mapped_witness :
  fst (fst (@run Reference.platform _ Cases.busy Scenario.oneCredit
                 (@serve Reference.platform Scenario.post)))
  = Returned (failure 429 ERR_RATE_LIMITED).
Proof.
  refine (proj1 (@gateway_status_is_mapped Reference.platform Cases.busy
                   Scenario.oneCredit Scenario.post
                   {| ai_status := 429; ai_text := Returned (js "quota exceeded");
                      ai_json := Threw (OtherValue JNull) |}
                   (js "quota exceeded") _ _ _ _) _).
  - intros model apiKey request. reflexivity.
  - vm_compute. reflexivity.
  - reflexivity.
  - vm_compute. reflexivity.
  - reflexivity.
Defined.

Section Reading.
Context `{Platform}.
Variables (a : AiResponse) (raw : JValue) (aiData : option LovableLikeResponse)
          (data : JValue).
Hypothesis Hok : isOk (ai_status a) = true.
Hypothesis Hjson : ai_json a = Returned raw.
Hypothesis Hnormal : normalizeGeminiToLovable raw = inr aiData.
Hypothesis Hdata : parseJobData aiData = Some data.

Lemma serve_not_a_posting (req : Request) :
  prop (js "isJobPosting") (Some data) = Some (JBool false) ->
  ensures (modelAnswers a)
    (fun r calls =>
       existsb isModelFetch calls = true ->
       r = Returned (failure 400 ERR_NOT_A_POSTING))
    (serve req).
Proof.
  intros Hflag.
  assert (Htruthy : truthy data = true).
  { destruct data; try discriminate Hflag. reflexivity. }
  ensures_with ltac:(repeat progress
                       (rewrite ?Hok, ?Hjson, ?Hnormal, ?Hdata, ?Htruthy, ?Hflag;
                        cbv zeta;
                        cbn [negb truthy_opt bind try_catch await settle])).
  all: intros Hcalled; first [discriminate Hcalled | reflexivity].
Qed.

Lemma serve_success (rawBody : JValue) (url : list N) (req : Request) :
  truthy data = true ->
  prop (js "isJobPosting") (Some data) <> Some (JBool false) ->
  requestSchema_safeParse rawBody = inr url ->
  ensures (both (modelAnswers a) (bodyReads (Returned rawBody)))
    (fun r calls =>
       existsb isModelFetch calls = true ->
       r = Returned
             {| status := 200;
                body :=
                  Some {| success := true; error := None; details := None;
                          unsupportedSite := false; noContent := false;
                          job := Some (JObj (set_field (js "sourceUrl") (JStr url)
                                                       (spread data))) |} |})
    (serve req).
Proof.
  intros Htruthy Hflag Hurl.
  ensures_with ltac:(repeat progress
                       (rewrite ?Hok, ?Hjson, ?Hnormal, ?Hdata, ?Hurl, ?Htruthy;
                        cbv zeta;
                        cbn [negb truthy_opt bind try_catch await settle])).
  all: intros Hcalled; try discriminate Hcalled.
  all: first [reflexivity | congruence].
Qed.

End Reading.

(** X16. When the model's tool call parses to data whose [isJobPosting] is
    [false], a request that got as far as calling the model is answered 400
    with the "not a job posting" message and none of the flags. *)
Theorem not_a_posting_is_refused `{Platform}
        (w : World) (table : gmap (list N) Subscription) (req : Request)
        (a : AiResponse) (raw : JValue) (aiData : option LovableLikeResponse)
        (data : JValue) :
  (forall model apiKey request, fetchModel w model apiKey request = Returned a) ->
  isOk (ai_status a) = true ->
  ai_json a = Returned raw ->
  normalizeGeminiToLovable raw = inr aiData ->
  parseJobData aiData = Some data ->
  prop (js "isJobPosting") (Some data) = Some (JBool false) ->
  existsb isModelFetch (snd (run w table (serve req))) = true ->
  fst (fst (run w table (serve req))) = Returned (failure 400 ERR_NOT_A_POSTING).
Proof.
  intros Hmodel Hok Hjson Hnormal Hdata Hflag.
  exact (ensures_sound (modelAnswers a) w _ (serve req) (honours_model w a Hmodel)
                       (serve_not_a_posting a raw aiData data Hok Hjson Hnormal Hdata
                                            req Hflag) table).
Qed.

Lemma not_a_posting_is_refused_witness :
  fst (fst (@run Reference.platform _ Cases.notAPosting Scenario.oneCredit
                 (@serve Reference.platform Scenario.post)))
  = Returned (failure 400 ERR_NOT_A_POSTING).
Proof.
  pose (raw := Scenario.callAnswer (JObj [(js "isJobPosting", JBool false)])).
  pose (aiData := match @normalizeGeminiToLovable Reference.platform raw with
                  | inr r => r
                  | inl _ => None
                  end).
  apply (@not_a_posting_is_refused Reference.platform Cases.notAPosting
           Scenario.oneCredit Scenario.post
           {| ai_status := 200; ai_text := Returned []; ai_json := Returned raw |}
           raw aiData (JObj [(js "isJobPosting", JBool false)])).
  - intros model apiKey request. reflexivity.
  - vm_compute. reflexivity.
  - reflexivity.
  - vm_compute. reflexivity.
  - vm_compute. reflexivity.
  - vm_compute. reflexivity.
  - vm_compute. reflexivity.
Defined.

(** X17. On success the data returned is the model's data with [sourceUrl]
    set to the URL exactly as the request body gave it, before any
    normalization; every other property is the model's own. *)
Theorem success_carries_the_submitted_url `{Platform}
        (w : World) (table : gmap (list N) Subscription) (req : Request)
        (rawBody : JValue) (url : list N)
        (a : AiResponse) (raw : JValue) (aiData : option LovableLikeResponse)
        (data : JValue) :
  reqJson w = Returned rawBody ->
  requestSchema_safeParse rawBody = inr url ->
  (forall model apiKey request, fetchModel w model apiKey request = Returned a) ->
  isOk (ai_status a) = true ->
  ai_json a = Returned raw ->
  normalizeGeminiToLovable raw = inr aiData ->
  parseJobData aiData = Some data ->
  truthy data = true ->
  prop (js "isJobPosting") (Some data) <> Some (JBool false) ->
  existsb isModelFetch (snd (run w table (serve req))) = true ->
  exists fields,
    fst (fst (run w table (serve req)))
    = Returned {| status := 200;
                  body :=
                    Some {| success := true; error := None; details := None;
                            unsupportedSite := false; noContent := false;
                            job := Some (JObj fields) |} |}
    /\ assoc (js "sourceUrl") fields = Some (JStr url)
    /\ forall key, key <> js "sourceUrl" -> assoc key fields = assoc key (spread data).
Proof.
  intros Hbody Hurl Hmodel Hok Hjson Hnormal Hdata Htruthy Hflag Hcalled.
  exists (set_field (js "sourceUrl") (JStr url) (spread data)).
  split; [|split].
  - exact (ensures_sound _ w _ (serve req)
             (honours_both w _ _ (honours_model w a Hmodel)
                           (honours_body w _ Hbody))
             (serve_success a raw aiData data Hok Hjson Hnormal Hdata rawBody url req
                            Htruthy Hflag Hurl) table Hcalled).
  - apply assoc_set_field_same.
  - intros key Hkey. apply assoc_set_field_other. exact Hkey.
Qed.

Lemma success_carries_the_submitted_url_witness :
  exists fields,
    fst (fst (@run Reference.platform _ Scenario.wanted Scenario.oneCredit
                   (@serve Reference.platform Scenario.post)))
    = Returned {| status := 200;
                  body :=
                    Some {| success := true; error := None; details := None;
                            unsupportedSite := false; noContent := false;
                            job := Some (JObj fields) |} |}
    /\ assoc (js "sourceUrl") fields = Some (JStr (js "wanted.co.kr/wd/12345")).
Proof.
  pose (raw := Scenario.callAnswer Scenario.acme).
  pose (aiData := match @normalizeGeminiToLovable Reference.platform raw with
                  | inr r => r
                  | inl _ => None
                  end).
  destruct (@success_carries_the_submitted_url Reference.platform Scenario.wanted
              Scenario.oneCredit Scenario.post
              (JObj [(js "url", JStr (js "wanted.co.kr/wd/12345"))])
              (js "wanted.co.kr/wd/12345")
              {| ai_status := 200; ai_text := Returned []; ai_json := Returned raw |}
              raw aiData Scenario.acme) as (fields & Hrun & Hsource & _).
  - reflexivity.
  - vm_compute. reflexivity.
  - intros model apiKey request. reflexivity.
  - vm_compute. reflexivity.
  - reflexivity.
  - vm_compute. reflexivity.
  - vm_compute. reflexivity.
  - reflexivity.
  - vm_compute. discriminate.
  - vm_compute. reflexivity.
  - exists fields. split; [exact Hrun | exact Hsource].
Defined.

(* ===================================================================== *)
(** * More about the credits *)
(* ===================================================================== *)

Section Charge.
Context `{Platform}.
Implicit Types (w : World) (table : gmap (list N) Subscription).



End Charge.


Section Conservation.
Context `{Platform}.
Implicit Types (sys : System) (t : Thread) (table : gmap (list N) Subscription).

Lemma deductCredit_one_less (u : User) (sub : Subscription) :
  always writesOneLess (deductCredit u sub).
Proof.
  unfold deductCredit.
  destruct (ai_credits_remaining sub <? 1)%Z; [constructor|].
  apply always_bind.
  - apply always_await. reflexivity.
  - intros updated. destruct (_ || _); [constructor|].
    eapply always_mono; [|apply analyze_no_update].
    intros [X ev]; destruct ev; unfold noUpdate, writesOneLess; simpl;
      intros Hc; auto; discriminate.
Qed.

Lemma serve_one_less (req : Request) : always writesOneLess (serve req).
Proof.
  unfold serve. destruct (streq _ _); [constructor|].
  apply always_try_catch; [|intros e; constructor].
  unfold authorize. always_tac; apply deductCredit_one_less.
Qed.

Lemma deductionsOf_snoc (uid : list N) sys (rows' : gmap (list N) Subscription)
      (threads' : list Thread) (s : Step) :
  deductionsOf uid {| rows := rows'; threads := threads';
                      history := history sys ++ [s] |}
  = (deductionsOf uid sys
     + if isUpdateOf uid (call s) && (0 <? changed s)%nat then 1 else 0)%nat.
Proof.
  unfold deductionsOf. cbn [history].
  rewrite List.filter_app, length_app. cbn [List.filter].
  destruct (isUpdateOf uid (call s) && (0 <? changed s)%nat); reflexivity.
Qed.

(** What one call does to the balance of [uid]. *)
Lemma answer_balance {X : Type} (w : World) table (ev : Event X) (uid : list N) :
  writesOneLess (called ev) ->
  balance (snd (fst (answer w table ev))) uid
  = if isUpdateOf uid (called ev) && (0 <? snd (answer w table ev))%nat
    then (fun b => b - 1)%Z <$> balance table uid
    else balance table uid.
Proof.
  intros Hev. destruct ev; cbn [answer fst snd isUpdateOf called projT2 andb];
    try reflexivity.
  unfold writesOneLess in Hev. cbn [called projT2] in Hev. subst remaining.
  unfold db_update.
  destruct (table !! user_id) as [row|] eqn:Hrow; cbn [fst snd];
    [|rewrite andb_false_r; reflexivity].
  destruct (ai_credits_remaining row =? observed)%Z eqn:Hsame; cbn [fst snd];
    [|rewrite andb_false_r; reflexivity].
  apply Z.eqb_eq in Hsame. rewrite andb_true_r. unfold streq, balance.
  destruct (decide (user_id = uid)) as [->|Hne].
  - rewrite bool_decide_eq_true_2 by reflexivity.
    rewrite lookup_insert_eq, Hrow. cbn. rewrite Hsame. reflexivity.
  - rewrite bool_decide_eq_false_2 by exact Hne.
    rewrite lookup_insert_ne by exact Hne. reflexivity.
Qed.

Lemma step_thread_conserves sys (i : nat) (uid : list N) (n : Z) :
  (forall j t, threads sys !! j = Some t -> always writesOneLess (prog t)) ->
  balance (rows sys) uid = Some (n - Z.of_nat (deductionsOf uid sys))%Z ->
  (forall j t, threads (step_thread i sys) !! j = Some t ->
               always writesOneLess (prog t))
  /\ balance (rows (step_thread i sys)) uid
     = Some (n - Z.of_nat (deductionsOf uid (step_thread i sys)))%Z.
Proof.
  intros Hthreads Hbalance. unfold step_thread.
  destruct (threads sys !! i) as [t|] eqn:Hi; [|auto].
  pose proof (Hthreads i t Hi) as Ht.
  destruct (prog t) as [a|e|X ev k] eqn:Hprog; [auto..|].
  apply always_inv in Ht. destruct Ht as [Hev Hk].
  cbn [threads rows]. split.
  - intros j t' Hj. destruct (decide (i = j)) as [<-|Hne].
    + rewrite list_lookup_insert_eq in Hj by (eapply lookup_lt_Some, Hi).
      injection Hj as <-. apply Hk.
    + rewrite list_lookup_insert_ne in Hj by exact Hne. eapply Hthreads, Hj.
  - rewrite deductionsOf_snoc, (answer_balance _ _ _ uid Hev), Hbalance.
    cbn [call changed].
    destruct (isUpdateOf uid (called ev) && (0 <? snd (answer (world t) (rows sys) ev))%nat).
    + cbn. f_equal. lia.
    + f_equal. lia.
Qed.

Lemma exec_conserves (schedule : list nat) sys (uid : list N) (n : Z) :
  (forall j t, threads sys !! j = Some t -> always writesOneLess (prog t)) ->
  balance (rows sys) uid = Some (n - Z.of_nat (deductionsOf uid sys))%Z ->
  balance (rows (exec schedule sys)) uid
  = Some (n - Z.of_nat (deductionsOf uid (exec schedule sys)))%Z.
Proof.
  revert sys. induction schedule as [|i schedule IH]; intros sys Hthreads Hbalance.
  - exact Hbalance.
  - cbn [exec fold_left].
    destruct (step_thread_conserves sys i uid n Hthreads Hbalance)
      as [Hthreads' Hbalance'].
    apply IH; assumption.
Qed.

End Conservation.

(** X19. Credits are conserved.  However many requests are served and
    however their calls interleave, the balance of a user is at every moment
    the balance at the start less the number of updates of that user's row
    that took effect; so when no balance starts negative, no more
    deductions are ever granted to a user than that user had credits. *)
Theorem credits_are_conserved `{Platform}
        (sys : System) (schedule : list nat) (uid : list N) (n : Z) :
  (forall i t, threads sys !! i = Some t -> exists req, prog t = serve req) ->
  history sys = [] ->
  balance (rows sys) uid = Some n ->
  balance (rows (exec schedule sys)) uid
  = Some (n - Z.of_nat (deductionsOf uid (exec schedule sys)))%Z
  /\ (nonNegative (rows sys) ->
      (Z.of_nat (deductionsOf uid (exec schedule sys)) <= n)%Z).
Proof.
  intros Hthreads Hhistory Hbalance.
  assert (Hconserved :
            balance (rows (exec schedule sys)) uid
            = Some (n - Z.of_nat (deductionsOf uid (exec schedule sys)))%Z).
  { apply exec_conserves.
    - intros j t Hj. destruct (Hthreads j t Hj) as [req ->]. apply serve_one_less.
    - unfold deductionsOf. rewrite Hhistory, Hbalance. cbn. f_equal. lia. }
  split; [exact Hconserved|].
  intros Hnonneg.
  assert (Hafter : nonNegative (rows (exec schedule sys))).
  { apply exec_nonneg; [|exact Hnonneg].
    intros j t Hj. destruct (Hthreads j t Hj) as [req ->]. apply serve_nonneg. }
  unfold balance in Hconserved.
  destruct (rows (exec schedule sys) !! uid) as [row|] eqn:Hrow; [|discriminate].
  specialize (Hafter uid row Hrow). cbn in Hconserved.
  injection Hconserved as Hrem. lia.
Qed.

Lemma credits_are_conserved_witness :
  let sys := @exec Reference.platform [0; 1; 0; 1; 0; 1; 0; 0; 0; 0; 1]%nat
                   (Scenario.twoRequests Scenario.oneCredit) in
  balance (rows sys) (id Scenario.alice)
  = Some (1 - Z.of_nat (deductionsOf (id Scenario.alice) sys))%Z
  /\ (Z.of_nat (deductionsOf (id Scenario.alice) sys) <= 1)%Z.
Proof.
  cbv zeta.
  destruct (@credits_are_conserved Reference.platform
              (Scenario.twoRequests Scenario.oneCredit)
              [0; 1; 0; 1; 0; 1; 0; 0; 0; 0; 1]%nat (id Scenario.alice) 1%Z)
    as [Hbalance Hbound].
  - intros [|[|i]] t; cbn; intros [= <-]; eexists; reflexivity.
  - reflexivity.
  - vm_compute. reflexivity.
  - split; [exact Hbalance|]. apply Hbound.
    intros uid row. unfold Scenario.twoRequests, Scenario.oneCredit. cbn [rows].
    intros Hrow. apply lookup_insert_Some in Hrow as [[_ <-]|[_ Hrow]].
    + cbn. lia.
    + rewrite lookup_empty in Hrow. discriminate.
Defined.

(* ===================================================================== *)
(** * The caller's reading of a failure *)
(* ===================================================================== *)

(** X20. The caller always has something to show: whenever the fallback is
    not empty, so is the message read from a failed call, whatever the
    error value is. *)
Theorem caller_message_is_never_empty `{Platform}
        (err : option JValue) (fallback : list N) :
  fallback <> [] -> getFunctionErrorMessage err fallback <> [].
Proof.
  intros Hfallback. unfold getFunctionErrorMessage.
  destruct (negb (isRecord err)); [exact Hfallback|]. cbv zeta.
  assert (Hmessage :
            match prop (js "message") err with
            | Some (JStr m) => if nonEmpty (trim m) then m else fallback
            | _ => fallback
            end <> []).
  { destruct (prop (js "message") err) as [[ | | |m| | ]|]; try exact Hfallback.
    destruct (nonEmpty (trim m)) eqn:Hm; [|exact Hfallback].
    intros ->. discriminate. }
  destruct (prop (js "body") (prop (js "context") err)) as [[ | | |b| | ]|];
    try exact Hmessage.
  destruct (nonEmpty (trim b)) eqn:Hb; [|exact Hmessage].
  destruct (JSON_parse b) as [parsed|]; [|intros ->; discriminate].
  assert (Hsecond :
            match prop (js "message") (Some parsed) with
            | Some (JStr m) =>
                if nonEmpty m
                then m
                else match prop (js "message") err with
                     | Some (JStr m0) => if nonEmpty (trim m0) then m0 else fallback
                     | _ => fallback
                     end
            | _ => match prop (js "message") err with
                   | Some (JStr m0) => if nonEmpty (trim m0) then m0 else fallback
                   | _ => fallback
                   end
            end <> []).
  { destruct (prop (js "message") (Some parsed)) as [[ | | |m| | ]|];
      try exact Hmessage.
    destruct (nonEmpty m) eqn:Hm; [|exact Hmessage]. intros ->. discriminate. }
  destruct (prop (js "error") (Some parsed)) as [[ | | |e| | ]|]; try exact Hsecond.
  destruct (nonEmpty e) eqn:He; [|exact Hsecond]. intros ->. discriminate.
Qed.

Lemma caller_message_is_never_empty_witness :
  @getFunctionErrorMessage Reference.platform (Some (JObj [])) DEFAULT_FUNCTION_ERROR
  <> [].
Proof.
  apply (@caller_message_is_never_empty Reference.platform).
  vm_compute. discriminate.
Defined.

Lemma responseJson_error (b : ResponseBody) :
  prop (js "error") (Some (responseJson b)) = JStr <$> error b.
Proof.
  unfold responseJson. cbn [prop app assoc].
  replace (streq (js "success") (js "error")) with false
    by (symmetry; apply bool_decide_eq_false; vm_compute; discriminate).
  destruct (error b) as [e|]; cbn [app assoc fmap option_fmap option_map].
  - replace (streq (js "error") (js "error")) with true
      by (symmetry; apply bool_decide_eq_true; reflexivity).
    reflexivity.
  - destruct (details b); destruct (unsupportedSite b); destruct (noContent b);
      destruct (job b); vm_compute; reflexivity.
Qed.

(** X21. The error text of a failure reaches the caller unchanged: when the
    handler has answered a request with a failure and the error value the
    caller holds carries the text of that response body, the message read
    from it is the handler's error text, which is not empty, and never the
    fallback. *)
Theorem failure_text_reaches_the_caller `{Platform}
        (w : World) (table : gmap (list N) Subscription) (req : Request)
        (response : Response) (b : ResponseBody)
        (err : JValue) (text fallback : list N) :
  fst (fst (run w table (serve req))) = Returned response ->
  body response = Some b ->
  success b = false ->
  isRecord (Some err) = true ->
  prop (js "body") (prop (js "context") (Some err)) = Some (JStr text) ->
  trim text <> [] ->
  JSON_parse text = Some (responseJson b) ->
  exists message,
    error b = Some message
    /\ message <> []
    /\ getFunctionErrorMessage (Some err) fallback = message.
Proof.
  intros Hrun Hbody Hfailed Hrecord Hcontext Htext Hparse.
  pose proof (ensures_sound anyAnswer w _ (serve req) (honours_any w)
                            (serve_well_formed req) table) as Hshape.
  cbv beta in Hshape. destruct Hshape as (response' & Hrun' & Hshape).
  rewrite Hrun in Hrun'. injection Hrun' as <-.
  destruct Hshape as [[_ ->] | [_ (b' & Hbody' & Hshape)]]; [discriminate Hbody|].
  rewrite Hbody in Hbody'. injection Hbody' as <-.
  destruct Hshape as [(Hsuccess & _) | (_ & _ & _ & message & Herror & Hmessage)];
    [congruence|].
  exists message. split; [exact Herror|]. split; [exact Hmessage|].
  unfold getFunctionErrorMessage. rewrite Hrecord, Hcontext. cbn [negb]. cbv zeta.
  destruct (trim text) as [|c rest] eqn:Htrim; [contradiction Htext; reflexivity|].
  cbn [nonEmpty]. rewrite Hparse, responseJson_error, Herror.
  cbn [fmap option_fmap option_map].
  destruct message; [contradiction Hmessage; reflexivity|]. reflexivity.
Qed.

(* ===================================================================== *)
(** * What leaves the server *)
(* ===================================================================== *)

Section Outbound.
Context `{Platform}.

Lemma validated_is_accepted (url : list N) :
  negb (valid (validateUrl url)) = false ->
  accepted (default [] (uv_url (validateUrl url))).
Proof.
  intros Hvalid. apply negb_false_iff in Hvalid. exists url.
  revert Hvalid. unfold validateUrl.
  destruct (URL_parse (formatUrl url)) as [parsed|]; [|discriminate].
  cbv zeta.
  repeat match goal with
         | |- context [if ?c then _ else _] => destruct c
         end; try discriminate; reflexivity.
Qed.

Lemma configured_key (name : list N) :
  negb (nonEmpty (default [] (Deno_env_get name))) = false ->
  Deno_env_get name = Some (default [] (Deno_env_get name))
  /\ default [] (Deno_env_get name) <> [].
Proof.
  destruct (Deno_env_get name) as [[|c key]|]; try discriminate.
  intros _. split; [reflexivity | discriminate].
Qed.

Lemma long_enough (pageContent : list N) :
  negb (nonEmpty pageContent) || (len pageContent <? 50)%Z = false ->
  (50 <= len pageContent)%Z.
Proof.
  intros Hlong. apply orb_false_elim in Hlong as [_ Hlong].
  apply Z.ltb_ge in Hlong. exact Hlong.
Qed.

Lemma serve_vetted (req : Request) :
  ensures anyAnswer (fun _ calls => Forall vetted calls) (serve req).
Proof.
  ensures_paths.
  all: repeat match goal with
              | |- Forall _ (_ :: _) => constructor
              | |- Forall _ [] => constructor
              end.
  all: unfold vetted; cbn [projT2 called]; try exact I.
  all: repeat match goal with
              | |- _ /\ _ => split
              | |- accepted _ => apply validated_is_accepted; assumption
              | |- Deno_env_get _ = Some _ => apply configured_key; assumption
              | |- default [] (Deno_env_get _) <> [] => apply configured_key; assumption
              | |- includes _ _ = true => assumption
              end.
  all: lazymatch goal with
       | |- exists _ _, _ /\ _ =>
           eexists _, _; split; [|reflexivity]; apply long_enough; assumption
       | |- _ = markdownOfMainContent _ => reflexivity
       | |- built_model _ = _ => reflexivity
       end.
Qed.

End Outbound.

(** X22. Nothing leaves the server unvetted.  In every run, a page is
    fetched only at a URL the validator accepted and that mentions LinkedIn;
    the scraping API is asked only for the markdown of the main content of
    an accepted URL, with the configured key; and the model is asked only
    about content of at least 50 units, with the configured key and the
    model name resolved from [google/gemini-2.5-flash]. *)
Theorem outbound_calls_are_vetted `{Platform}
        (w : World) (table : gmap (list N) Subscription) (req : Request) :
  Forall vetted (snd (run w table (serve req))).
Proof.
  exact (ensures_sound anyAnswer w _ (serve req) (honours_any w)
                       (serve_vetted req) table).
Qed.

Section Refusals.
Context `{Platform}.

Lemma serve_malformed (rawBody : JValue) (issues : list (list (list N)))
      (req : Request) :
  requestSchema_safeParse rawBody = inl issues ->
  ensures (bodyReads (Returned rawBody))
    (fun r calls =>
       existsb isFetch calls = false
       /\ (existsb isBodyRead calls = true ->
           existsb isUpdate calls = true
           /\ r = Returned
                    {| status := 400;
                       body :=
                         Some {| success := false; error := Some ERR_BAD_REQUEST;
                                 details :=
                                   Some (List.map
                                           (fun path => join (js ".") path ++ ISSUE_SUFFIX)
                                           issues);
                                 unsupportedSite := false; noContent := false;
                                 job := None |} |}))
    (serve req).
Proof.
  intros Hissues.
  ensures_with ltac:(rewrite ?Hissues).
  all: split; [reflexivity|].
  all: intros Hread; first [discriminate Hread | split; reflexivity].
Qed.

Lemma serve_unconfigured (rawBody : JValue) (url : list N) (req : Request) :
  nonEmpty (default [] (Deno_env_get (js "FIRECRAWL_API_KEY")))
  && nonEmpty (default [] (Deno_env_get (js "GEMINI_API_KEY"))) = false ->
  requestSchema_safeParse rawBody = inr url ->
  valid (validateUrl url) = true ->
  ensures (bodyReads (Returned rawBody))
    (fun r calls =>
       existsb isFetch calls = false
       /\ (existsb isBodyRead calls = true ->
           existsb isUpdate calls = true
           /\ r = Returned
                    (failure 500
                       (if nonEmpty (default [] (Deno_env_get (js "FIRECRAWL_API_KEY")))
                        then ERR_AI_CONFIG else ERR_SCRAPE_CONFIG))))
    (serve req).
Proof.
  intros Hkeys Hurl Hvalid.
  destruct (nonEmpty (default [] (Deno_env_get (js "FIRECRAWL_API_KEY")))) eqn:Hscrape;
    cbn [andb] in Hkeys.
  - ensures_with ltac:(rewrite ?Hurl, ?Hvalid, ?Hscrape, ?Hkeys; cbn [negb]).
    all: split; [reflexivity|].
    all: intros Hread; first [discriminate Hread | split; reflexivity].
  - ensures_with ltac:(rewrite ?Hurl, ?Hvalid, ?Hscrape; cbn [negb]).
    all: split; [reflexivity|].
    all: intros Hread; first [discriminate Hread | split; reflexivity].
Qed.

End Refusals.

(** X23. A body that does not pass the schema is refused after the credit
    is gone: when the body read is not an object with a [url] of 1 to 2000
    units, no outbound fetch is made, and a request that got as far as
    reading its body has already made the update and is answered 400 with
    the "bad request" text and one detail line per issue. *)
Theorem malformed_body_is_refused `{Platform}
        (w : World) (table : gmap (list N) Subscription) (req : Request)
        (rawBody : JValue) (issues : list (list (list N))) :
  reqJson w = Returned rawBody ->
  requestSchema_safeParse rawBody = inl issues ->
  existsb isFetch (snd (run w table (serve req))) = false
  /\ (existsb isBodyRead (snd (run w table (serve req))) = true ->
      existsb isUpdate (snd (run w table (serve req))) = true
      /\ fst (fst (run w table (serve req)))
         = Returned
             {| status := 400;
                body :=
                  Some {| success := false; error := Some ERR_BAD_REQUEST;
                          details :=
                            Some (List.map
                                    (fun path => join (js ".") path ++ ISSUE_SUFFIX)
                                    issues);
                          unsupportedSite := false; noContent := false;
                          job := None |} |}).
Proof.
  intros Hbody Hissues.
  exact (ensures_sound _ w _ (serve req) (honours_body w _ Hbody)
                       (serve_malformed rawBody issues req Hissues) table).
Qed.

Lemma malformed_body_is_refused_witness :
  snd (fst (@run Reference.platform _ Cases.malformed Scenario.oneCredit
                 (@serve Reference.platform Scenario.post)))
  = deducted Scenario.oneCredit Scenario.alice
             {| ai_credits_remaining := 1; ai_credits_used := Some 2%Z |}
  /\ existsb isFetch
       (snd (@run Reference.platform _ Cases.malformed Scenario.oneCredit
                  (@serve Reference.platform Scenario.post))) = false.
Proof.
  destruct (@malformed_body_is_refused Reference.platform Cases.malformed
              Scenario.oneCredit Scenario.post
              (JObj [(js "link", JStr (js "wanted.co.kr/wd/12345"))])
              [[js "url"]]) as [Hfetch _].
  - reflexivity.
  - vm_compute. reflexivity.
  - split; [vm_compute; reflexivity | exact Hfetch].
Defined.

(** X24. A missing API key is found only after the credit is gone, and
    before anything is fetched: when either key is unset or empty, no
    outbound fetch is made, and a request whose URL passed the validator has
    already made the update and is answered 500, with the scraping
    configuration text when the scraping key is the missing one and the AI
    configuration text otherwise. *)
Theorem missing_key_stops_before_any_fetch `{Platform}
        (w : World) (table : gmap (list N) Subscription) (req : Request)
        (rawBody : JValue) (url : list N) :
  nonEmpty (default [] (Deno_env_get (js "FIRECRAWL_API_KEY")))
  && nonEmpty (default [] (Deno_env_get (js "GEMINI_API_KEY"))) = false ->
  reqJson w = Returned rawBody ->
  requestSchema_safeParse rawBody = inr url ->
  valid (validateUrl url) = true ->
  existsb isFetch (snd (run w table (serve req))) = false
  /\ (existsb isBodyRead (snd (run w table (serve req))) = true ->
      existsb isUpdate (snd (run w table (serve req))) = true
      /\ fst (fst (run w table (serve req)))
         = Returned
             (failure 500
                (if nonEmpty (default [] (Deno_env_get (js "FIRECRAWL_API_KEY")))
                 then ERR_AI_CONFIG else ERR_SCRAPE_CONFIG))).
Proof.
  intros Hkeys Hbody Hurl Hvalid.
  exact (ensures_sound _ w _ (serve req) (honours_body w _ Hbody)
                       (serve_unconfigured rawBody url req Hkeys Hurl Hvalid) table).
Qed.

Lemma missing_key_stops_before_any_fetch_witness :
  fst (fst (@run Cases.unconfigured _ Scenario.wanted Scenario.oneCredit
                 (@serve Cases.unconfigured Scenario.post)))
  = Returned (failure 500 ERR_SCRAPE_CONFIG).
Proof.
  destruct (@missing_key_stops_before_any_fetch Cases.unconfigured Scenario.wanted
              Scenario.oneCredit Scenario.post
              (JObj [(js "url", JStr (js "wanted.co.kr/wd/12345"))])
              (js "wanted.co.kr/wd/12345")) as [_ Hanswer].
  - reflexivity.
  - reflexivity.
  - vm_compute. reflexivity.
  - vm_compute. reflexivity.
  - destruct Hanswer as [_ Hanswer]; [vm_compute; reflexivity|].
    etransitivity; [exact Hanswer|]. vm_compute. reflexivity.
Defined.

Lemma failure_text_reaches_the_caller_witness :
  @getFunctionErrorMessage Reference.platform
    (Some (Cases.invokeError
             (@JSON_stringify Reference.platform (responseJson Cases.outOfCredits))))
    DEFAULT_FUNCTION_ERROR
  = ERR_NO_CREDITS.
Proof.
  destruct (@failure_text_reaches_the_caller Reference.platform Scenario.wanted
              Scenario.noCredit Scenario.post
              (failure 402 ERR_NO_CREDITS) Cases.outOfCredits
              (Cases.invokeError
                 (@JSON_stringify Reference.platform (responseJson Cases.outOfCredits)))
              (@JSON_stringify Reference.platform (responseJson Cases.outOfCredits))
              DEFAULT_FUNCTION_ERROR)
    as (message & Herror & _ & Hread).
  - vm_compute. reflexivity.
  - reflexivity.
  - reflexivity.
  - reflexivity.
  - vm_compute. reflexivity.
  - vm_compute. discriminate.
  - vm_compute. reflexivity.
  - unfold Cases.outOfCredits in Herror. cbn [error] in Herror.
    assert (Hsame : message = ERR_NO_CREDITS) by congruence.
    rewrite <- Hsame. exact Hread.
Defined.

Section Fairness.
Context `{Platform}.



End Fairness.




(* ===================================================================== *)
(** * The race for the last credit *)
(* ===================================================================== *)

Section Unrefused.
Context `{Platform}.
Implicit Types (sys : System) (t : Thread).

Lemma ensures_inv {A : Type} (G : Guarantee)
      (P : Outcome A -> list Call -> Prop) (p : Prog A) :
  ensures G P p ->
  match p with
  | Ret a => P (Returned a) []
  | Throw e => P (Threw e) []
  | Await ev k =>
      forall o, G _ ev o ->
                ensures G (fun r calls => P r (called ev :: calls)) (k o)
  end.
Proof. intros Hp. destruct Hp; auto. Qed.

(** With the update asking for no count, the conflict is out of reach. *)
Lemma serve_not_refused (req : Request) :
  ensures uncounted (fun r _ => notRefused r) (serve req).
Proof.
  ensures_paths.
  all: intros response [= <-];
    cbn [status failure flagged caught]; try discriminate.
  all: exfalso;
    match goal with
    | Hb : _ || _ = true |- _ => vm_compute in Hb; discriminate Hb
    end.
Qed.

Hypothesis Hsilent : forall n, report_count n = None.

Lemma answer_uncounted {X : Type} (w : World)
      (table : gmap (list N) Subscription) (ev : Event X) :
  uncounted X ev (fst (fst (answer w table ev))).
Proof.
  destruct ev; cbn [uncounted answer fst snd]; try exact I.
  rewrite Hsilent. reflexivity.
Qed.

Lemma step_thread_not_refused sys (i : nat) :
  (forall j t, threads sys !! j = Some t ->
               ensures uncounted (fun r _ => notRefused r) (prog t)) ->
  forall j t, threads (step_thread i sys) !! j = Some t ->
              ensures uncounted (fun r _ => notRefused r) (prog t).
Proof.
  intros Hthreads. unfold step_thread.
  destruct (threads sys !! i) as [t|] eqn:Hi; [|exact Hthreads].
  pose proof (Hthreads i t Hi) as Ht.
  destruct (prog t) as [a|e|X ev k] eqn:Hprog; [exact Hthreads..|].
  apply ensures_inv in Ht. cbn [threads].
  intros j t' Hj. destruct (decide (i = j)) as [<-|Hne].
  - rewrite list_lookup_insert_eq in Hj by (eapply lookup_lt_Some, Hi).
    injection Hj as <-. cbn [prog]. apply Ht, answer_uncounted.
  - rewrite list_lookup_insert_ne in Hj by exact Hne. eapply Hthreads, Hj.
Qed.

Lemma exec_not_refused (schedule : list nat) sys :
  (forall j t, threads sys !! j = Some t ->
               ensures uncounted (fun r _ => notRefused r) (prog t)) ->
  forall j t, threads (exec schedule sys) !! j = Some t ->
              ensures uncounted (fun r _ => notRefused r) (prog t).
Proof.
  revert sys. induction schedule as [|i schedule IH]; intros sys Hthreads.
  - exact Hthreads.
  - cbn [exec fold_left]. apply IH.
    exact (step_thread_not_refused sys i Hthreads).
Qed.

Lemma exec_never_409 sys (schedule : list nat) (i : nat) (r : Response) :
  (forall j t, threads sys !! j = Some t -> exists req, prog t = serve req) ->
  response_of (exec schedule sys) i = Some r ->
  status r <> 409%Z.
Proof.
  intros Hthreads. unfold response_of.
  destruct (threads (exec schedule sys) !! i) as [t|] eqn:Hi; [|discriminate].
  assert (Ht : ensures uncounted (fun r _ => notRefused r) (prog t)).
  { refine (exec_not_refused schedule sys _ i t Hi).
    intros j t' Hj. destruct (Hthreads j t' Hj) as [req ->].
    apply serve_not_refused. }
  destruct (prog t) as [a|e|X ev k]; try discriminate.
  intros [= ->]. apply ensures_inv in Ht. apply Ht. reflexivity.
Qed.

End Unrefused.

(** C2, as the code has it.  (1) However many requests the handler serves
    and however their calls interleave, no balance that starts non-negative
    ever becomes negative.  (2) When two requests of a user who holds
    exactly one credit both read the balance before either updates it, then
    along every further interleaving at most one update takes effect and
    the balance is 1 or 0; and once both requests are answered, exactly one
    deduction has been made and the balance is 0.  (3) But the update asks
    the database client for no count, and the client then reports none: the
    test for a count of 0 never holds, and with a database that answers
    every update without error no request is ever answered 409, however
    many are served and however they interleave.  The request whose update
    changed no row goes on as if it had paid. *)
Theorem one_deduction_but_no_conflict `{Platform} :
  (forall (sys : System) (schedule : list nat),
      (forall i t, threads sys !! i = Some t -> exists req, prog t = serve req) ->
      (forall uid row, rows sys !! uid = Some row ->
                       (0 <= ai_credits_remaining row)%Z) ->
      forall uid row, rows (exec schedule sys) !! uid = Some row ->
                      (0 <= ai_credits_remaining row)%Z)
  /\ (forall (w0 w1 : World) (req0 req1 : Request) (u : User)
             (table : gmap (list N) Subscription) (first rest : list nat),
        authenticates w0 req0 u ->
        authenticates w1 req1 u ->
        balance table (id u) = Some 1%Z ->
        In first bothObserveFirst ->
        let sys := exec (first ++ rest)
                        {| rows := table;
                           threads := [ {| world := w0; prog := serve req0 |};
                                        {| world := w1; prog := serve req1 |} ];
                           history := [] |} in
        (deductions sys <= 1)%nat
        /\ (balanceIs sys u 1 \/ balanceIs sys u 0)
        /\ forall r0 r1,
            response_of sys 0 = Some r0 -> response_of sys 1 = Some r1 ->
            deductions sys = 1%nat /\ balanceIs sys u 0)
  /\ ((forall n, report_count n = None) ->
      forall (sys : System) (schedule : list nat) (i : nat) (r : Response),
        (forall j t, threads sys !! j = Some t -> exists req, prog t = serve req) ->
        response_of (exec schedule sys) i = Some r ->
        status r <> 409%Z).
Proof.
  split; [|split].
  - intros sys schedule Hthreads Htable.
    apply (exec_nonneg schedule sys); [|exact Htable].
    intros j t Hj. destruct (Hthreads j t Hj) as [req ->]. apply serve_nonneg.
  - intros w0 w1 req0 req1 u table first rest Hauth0 Hauth1 Hbalance Hfirst sys.
    subst sys. rewrite exec_app.
    apply (raceState_outcome u), (raceState_exec u).
    apply both_observe; assumption.
  - intros Hsilent sys schedule i r Hthreads Hresponse.
    exact (exec_never_409 Hsilent sys schedule i r Hthreads Hresponse).
Qed.

Lemma one_deduction_but_no_conflict_witness :
  let sys := @exec Reference.platform
                   ([0; 1; 0; 1] ++ [0; 1; 0; 0; 0; 1; 1; 1])%nat
                   (Scenario.twoRequests Scenario.oneCredit) in
  nonNegative (rows sys)
  /\ deductions sys = 1%nat
  /\ balanceIs sys Scenario.alice 0
  /\ (status <$> response_of sys 0) = Some 200%Z
  /\ (status <$> response_of sys 1) = Some 200%Z
  /\ (status <$> response_of sys 1) <> Some 409%Z.
Proof.
  cbv zeta.
  destruct (@one_deduction_but_no_conflict Reference.platform)
    as (Hnever & Hrace & Hunrefused).
  assert (Hauth : authenticates Scenario.wanted Scenario.post Scenario.alice).
  { split; [vm_compute; discriminate|].
    exists (js "Bearer token"). repeat split. vm_compute. discriminate. }
  assert (Hserve : forall i t,
             threads (Scenario.twoRequests Scenario.oneCredit) !! i = Some t ->
             exists req, prog t = @serve Reference.platform req).
  { intros [|[|i]] t Hi; cbn in Hi; try discriminate;
      injection Hi as <-; exists Scenario.post; reflexivity. }
  split; [|split; [|split; [|split; [|split]]]].
  - intros uid row.
    apply (Hnever (Scenario.twoRequests Scenario.oneCredit)
                  ([0; 1; 0; 1] ++ [0; 1; 0; 0; 0; 1; 1; 1])%nat Hserve).
    intros uid' row' Hrow'. unfold Scenario.twoRequests, Scenario.oneCredit in Hrow'.
    cbn [rows] in Hrow'. apply lookup_insert_Some in Hrow' as [[_ <-] | [_ Hempty]].
    + vm_compute. discriminate.
    + rewrite lookup_empty in Hempty. discriminate.
  - destruct (Hrace Scenario.wanted Scenario.wanted Scenario.post Scenario.post
                    Scenario.alice Scenario.oneCredit
                    [0; 1; 0; 1]%nat [0; 1; 0; 0; 0; 1; 1; 1]%nat Hauth Hauth)
      as (_ & _ & Hboth).
    + vm_compute. reflexivity.
    + vm_compute. tauto.
    + destruct (response_of
                  (@exec Reference.platform
                         ([0; 1; 0; 1] ++ [0; 1; 0; 0; 0; 1; 1; 1])%nat
                         (Scenario.twoRequests Scenario.oneCredit)) 0)
        as [r0|] eqn:Hfirst; [|vm_compute in Hfirst; discriminate].
      destruct (response_of
                  (@exec Reference.platform
                         ([0; 1; 0; 1] ++ [0; 1; 0; 0; 0; 1; 1; 1])%nat
                         (Scenario.twoRequests Scenario.oneCredit)) 1)
        as [r1|] eqn:Hsecond; [|vm_compute in Hsecond; discriminate].
      exact (proj1 (Hboth r0 r1 Hfirst Hsecond)).
  - destruct (Hrace Scenario.wanted Scenario.wanted Scenario.post Scenario.post
                    Scenario.alice Scenario.oneCredit
                    [0; 1; 0; 1]%nat [0; 1; 0; 0; 0; 1; 1; 1]%nat Hauth Hauth)
      as (_ & _ & Hboth).
    + vm_compute. reflexivity.
    + vm_compute. tauto.
    + destruct (response_of
                  (@exec Reference.platform
                         ([0; 1; 0; 1] ++ [0; 1; 0; 0; 0; 1; 1; 1])%nat
                         (Scenario.twoRequests Scenario.oneCredit)) 0)
        as [r0|] eqn:Hfirst; [|vm_compute in Hfirst; discriminate].
      destruct (response_of
                  (@exec Reference.platform
                         ([0; 1; 0; 1] ++ [0; 1; 0; 0; 0; 1; 1; 1])%nat
                         (Scenario.twoRequests Scenario.oneCredit)) 1)
        as [r1|] eqn:Hsecond; [|vm_compute in Hsecond; discriminate].
      exact (proj2 (Hboth r0 r1 Hfirst Hsecond)).
  - vm_compute. reflexivity.
  - vm_compute. reflexivity.
  - destruct (response_of
                (@exec Reference.platform
                       ([0; 1; 0; 1] ++ [0; 1; 0; 0; 0; 1; 1; 1])%nat
                       (Scenario.twoRequests Scenario.oneCredit)) 1)
      as [r1|] eqn:Hsecond; [|discriminate].
    cbn [fmap option_fmap option_map]. intros [= Hstatus].
    exact (Hunrefused (fun n => eq_refl)
                      (Scenario.twoRequests Scenario.oneCredit)
                      ([0; 1; 0; 1] ++ [0; 1; 0; 0; 0; 1; 1; 1])%nat 1%nat r1
                      Hserve Hsecond Hstatus).
Defined.
